(** * Rigol power-supply logger: acquisition loop, sliding window and export

    A shallow embedding of the data pipeline of [Power_Supply_Stopper.py]
    (classes [DataManager], [DataExporter], [DataLogger]) and of the older
    [DataLogger._log_data] loop kept in the second source file, followed by
    the properties of the acquisition loop that the specification states.

    Python's [float] is IEEE 754 binary64; it is embedded as Rocq's primitive
    [float], whose operations are the same binary64 operations, so that
    samples can be evaluated.  Integers are [Z], strings are [string], and an
    f-string is kept as the list of its pieces ([message]) instead of being
    rendered. *)

From Stdlib Require Import Floats ZArith String Ascii Bool Lia.
From stdpp Require Import base list strings gmap sorting pretty.
Import ListNotations.

Set Warnings "-inexact-float,-register-all".

Local Open Scope Z_scope.
Local Open Scope string_scope.
Local Open Scope list_scope.

(** ** Floats as Python uses them *)

Notation "x >. y" := (PrimFloat.ltb y x) (at level 70, no associativity).
Notation "x <. y" := (PrimFloat.ltb x y) (at level 70, no associativity).
Notation "x <=. y" := (PrimFloat.leb x y) (at level 70, no associativity).
Notation "x >=. y" := (PrimFloat.leb y x) (at level 70, no associativity).

Definition fabs : float -> float := PrimFloat.abs.
Definition inf : float := infinity.

(** [max(0, x)] as Python evaluates it: the second argument is returned only
    when it compares greater than the first. *)
Definition max0 (x : float) : float := if x >. 0%float then x else 0%float.

(** [float(n)] for an integer that fits a machine word. *)
Definition float_of_Z (n : Z) : float := PrimFloat.of_uint63 (Uint63.of_Z n).

(** ** Strings *)

Definition lower_ascii (c : ascii) : ascii :=
  let n := nat_of_ascii c in
  if (65 <=? n)%nat && (n <=? 90)%nat then ascii_of_nat (n + 32) else c.

Definition upper_ascii (c : ascii) : ascii :=
  let n := nat_of_ascii c in
  if (97 <=? n)%nat && (n <=? 122)%nat then ascii_of_nat (n - 32) else c.

Fixpoint str_map (f : ascii -> ascii) (s : string) : string :=
  match s with
  | EmptyString => EmptyString
  | String c r => String (f c) (str_map f r)
  end.

(** [s.lower()] and [s.upper()] on ASCII text. *)
Definition lower : string -> string := str_map lower_ascii.
Definition upper : string -> string := str_map upper_ascii.

(** An f-string, unrendered: literal text and the formatted values. *)
Inductive part : Type :=
  | S_ (s : string)          (* literal text, or a [{s}] of a string *)
  | F_ (x : float)           (* [{x}] *)
  | F4 (x : float)           (* [{x:.4f}] *)
  | F0 (x : float)           (* [{x:.0f}] *)
  | I_ (n : Z)               (* [{n}] of an integer *)
  | Fu (x : float)           (* [str(x).replace('.', '_')] *)
  | Sep                      (* the path separator of [os.path.join] *)
  | Base (path : list part). (* [{os.path.basename(path)}] *)

Definition message : Type := list part.

(** ** Constants of [Power_Supply_Stopper.py] *)

Definition MIN_PLOT_POINTS : Z := 10.
Definition MIN_UPDATE_INTERVAL_MS : Z := 10.
Definition INITIAL_SETTLING_TIME_S : float := 1.0%float.
Definition ZERO_VI_STOP_DELAY_S : float := 1.0%float.
Definition ZERO_VI_THRESHOLD : float := 0.001%float.
Definition MODE_CONSTANT_VOLTAGE : string := "Constant Voltage".
Definition MODE_CONSTANT_CURRENT : string := "Constant Current".

Definition STATUS_INFO : string := "info".
Definition STATUS_SUCCESS : string := "success".
Definition STATUS_WARNING : string := "warning".
Definition STATUS_ERROR : string := "error".

Definition DEFAULT_EXPORT_FORMAT : string := "csv".

(** ** Samples *)

(** A logged row [[et, v_m, c_m, p, r]]. *)
Record Row : Type := mkRow {
  row_t : float;
  row_v : float;
  row_i : float;
  row_p : float;
  row_r : float
}.

(** [p = v_m * c_m]. *)
Definition power (v_m c_m : float) : float := (v_m * c_m)%float.

(** [r = v_m / c_m if abs(c_m) > 1e-9 else float('inf')]. *)
Definition resistance (v_m c_m : float) : float :=
  if fabs c_m >. 1e-9%float then (v_m / c_m)%float else inf.

Definition make_row (et v_m c_m : float) : Row :=
  mkRow et v_m c_m (power v_m c_m) (resistance v_m c_m).

(** ** The validated configuration

    [ConfigManager.load_config] merges the stored file over the defaults, and
    [PowerLoggerApp.apply_and_save_config], which runs before every start,
    assigns every key a value of the type below; the dictionary is therefore
    embedded as a record. *)
Record Config : Type := mkConfig {
  resource_name : string;
  voltage : float;
  current : float;
  threshold : float;
  stop_condition : string;
  update_interval_ms : Z;
  max_plot_points_cfg : Z;
  save_location : string;
  export_format : string;
  simulation_mode : bool;
  operation_mode : string
}.

(** ** [DataManager]: display queue and sliding window *)

Module DataManager.

(** [collections.deque(maxlen=n).append(x)]: the item is added on the
    right, and when the length then exceeds [maxlen] the leftmost item is
    dropped. *)
Definition deque_append {A : Type} (maxlen : nat) (d : list A) (x : A) : list A :=
  let d' := d ++ [x] in
  if (maxlen <? length d')%nat then drop 1 d' else d'.

Record t : Type := mk {
  max_plot_points : Z;
  data_queue : list Row;
  time_data : list float;
  voltage_data : list float;
  current_data : list float;
  power_data : list float;
  resistance_data : list float
}.

(** [DataManager.__init__]. *)
Definition init (max_plot_points : Z) : t :=
  mk (Z.max max_plot_points MIN_PLOT_POINTS) [] [] [] [] [] [].

Definition maxlen (dm : t) : nat := Z.to_nat (max_plot_points dm).

Definition put (data_point : Row) (dm : t) : t :=
  mk (max_plot_points dm) (data_queue dm ++ [data_point])
     (time_data dm) (voltage_data dm) (current_data dm)
     (power_data dm) (resistance_data dm).

(** [get_nowait]: [None] stands for [queue.Empty]. *)
Definition get_nowait (dm : t) : option (Row * t) :=
  match data_queue dm with
  | [] => None
  | x :: q =>
      Some (x, mk (max_plot_points dm) q
                  (time_data dm) (voltage_data dm) (current_data dm)
                  (power_data dm) (resistance_data dm))
  end.

Definition empty (dm : t) : bool :=
  match data_queue dm with [] => true | _ => false end.

Definition append_for_plotting (x : Row) (dm : t) : t :=
  let n := maxlen dm in
  mk (max_plot_points dm) (data_queue dm)
     (deque_append n (time_data dm) (row_t x))
     (deque_append n (voltage_data dm) (row_v x))
     (deque_append n (current_data dm) (row_i x))
     (deque_append n (power_data dm) (row_p x))
     (deque_append n (resistance_data dm) (row_r x)).

Definition clear_plot_data (dm : t) : t :=
  mk (max_plot_points dm) (data_queue dm) [] [] [] [] [].

(** The display step of [PowerLoggerApp._update_plot]: at most one queued
    point is moved to the window per frame. *)
Definition drain_one (dm : t) : t :=
  match get_nowait dm with
  | None => dm
  | Some (x, dm') => append_for_plotting x dm'
  end.

(** The five series, as the plot reads them. *)
Definition series (dm : t) : list (list float) :=
  [time_data dm; voltage_data dm; current_data dm; power_data dm;
   resistance_data dm].

(** The five series that hold exactly the given samples. *)
Definition series_of (rows : list Row) : list (list float) :=
  [row_t <$> rows; row_v <$> rows; row_i <$> rows; row_p <$> rows;
   row_r <$> rows].

(** All five series have one length. *)
Definition lock_step (dm : t) : Prop :=
  length (voltage_data dm) = length (time_data dm) /\
  length (current_data dm) = length (time_data dm) /\
  length (power_data dm) = length (time_data dm) /\
  length (resistance_data dm) = length (time_data dm).

(** The operations a manager undergoes after its construction. *)
Inductive op : Type :=
  | Put (x : Row)
  | GetNowait
  | AppendForPlotting (x : Row)
  | ClearPlotData
  | DrainOne.

Definition apply (o : op) (dm : t) : t :=
  match o with
  | Put x => put x dm
  | GetNowait => match get_nowait dm with Some (_, dm') => dm' | None => dm end
  | AppendForPlotting x => append_for_plotting x dm
  | ClearPlotData => clear_plot_data dm
  | DrainOne => drain_one dm
  end.

Definition run (ops : list op) (dm : t) : t := foldl (fun d o => apply o d) dm ops.

(** The window never holds more than its capacity. *)
Definition bounded (dm : t) : Prop := (length (time_data dm) <= maxlen dm)%nat.

(** Samples appended to the window one after the other. *)
Definition appends (rows : list Row) (dm : t) : t :=
  foldl (fun d x => append_for_plotting x d) dm rows.

(** The last [n] items of a list. *)
Definition last_n {A : Type} (n : nat) (l : list A) : list A :=
  drop (length l - n) l.

End DataManager.

(** ** Effects

    Every observable action of the logger is recorded, in program order, in
    one trace: messages put on the status queue (and, in the older loop, on
    the error queue), instrument I/O, appends to the accumulator, puts on
    the display queue, and the calls of the export pipeline. *)

Inductive exn : Type :=
  | VisaIOError (e : string)     (* [pyvisa.errors.VisaIOError] *)
  | ValueError (e : string)
  | OtherError (e : string).     (* any other [Exception] *)

Definition exn_text (x : exn) : string :=
  match x with VisaIOError e | ValueError e | OtherError e => e end.

Inductive result (A : Type) : Type :=
  | Ok (a : A)
  | Raise (x : exn).
Arguments Ok {A} a.
Arguments Raise {A} x.

Inductive event : Type :=
  | EvStatus (level : string) (msg : message)   (* [status_queue.put((level, msg))] *)
  | EvError (level : string) (msg : message)    (* [error_queue.put((level, msg))] *)
  | EvQuery (cmd : string)                      (* [dp.query(cmd)] *)
  | EvWrite (cmd : message)                     (* [dp.write(cmd)] *)
  | EvClose                                     (* [dp.close()] *)
  | EvRmClose                                   (* [rm.close()] *)
  | EvLogged (row : Row)                        (* [_logged_data.append(row)] *)
  | EvPut (row : Row)                           (* [data_manager.put(row)] *)
  | EvExport (base : message) (data : list Row) (cfg : Config) (notes : string)
                                                (* [DataExporter.export_data(...)] *)
  | EvSave (fmt : string) (filepath : message) (data : list Row)
           (cfg : Config) (notes : string)      (* [save_map[fmt](filepath, ...)] *)
  | EvMakedirs (loc : message)                  (* [os.makedirs(loc, exist_ok=True)] *)
  | EvBeep                                      (* [winsound.Beep(1000, 500)] *)
  | EvSleep (d : float)                         (* [time.sleep(d)] *)
  | EvTraceback.                                (* [print(traceback.format_exc())] *)

(** What the file system does to one writer: the three [save_to_*] functions
    catch every exception themselves and answer [(success, message)]. *)
Inductive write_outcome : Type :=
  | Written
  | WriteIOError (e : string)
  | WriteFailed (e : string)
  | LibraryMissing.             (* [pandas] / [openpyxl] not importable *)

(** The part of the host the stop sequence touches. *)
Record Host : Type := mkHost {
  timestamp : string;                        (* [datetime.now().strftime(...)] *)
  script_dir : string;
  makedirs_error : option exn;               (* [os.makedirs] raising *)
  writer : string -> write_outcome           (* per format *)
}.

(** ** A state monad with exceptions

    The logger's methods mutate [self] and a few of them let an exception
    escape; they are written in a state monad over the object, whose results
    are [Ok] or [Raise]. *)

Definition M (St A : Type) : Type := St -> result A * St.

Definition ret {St A} (a : A) : M St A := fun s => (Ok a, s).

Definition bind {St A B} (m : M St A) (k : A -> M St B) : M St B :=
  fun s => match m s with
           | (Ok a, s') => k a s'
           | (Raise x, s') => (Raise x, s')
           end.

Definition raise {St A} (x : exn) : M St A := fun s => (Raise x, s).

(** [try: m], handing the outcome to the [except] clauses. *)
Definition try_ {St A} (m : M St A) : M St (result A) :=
  fun s => let '(r, s') := m s in (Ok r, s').

Definition get {St} : M St St := fun s => (Ok s, s).
Definition modify {St} (f : St -> St) : M St unit := fun s => (Ok tt, f s).

Declare Scope py_scope.
Delimit Scope py_scope with py.
Notation "x <- m ;; k" := (bind m (fun x => k))
  (at level 100, m at next level, right associativity) : py_scope.
Notation "m ;; k" := (bind m (fun _ => k))
  (at level 100, right associativity) : py_scope.
Notation "'when' b 'then' m" := (if b then m else ret tt)
  (at level 100, b at next level) : py_scope.

(** How an iteration of a [while] loop ends. *)
Inductive control : Type := Continue | Break.

(** ** [DataExporter] *)

Module DataExporter.

Definition save_to_csv (o : write_outcome) (filepath : message) : bool * message :=
  match o with
  | WriteIOError e => (false, [S_ "CSV I/O Error: "; S_ e])
  | WriteFailed e => (false, [S_ "CSV Save Error: "; S_ e])
  | Written | LibraryMissing => (true, [S_ "CSV saved: "; Base filepath])
  end.

Definition save_to_excel (o : write_outcome) (filepath : message) : bool * message :=
  match o with
  | LibraryMissing => (false, [S_ "Excel export requires 'pandas' and 'openpyxl'."])
  | WriteIOError e | WriteFailed e => (false, [S_ "Excel Save Error: "; S_ e])
  | Written => (true, [S_ "Excel saved: "; Base filepath])
  end.

Definition save_to_json (o : write_outcome) (filepath : message) : bool * message :=
  match o with
  | LibraryMissing => (false, [S_ "JSON export requires 'pandas'."])
  | WriteIOError e | WriteFailed e => (false, [S_ "JSON Save Error: "; S_ e])
  | Written => (true, [S_ "JSON saved: "; Base filepath])
  end.

(** [save_map], in insertion order. *)
Definition save_map : list (string * (write_outcome -> message -> bool * message)) :=
  [("csv", save_to_csv); ("xlsx", save_to_excel); ("json", save_to_json)].

Fixpoint lookup (fmt : string)
    (m : list (string * (write_outcome -> message -> bool * message)))
    : option (write_outcome -> message -> bool * message) :=
  match m with
  | [] => None
  | (k, f) :: m' => if String.eqb fmt k then Some f else lookup fmt m'
  end.

Definition keys : list string := fst <$> save_map.

(** One turn of the [for fmt in formats_to_save] loop. *)
Definition export_one (h : Host) (base : message) (data : list Row)
    (cfg : Config) (notes : string) (fmt : string) : list event :=
  match lookup fmt save_map with
  | None => []
  | Some save =>
      let filepath := base ++ [S_ "."; S_ fmt] in
      let '(success, msg) := save (writer h fmt) filepath in
      [EvStatus STATUS_INFO [S_ "Saving to "; S_ (upper fmt); S_ "..."];
       EvSave fmt filepath data cfg notes;
       EvStatus (if success then STATUS_SUCCESS else STATUS_ERROR) msg]
  end.

(** [DataExporter.export_data]: the effects of one call. *)
Definition export_data (h : Host) (base : message) (data : list Row)
    (cfg : Config) (notes : string) : list event :=
  match data with
  | [] => [EvStatus STATUS_WARNING [S_ "No data logged to export."]]
  | _ =>
      let formats_to_save :=
        if String.eqb (export_format cfg) "all" then keys
        else [export_format cfg] in
      concat (export_one h base data cfg notes <$> formats_to_save)
  end.

(** The formats whose writer was called, in call order. *)
Definition attempted (tr : list event) : list string :=
  omap (fun e => match e with EvSave fmt _ _ _ _ => Some fmt | _ => None end) tr.

(** The outcome each format reported: [(fmt, success)] in call order. *)
Fixpoint reports (tr : list event) : list (string * bool) :=
  match tr with
  | EvSave fmt _ _ _ _ :: EvStatus lvl _ :: tr' =>
      (fmt, String.eqb lvl STATUS_SUCCESS) :: reports tr'
  | _ :: tr' => reports tr'
  | [] => []
  end.

End DataExporter.

(** ** The instrument and one iteration's inputs *)

(** What the connected instrument does to writes and to [close()]. *)
Record Instrument : Type := mkInstrument {
  write_error : message -> option exn;
  close_error : option exn
}.

(** What a measurement query yields: a reply together with what [float()]
    makes of it ([None]: [ValueError]), or an exception of the transport. *)
Inductive answer : Type :=
  | Reply (text : string) (value : option float)
  | QueryVisaError (e : string)      (* [pyvisa.errors.VisaIOError] *)
  | QueryOtherError (e : string).    (* any other exception of the transport *)

Definition reply_text (a : answer) : string :=
  match a with Reply text _ => text | _ => "" end.

(** Everything one loop iteration takes from outside the program. *)
Record Tick : Type := mkTick {
  now : float;              (* [time.time()] at the top of the iteration *)
  volt : answer;            (* answer to [:MEAS:VOLT? CH1] *)
  curr : answer;            (* answer to [:MEAS:CURR? CH1] *)
  randn : float;            (* [np.random.randn()] *)
  spent : float;            (* [perf_counter() - loop_start] before the sleep *)
  beep : option (option exn)  (* [None]: no [winsound]; [Some r]: what [Beep] raises *)
}.

Inductive thread : Type := NoThread | Alive | Finished.

Definition OUTP_OFF : message := [S_ ":OUTP OFF"].
Definition OUTP_CH1_OFF : message := [S_ ":OUTP CH1,OFF"].
Definition MEAS_VOLT : string := ":MEAS:VOLT? CH1".
Definition MEAS_CURR : string := ":MEAS:CURR? CH1".

(** [float(reply)]. *)
Definition to_float {St} (reply : string * option float) : M St float :=
  match reply with
  | (_, Some x) => ret x
  | (text, None) => raise (ValueError ("could not convert string to float: " ++ text))
  end.

(** ** [DataLogger] of [Power_Supply_Stopper.py] *)

Module DataLogger.

Record t : Type := mk {
  config : Config;
  data_manager : DataManager.t;
  dp : option Instrument;
  rm : bool;
  stop_event : bool;
  logging_thread : thread;
  is_simulating : bool;
  _logged_data : list Row;
  _sim_start_time : option float;
  (* locals of [_log_data_loop] *)
  start_time : float;
  points : Z;
  delay_s : float;
  (* everything done so far *)
  trace : list event
}.

(** [DataLogger.__init__]. *)
Definition init (config : Config) (data_manager : DataManager.t) : t :=
  mk config data_manager None false false NoThread (simulation_mode config)
     [] None 0%float 0 0%float [].

Definition set_data_manager x s :=
  mk (config s) x (dp s) (rm s) (stop_event s) (logging_thread s)
     (is_simulating s) (_logged_data s) (_sim_start_time s) (start_time s)
     (points s) (delay_s s) (trace s).
Definition set_dp x s :=
  mk (config s) (data_manager s) x (rm s) (stop_event s) (logging_thread s)
     (is_simulating s) (_logged_data s) (_sim_start_time s) (start_time s)
     (points s) (delay_s s) (trace s).
Definition set_rm x s :=
  mk (config s) (data_manager s) (dp s) x (stop_event s) (logging_thread s)
     (is_simulating s) (_logged_data s) (_sim_start_time s) (start_time s)
     (points s) (delay_s s) (trace s).
Definition set_stop_event x s :=
  mk (config s) (data_manager s) (dp s) (rm s) x (logging_thread s)
     (is_simulating s) (_logged_data s) (_sim_start_time s) (start_time s)
     (points s) (delay_s s) (trace s).
Definition set_logging_thread x s :=
  mk (config s) (data_manager s) (dp s) (rm s) (stop_event s) x
     (is_simulating s) (_logged_data s) (_sim_start_time s) (start_time s)
     (points s) (delay_s s) (trace s).
Definition set_logged_data x s :=
  mk (config s) (data_manager s) (dp s) (rm s) (stop_event s) (logging_thread s)
     (is_simulating s) x (_sim_start_time s) (start_time s)
     (points s) (delay_s s) (trace s).
Definition set_sim_start_time x s :=
  mk (config s) (data_manager s) (dp s) (rm s) (stop_event s) (logging_thread s)
     (is_simulating s) (_logged_data s) x (start_time s)
     (points s) (delay_s s) (trace s).
Definition set_locals t0 n d s :=
  mk (config s) (data_manager s) (dp s) (rm s) (stop_event s) (logging_thread s)
     (is_simulating s) (_logged_data s) (_sim_start_time s) t0 n d (trace s).
Definition set_trace x s :=
  mk (config s) (data_manager s) (dp s) (rm s) (stop_event s) (logging_thread s)
     (is_simulating s) (_logged_data s) (_sim_start_time s) (start_time s)
     (points s) (delay_s s) x.

Local Open Scope py_scope.

Definition emit (e : event) : M t unit :=
  modify (fun s => set_trace (trace s ++ [e]) s).

Definition emits (es : list event) : M t unit :=
  modify (fun s => set_trace (trace s ++ es) s).

Definition _send_status (level : string) (msg : message) : M t unit :=
  emit (EvStatus level msg).

(** [self.dp.write(cmd)]. *)
Definition dp_write (cmd : message) : M t unit :=
  s <- get ;;
  match dp s with
  | None => raise (OtherError "'NoneType' object has no attribute 'write'")
  | Some ins =>
      emit (EvWrite cmd) ;;
      match write_error ins cmd with
      | Some x => raise x
      | None => ret tt
      end
  end.

(** [self.dp.query(cmd)], answered by [a]. *)
Definition dp_query (cmd : string) (a : answer) : M t (string * option float) :=
  s <- get ;;
  match dp s with
  | None => raise (OtherError "'NoneType' object has no attribute 'query'")
  | Some _ =>
      emit (EvQuery cmd) ;;
      match a with
      | Reply text value => ret (text, value)
      | QueryVisaError e => raise (VisaIOError e)
      | QueryOtherError e => raise (OtherError e)
      end
  end.

(** [try: m / except Exception: pass]. *)
Definition ignoring (m : M t unit) : M t unit :=
  _ <- try_ m ;; ret tt.

Definition _close_connection : M t unit :=
  s <- get ;;
  match dp s with
  | Some ins =>
      r <- try_ (ignoring (dp_write OUTP_OFF) ;;
                 emit EvClose ;;
                 match close_error ins with
                 | Some x => raise x
                 | None => _send_status STATUS_INFO [S_ "Instrument connection closed."]
                 end) ;;
      match r with
      | Ok _ => ret tt
      | Raise x => _send_status STATUS_ERROR [S_ "Error closing instrument: "; S_ (exn_text x)]
      end ;;
      modify (set_dp None)
  | None => ret tt
  end ;;
  s <- get ;;
  when rm s then (emit EvRmClose ;; modify (set_rm false)).

Definition _setup_instrument : M t bool :=
  s <- get ;;
  let v := voltage (config s) in
  let c := current (config s) in
  let mode := operation_mode (config s) in
  let t := threshold (config s) in
  r <- try_ (
    (if String.eqb mode MODE_CONSTANT_CURRENT then
       dp_write [S_ ":VOLT:PROT "; F_ t] ;;
       dp_write [S_ ":OUTP:OVP ON"] ;;
       _send_status STATUS_INFO [S_ "OVP ON. V Limit: "; F_ t; S_ "V."]
     else
       dp_write [S_ ":OUTP:OVP OFF"] ;;
       _send_status STATUS_INFO [S_ "OVP OFF."]) ;;
    dp_write [S_ ":APPL CH1,"; F_ v; S_ ","; F_ c] ;;
    dp_write [S_ ":OUTP CH1,ON"] ;;
    _send_status STATUS_INFO
      [S_ "Set: "; F_ v; S_ "V, "; F_ c; S_ "A, ON. Mode: "; S_ mode]) ;;
  match r with
  | Ok _ => ret true
  | Raise (VisaIOError e) =>
      _send_status STATUS_ERROR [S_ "VISA Error during setup: "; S_ e] ;; ret false
  | Raise x =>
      _send_status STATUS_ERROR [S_ "Setup Error: "; S_ (exn_text x)] ;; ret false
  end.

(** [_generate_base_filename]; the stored save location was stripped when
    the settings were applied. *)
Definition _generate_base_filename (h : Host) : M t message :=
  s <- get ;;
  let v := voltage (config s) in
  let c := current (config s) in
  let loc := save_location (config s) in
  loc <- (if String.eqb loc "" then
            let loc := [S_ (script_dir h); Sep; S_ "logs"] in
            _send_status STATUS_WARNING
              (S_ "Save location was empty. Defaulting to: " :: loc) ;;
            ret loc
          else ret [S_ loc]) ;;
  emit (EvMakedirs loc) ;;
  match makedirs_error h with
  | Some x => raise x
  | None =>
      ret (loc ++ [Sep; S_ "Rigol Power Supply V"; Fu v; S_ "_A"; Fu c;
                   S_ "_"; S_ (timestamp h)])
  end.

Definition _read_instrument (i : Tick) : M t (float * float) :=
  reply <- dp_query MEAS_VOLT (volt i) ;;
  v <- to_float reply ;;
  reply <- dp_query MEAS_CURR (curr i) ;;
  c <- to_float reply ;;
  ret (v, c).

Definition _read_simulation (elapsed_time : float) (i : Tick) : M t (float * float) :=
  s <- get ;;
  let v := voltage (config s) in
  let c_set := current (config s) in
  let c := max0 ((c_set - 0.05 * elapsed_time) + randn i * 0.005)%float in
  ret (v, c).

Definition _check_stop_condition (v i : float) : M t bool :=
  s <- get ;;
  let mode := operation_mode (config s) in
  let threshold := threshold (config s) in
  let condition := stop_condition (config s) in
  let cv := String.eqb mode MODE_CONSTANT_VOLTAGE in
  let value_to_check := if cv then fabs i else v in
  let limit_type := if cv then "Current" else "Voltage" in
  let unit := if cv then "A" else "V" in
  if String.eqb (lower condition) "below" && (value_to_check <. threshold) then
    _send_status STATUS_WARNING
      [S_ "Stop: "; S_ limit_type; S_ " "; F4 value_to_check; S_ " < ";
       F4 threshold; S_ " "; S_ unit; S_ "."] ;;
    ret true
  else if String.eqb (lower condition) "above" && (value_to_check >. threshold) then
    _send_status STATUS_WARNING
      [S_ "Stop: "; S_ limit_type; S_ " "; F4 value_to_check; S_ " > ";
       F4 threshold; S_ " "; S_ unit; S_ "."] ;;
    ret true
  else ret false.

(** The [finally] clause of the worker; the thread is then no longer alive. *)
Definition finally_ : M t unit :=
  _send_status "LOGGER_FINISHED" [S_ "Logger thread has ended."] ;;
  modify (set_logging_thread Finished).

(** The statements of [_log_data_loop] before its [while]. *)
Definition loop_setup (clock : float) : M t unit :=
  s <- get ;;
  let interval_ms := update_interval_ms (config s) in
  let delay_s := (float_of_Z (Z.max interval_ms MIN_UPDATE_INTERVAL_MS) / 1000.0)%float in
  modify (set_locals clock 0 delay_s) ;;
  _send_status STATUS_INFO
    [S_ "Logging started (Interval: "; F0 (delay_s * 1000)%float; S_ "ms)."].

(** The stop-condition checks of one iteration: [stop_now]. *)
Definition stop_checks (et v_m c_m : float) : M t bool :=
  if (et >. ZERO_VI_STOP_DELAY_S) && (fabs v_m <. ZERO_VI_THRESHOLD)
     && (fabs c_m <. ZERO_VI_THRESHOLD) then
    _send_status STATUS_WARNING [S_ "Zero V & I detected. Stopping."] ;;
    ret true
  else if et >. INITIAL_SETTLING_TIME_S then _check_stop_condition v_m c_m
  else ret false.

(** The [if stop_now:] block, up to its [break]. *)
Definition auto_stop (i : Tick) : M t unit :=
  s <- get ;;
  (when negb (is_simulating s) && bool_decide (is_Some (dp s))
   then ignoring (dp_write OUTP_CH1_OFF)) ;;
  (when bool_decide (is_Some (beep i)) then emit EvBeep) ;;
  modify (set_stop_event true) ;;
  _send_status "STOP_SIGNAL" [S_ "Auto-Stop Triggered"].

(** The body of the [while] loop. *)
Definition iteration (i : Tick) : M t control :=
  s <- get ;;
  let et := (now i - start_time s)%float in
  r <- try_ (if is_simulating s then _read_simulation et i
             else _read_instrument i) ;;
  match r with
  | Raise (VisaIOError e) =>
      _send_status STATUS_ERROR [S_ "VISA Read Error: "; S_ e; S_ ". Stopping."] ;;
      modify (set_stop_event true) ;;
      ret Break
  | Raise x =>
      _send_status STATUS_ERROR [S_ "Read Error: "; S_ (exn_text x); S_ ". Stopping."] ;;
      emit EvTraceback ;;
      modify (set_stop_event true) ;;
      ret Break
  | Ok (v_m, c_m) =>
      let row := make_row et v_m c_m in
      modify (fun s => set_logged_data (_logged_data s ++ [row]) s) ;;
      emit (EvLogged row) ;;
      modify (fun s => set_data_manager (DataManager.put row (data_manager s)) s) ;;
      emit (EvPut row) ;;
      modify (fun s => set_locals (start_time s) (points s + 1) (delay_s s) s) ;;
      stop_now <- stop_checks et v_m c_m ;;
      if stop_now then
        auto_stop i ;;
        ret Break
      else
        s <- get ;;
        let sleep_dur := (delay_s s - spent i)%float in
        (when sleep_dur >. 0%float then emit (EvSleep sleep_dur)) ;;
        ret Continue
  end.

(** [while not self.stop_event.is_set(): ...] over the iterations that get
    to start; the answer tells whether the loop was left.  When the
    iterations given are used up and the event is still clear, the worker
    is at the head of the loop. *)
Fixpoint while_loop (ticks : list Tick) : M t bool :=
  s <- get ;;
  if stop_event s then ret true
  else match ticks with
       | [] => ret false
       | i :: ticks' =>
           c <- iteration i ;;
           match c with
           | Break => ret true
           | Continue => while_loop ticks'
           end
       end.

(** The [try / except Exception / finally] around the worker's code. *)
Definition guarded (body : M t bool) : M t unit :=
  r <- try_ body ;;
  match r with
  | Ok false => ret tt
  | Ok true => finally_
  | Raise x =>
      _send_status STATUS_ERROR [S_ "Critical Log Loop Error: "; S_ (exn_text x)] ;;
      emit EvTraceback ;;
      finally_
  end.

(** The worker thread, run for the given iterations. *)
Definition _log_data_loop (clock : float) (ticks : list Tick) : M t unit :=
  guarded (loop_setup clock ;; while_loop ticks).

(** The worker thread going on from the head of its loop. *)
Definition resume (ticks : list Tick) : M t unit :=
  s <- get ;;
  match logging_thread s with
  | Alive => guarded (while_loop ticks)
  | _ => ret tt
  end.

(** [self.logging_thread.join(...)] once the event is set: a worker at the
    head of its loop leaves it. *)
Definition join : M t unit := resume [].

Definition stop (h : Host) (notes_content : string) : M t unit :=
  s <- get ;;
  (when negb (stop_event s)
   then (_send_status STATUS_INFO [S_ "Stop requested..."] ;;
         modify (set_stop_event true))) ;;
  join ;;
  base_filename <- _generate_base_filename h ;;
  s <- get ;;
  emit (EvExport base_filename (_logged_data s) (config s) notes_content) ;;
  emits (DataExporter.export_data h base_filename (_logged_data s) (config s)
           notes_content) ;;
  (if negb (is_simulating s) then _close_connection
   else _send_status STATUS_INFO [S_ "Simulation stopped."]) ;;
  modify (set_logging_thread NoThread) ;;
  s <- get ;;
  _send_status STATUS_SUCCESS
    [S_ "Logger stopped. "; I_ (Z.of_nat (length (_logged_data s)));
     S_ " points recorded."].

(** The end of [start]: the accumulator is emptied and the thread started. *)
Definition launch : M t bool :=
  modify (set_logged_data []) ;;
  modify (set_logging_thread Alive) ;;
  ret true.

Definition start (h : Host) (clock : float) : M t bool :=
  modify (set_stop_event false) ;;
  s <- get ;;
  match logging_thread s with
  | Alive =>
      _send_status STATUS_WARNING [S_ "Logging already running."] ;; ret false
  | _ =>
      if negb (is_simulating s) then
        match dp s with
        | None => _send_status STATUS_ERROR [S_ "Not connected."] ;; ret false
        | Some _ =>
            ok <- _setup_instrument ;;
            if ok then launch else (stop h "" ;; ret false)
        end
      else
        modify (set_sim_start_time (Some clock)) ;;
        _send_status STATUS_INFO [S_ "Simulation started."] ;;
        launch
  end.

(** One run: a successful [start], the worker's iterations, and [stop]
    (called by the application on the stop button, on [STOP_SIGNAL] or on
    [LOGGER_FINISHED]). *)
Definition run (h : Host) (clock0 clock1 : float) (ticks : list Tick)
    (notes : string) : M t bool :=
  started <- start h clock0 ;;
  if started then
    _log_data_loop clock1 ticks ;;
    stop h notes ;;
    ret true
  else ret false.

End DataLogger.

(** ** The older acquisition loop: [DataLogger._log_data] of the second file

    This version of the logger reports on two queues, [status_queue] and
    [error_queue], reads the threshold settings once before the loop, and
    always watches the current. *)

Module Part000.

Record t : Type := mk {
  config : Config;
  data_manager : option DataManager.t;
  dp : option Instrument;
  stop_event : bool;
  logging_thread : thread;
  is_simulating : bool;
  _logged_data : list Row;
  _sim_current : float;
  _sim_voltage : float;
  _sim_start_time : option float;
  (* locals of [_log_data] *)
  acquisition_delay_s : float;
  start_time : float;
  last_status_update_time : float;
  points_logged : Z;
  threshold_ : float;
  stop_condition_ : string;
  (* everything done so far *)
  trace : list event
}.

Definition set_data_manager x s :=
  mk (config s) x (dp s) (stop_event s) (logging_thread s) (is_simulating s)
     (_logged_data s) (_sim_current s) (_sim_voltage s) (_sim_start_time s)
     (acquisition_delay_s s) (start_time s) (last_status_update_time s)
     (points_logged s) (threshold_ s) (stop_condition_ s) (trace s).
Definition set_stop_event x s :=
  mk (config s) (data_manager s) (dp s) x (logging_thread s) (is_simulating s)
     (_logged_data s) (_sim_current s) (_sim_voltage s) (_sim_start_time s)
     (acquisition_delay_s s) (start_time s) (last_status_update_time s)
     (points_logged s) (threshold_ s) (stop_condition_ s) (trace s).
Definition set_logging_thread x s :=
  mk (config s) (data_manager s) (dp s) (stop_event s) x (is_simulating s)
     (_logged_data s) (_sim_current s) (_sim_voltage s) (_sim_start_time s)
     (acquisition_delay_s s) (start_time s) (last_status_update_time s)
     (points_logged s) (threshold_ s) (stop_condition_ s) (trace s).
Definition set_logged_data x s :=
  mk (config s) (data_manager s) (dp s) (stop_event s) (logging_thread s)
     (is_simulating s) x (_sim_current s) (_sim_voltage s) (_sim_start_time s)
     (acquisition_delay_s s) (start_time s) (last_status_update_time s)
     (points_logged s) (threshold_ s) (stop_condition_ s) (trace s).
Definition set_locals d t0 t1 n th sc s :=
  mk (config s) (data_manager s) (dp s) (stop_event s) (logging_thread s)
     (is_simulating s) (_logged_data s) (_sim_current s) (_sim_voltage s)
     (_sim_start_time s) d t0 t1 n th sc (trace s).
Definition set_last_status_update_time x s :=
  set_locals (acquisition_delay_s s) (start_time s) x (points_logged s)
             (threshold_ s) (stop_condition_ s) s.
Definition set_points_logged x s :=
  set_locals (acquisition_delay_s s) (start_time s) (last_status_update_time s) x
             (threshold_ s) (stop_condition_ s) s.
Definition set_trace x s :=
  mk (config s) (data_manager s) (dp s) (stop_event s) (logging_thread s)
     (is_simulating s) (_logged_data s) (_sim_current s) (_sim_voltage s)
     (_sim_start_time s) (acquisition_delay_s s) (start_time s)
     (last_status_update_time s) (points_logged s) (threshold_ s)
     (stop_condition_ s) x.

Local Open Scope py_scope.

Definition emit (e : event) : M t unit :=
  modify (fun s => set_trace (trace s ++ [e]) s).

Definition status_put (level : string) (msg : message) : M t unit :=
  emit (EvStatus level msg).
Definition error_put (level : string) (msg : message) : M t unit :=
  emit (EvError level msg).

Definition dp_write (cmd : message) : M t unit :=
  s <- get ;;
  match dp s with
  | None => raise (OtherError "'NoneType' object has no attribute 'write'")
  | Some ins =>
      emit (EvWrite cmd) ;;
      match write_error ins cmd with
      | Some x => raise x
      | None => ret tt
      end
  end.

Definition dp_query (cmd : string) (a : answer) : M t (string * option float) :=
  emit (EvQuery cmd) ;;
  match a with
  | Reply text value => ret (text, value)
  | QueryVisaError e => raise (VisaIOError e)
  | QueryOtherError e => raise (OtherError e)
  end.

(** The interval the loop paces itself with, in milliseconds. *)
Definition interval_ms (original_interval : Z) : Z :=
  Z.max original_interval MIN_UPDATE_INTERVAL_MS.

Definition ADJUSTED : string := "Data acquisition interval adjusted to minimum ".

(** The statements of [_log_data] before its [while]. *)
Definition loop_setup (clock : float) : M t unit :=
  s <- get ;;
  let original_interval := update_interval_ms (config s) in
  let interval_ms := interval_ms original_interval in
  (when negb (Z.eqb interval_ms original_interval)
   then status_put STATUS_WARNING [S_ ADJUSTED; I_ interval_ms; S_ "ms."]) ;;
  let acquisition_delay_s := (float_of_Z interval_ms / 1000.0)%float in
  modify (set_locals acquisition_delay_s clock clock 0
                     (threshold (config s)) (stop_condition (config s))) ;;
  status_put STATUS_INFO [S_ "Logging data..."].

(** The pause that keeps the interval. *)
Definition pace (i : Tick) (check_event : bool) : M t unit :=
  s <- get ;;
  let sleep_duration := (acquisition_delay_s s - spent i)%float in
  when (sleep_duration >. 0%float) && negb (check_event && stop_event s)
  then emit (EvSleep sleep_duration).

(** Data acquisition: the measured pair, or the way the iteration ends. *)
Definition acquire (i : Tick) : M t (control + float * float) :=
  s <- get ;;
  if negb (is_simulating s) then
    match dp s with
    | None =>
        error_put STATUS_ERROR [S_ "Instrument connection lost during logging."] ;;
        ret (inl Break)
    | Some _ =>
        r <- try_ (voltage_measured_str <- dp_query MEAS_VOLT (volt i) ;;
                   current_measured_str <- dp_query MEAS_CURR (curr i) ;;
                   voltage_measured <- to_float voltage_measured_str ;;
                   current_measured <- to_float current_measured_str ;;
                   ret (voltage_measured, current_measured)) ;;
        match r with
        | Ok vc => ret (inr vc)
        | Raise (ValueError _) =>
            error_put STATUS_WARNING
              [S_ "Could not convert measurement: V='"; S_ (reply_text (volt i));
               S_ "', A='"; S_ (reply_text (curr i)); S_ "'. Skipping point."] ;;
            pace i false ;;
            ret (inl Continue)
        | Raise (VisaIOError e) =>
            error_put STATUS_ERROR
              [S_ "VISA IO Error during logging: "; S_ e; S_ ". Logging stopped."] ;;
            modify (set_stop_event true) ;;
            ret (inl Break)
        | Raise (OtherError e) =>
            error_put STATUS_ERROR
              [S_ "Unexpected error during data acquisition: "; S_ e] ;;
            emit EvTraceback ;;
            modify (set_stop_event true) ;;
            ret (inl Break)
        end
    end
  else
    let current_real_time := now i in
    let sim_start :=
      match _sim_start_time s with
      | Some t0 => if PrimFloat.eqb t0 0%float then current_real_time else t0
      | None => current_real_time
      end in
    let time_in_sim := (current_real_time - sim_start)%float in
    let voltage_measured := _sim_voltage s in
    let decay_rate := 0.05%float in
    let noise := (randn i * 0.005)%float in
    let current_measured :=
      max0 ((_sim_current s - decay_rate * time_in_sim) + noise)%float in
    ret (inr (voltage_measured, current_measured)).

(** The threshold check after the settling time: [stop_triggered]. *)
Definition threshold_check (elapsed_time current_measured : float) : M t bool :=
  s <- get ;;
  let threshold := threshold_ s in
  let stop_condition := stop_condition_ s in
  if elapsed_time >=. INITIAL_SETTLING_TIME_S then
    if String.eqb stop_condition "below" then
      if fabs current_measured <. threshold then
        status_put STATUS_WARNING
          [S_ "Threshold reached: Current "; F4 current_measured; S_ " A < ";
           F4 threshold; S_ " A. Stopping."] ;;
        ret true
      else ret false
    else if String.eqb stop_condition "above" then
      if fabs current_measured >. threshold then
        status_put STATUS_WARNING
          [S_ "Threshold reached: Current "; F4 current_measured; S_ " A > ";
           F4 threshold; S_ " A. Stopping."] ;;
        ret true
      else ret false
    else ret false
  else ret false.

(** The [if stop_triggered:] block, up to its [break]. *)
Definition auto_stop (i : Tick) : M t unit :=
  s <- get ;;
  (if negb (is_simulating s) && bool_decide (is_Some (dp s)) then
     r <- try_ (dp_write OUTP_CH1_OFF ;;
                status_put STATUS_INFO [S_ "Power output turned OFF by threshold trigger."]) ;;
     match r with
     | Ok _ => ret tt
     | Raise (VisaIOError e) =>
         error_put STATUS_ERROR
           [S_ "VISA IO Error turning off output on threshold: "; S_ e]
     | Raise x =>
         error_put STATUS_ERROR
           [S_ "Error turning off output on threshold: "; S_ (exn_text x)]
     end
   else when is_simulating s then
     status_put STATUS_INFO
       [S_ "Simulation output turned OFF by threshold trigger (Virtual)."]) ;;
  match beep i with
  | None => ret tt
  | Some r =>
      emit EvBeep ;;
      match r with
      | Some sound_e =>
          error_put STATUS_WARNING [S_ "Could not play sound: "; S_ (exn_text sound_e)]
      | None => ret tt
      end
  end ;;
  modify (set_stop_event true) ;;
  status_put "STOP_SIGNAL" [S_ "Threshold Auto-Stop Triggered"].

(** The body of the [while] loop. *)
Definition iteration (i : Tick) : M t control :=
  s <- get ;;
  let current_real_time := now i in
  let elapsed_time := (current_real_time - start_time s)%float in
  a <- acquire i ;;
  match a with
  | inl c => ret c
  | inr (voltage_measured, current_measured) =>
      let data_row := make_row elapsed_time voltage_measured current_measured in
      modify (fun s => set_logged_data (_logged_data s ++ [data_row]) s) ;;
      emit (EvLogged data_row) ;;
      modify (fun s => set_points_logged (points_logged s + 1) s) ;;
      s <- get ;;
      match data_manager s with
      | Some dm =>
          modify (set_data_manager (Some (DataManager.put data_row dm))) ;;
          emit (EvPut data_row)
      | None => ret tt
      end ;;
      s <- get ;;
      (when (current_real_time - last_status_update_time s)%float >=. 5.0%float
       then (status_put STATUS_INFO
               [S_ "Logging: "; I_ (points_logged s);
                S_ " points collected. Current: "; F4 current_measured; S_ " A"] ;;
             modify (set_last_status_update_time current_real_time))) ;;
      stop_triggered <- threshold_check elapsed_time current_measured ;;
      if stop_triggered then
        auto_stop i ;;
        ret Break
      else
        pace i true ;;
        ret Continue
  end.

Fixpoint while_loop (ticks : list Tick) : M t bool :=
  s <- get ;;
  if stop_event s then ret true
  else match ticks with
       | [] => ret false
       | i :: ticks' =>
           c <- iteration i ;;
           match c with
           | Break => ret true
           | Continue => while_loop ticks'
           end
       end.

(** The worker thread, run for the given iterations: [_log_data]. *)
Definition _log_data (clock : float) (ticks : list Tick) : M t unit :=
  r <- try_ (loop_setup clock ;;
             left <- while_loop ticks ;;
             (when left
              then (s <- get ;;
                    status_put STATUS_INFO
                      [S_ "Logging loop finished. Total points: ";
                       I_ (points_logged s); S_ "."])) ;;
             ret left) ;;
  let finally_ :=
    status_put "LOGGER_FINISHED" [S_ "Logger thread has completed execution."] ;;
    modify (set_logging_thread Finished) in
  match r with
  | Ok false => ret tt
  | Ok true => finally_
  | Raise x =>
      error_put STATUS_ERROR [S_ "Critical error in logging thread: "; S_ (exn_text x)] ;;
      emit EvTraceback ;;
      finally_
  end.

End Part000.

(** ** Observations on traces and the vocabulary of the specification *)

Definition count {A : Type} (p : A -> bool) (l : list A) : nat :=
  length (List.filter p l).

(** Some [p]-event is followed, later on, by a [q]-event. *)
Fixpoint follows {A : Type} (p q : A -> bool) (l : list A) : bool :=
  match l with
  | [] => false
  | e :: l' => (p e && existsb q l') || follows p q l'
  end.

(** An output-disable command. *)
Definition is_off_command (cmd : message) : bool :=
  match cmd with
  | [S_ s] => String.eqb s ":OUTP OFF" || String.eqb s ":OUTP CH1,OFF"
  | _ => false
  end.

Definition is_force_off (e : event) : bool :=
  match e with EvWrite cmd => is_off_command cmd | _ => false end.
Definition is_disconnect (e : event) : bool :=
  match e with EvClose => true | _ => false end.
Definition is_export (e : event) : bool :=
  match e with EvExport _ _ _ _ => true | _ => false end.
Definition is_sample (e : event) : bool :=
  match e with EvLogged _ | EvPut _ => true | _ => false end.
Definition is_message (e : event) : bool :=
  match e with EvStatus _ _ | EvError _ _ => true | _ => false end.
Definition is_query (e : event) : bool :=
  match e with EvQuery _ => true | _ => false end.

(** A message of the given level, on either queue. *)
Definition has_level (level : string) (e : event) : bool :=
  match e with
  | EvStatus l _ | EvError l _ => String.eqb l level
  | _ => false
  end.

(** The warning that reports the raised interval. *)
Definition is_adjust_warning (e : event) : bool :=
  match e with
  | EvStatus l (S_ s :: _) => String.eqb l STATUS_WARNING && String.eqb s Part000.ADJUSTED
  | _ => false
  end.

(** The sample lists handed to the export pipeline, and the rows put on the
    display queue. *)
Definition exported (tr : list event) : list (list Row) :=
  omap (fun e => match e with EvExport _ data _ _ => Some data | _ => None end) tr.
Definition published (tr : list event) : list Row :=
  omap (fun e => match e with EvPut row => Some row | _ => None end) tr.
Definition accumulated (tr : list event) : list Row :=
  omap (fun e => match e with EvLogged row => Some row | _ => None end) tr.

(** The order of the stop sequence as the specification lists it: an
    output-disable, later the one disconnect, later the export. *)
Definition specified_stop_order (tr : list event) : bool :=
  follows is_force_off is_disconnect tr && follows is_disconnect is_export tr
  && (count is_disconnect tr =? 1)%nat.

(** What an iteration measures, when its read completes. *)
Definition measurement (cfg : Config) (sim : bool) (et : float) (i : Tick)
    : option (float * float) :=
  if sim then
    Some (voltage cfg, max0 ((current cfg - 0.05 * et) + randn i * 0.005)%float)
  else
    match volt i, curr i with
    | Reply _ (Some v), Reply _ (Some c) => Some (v, c)
    | _, _ => None
    end.

(** The zero-output rule and the threshold rule, on measured values. *)
Definition zero_output (v c : float) : bool :=
  (fabs v <. ZERO_VI_THRESHOLD) && (fabs c <. ZERO_VI_THRESHOLD).

(** The value the threshold rule watches: the magnitude of the current in
    constant-voltage mode, the voltage otherwise. *)
Definition monitored (cfg : Config) (v c : float) : float :=
  if String.eqb (operation_mode cfg) MODE_CONSTANT_VOLTAGE then fabs c else v.

(** The monitored value as the specification words it: the measured current
    in constant-voltage mode, the measured voltage in constant-current mode. *)
Definition monitored_as_specified (cfg : Config) (v c : float) : float :=
  if String.eqb (operation_mode cfg) MODE_CONSTANT_VOLTAGE then c else v.

Definition comparison_holds (cfg : Config) (x : float) : bool :=
  (String.eqb (lower (stop_condition cfg)) "below" && (x <. threshold cfg))
  || (String.eqb (lower (stop_condition cfg)) "above" && (x >. threshold cfg)).

(** Whether a completed read ends the run. *)
Definition stops (cfg : Config) (et v c : float) : bool :=
  (et >. 1.0%float) && (zero_output v c || comparison_holds cfg (monitored cfg v c)).

(** The samples a run produces: one per iteration that completes its read,
    up to and including the one that ends the run. *)
Fixpoint produced (cfg : Config) (sim : bool) (t0 : float) (ticks : list Tick)
    : list Row :=
  match ticks with
  | [] => []
  | i :: ticks' =>
      let et := (now i - t0)%float in
      match measurement cfg sim et i with
      | None => []
      | Some (v, c) =>
          make_row et v c ::
          (if stops cfg et v c then [] else produced cfg sim t0 ticks')
      end
  end.

(** The events of one iteration that precede the new sample. *)
Definition read_events (sim : bool) : list event :=
  if sim then [] else [EvQuery MEAS_VOLT; EvQuery MEAS_CURR].

(** The events of an automatic stop after the message of the rule that
    fired: the output-disable on a real instrument, the beep where the host
    has one, and the stop signal. *)
Definition halt_events (sim : bool) (i : Tick) : list event :=
  (if sim then [] else [EvWrite OUTP_CH1_OFF])
  ++ (if bool_decide (is_Some (beep i)) then [EvBeep] else [])
  ++ [EvStatus "STOP_SIGNAL" [S_ "Auto-Stop Triggered"]].

(** The pause that ends an iteration which goes on. *)
Definition pace_events (delay : float) (i : Tick) : list event :=
  if (delay - spent i)%float >. 0%float then [EvSleep (delay - spent i)%float] else [].

Definition ZERO_VI_MESSAGE : message := [S_ "Zero V & I detected. Stopping."].

(** The logger after further events. *)
Definition logged (es : list event) (s : DataLogger.t) : DataLogger.t :=
  DataLogger.set_trace (DataLogger.trace s ++ es) s.

(** The logger after an iteration that recorded [row], did [es], and set the
    stop event when [halt]. *)
Definition sampled (row : Row) (es : list event) (halt : bool) (s : DataLogger.t)
    : DataLogger.t :=
  DataLogger.mk (DataLogger.config s)
    (DataManager.put row (DataLogger.data_manager s))
    (DataLogger.dp s) (DataLogger.rm s) (DataLogger.stop_event s || halt)
    (DataLogger.logging_thread s) (DataLogger.is_simulating s)
    (DataLogger._logged_data s ++ [row]) (DataLogger._sim_start_time s)
    (DataLogger.start_time s) (DataLogger.points s + 1) (DataLogger.delay_s s)
    (DataLogger.trace s ++ es).

(** The logger after an iteration whose read failed. *)
Definition aborted (es : list event) (s : DataLogger.t) : DataLogger.t :=
  DataLogger.set_stop_event true (logged es s).

(** A logger that can take measurements: it simulates, or it is connected. *)
Definition ready (s : DataLogger.t) : Prop :=
  DataLogger.is_simulating s = false -> is_Some (DataLogger.dp s).

(** ** Relating the state before and after a computation *)

(** Every run of [m] relates the state it starts in to the state it leaves. *)
Definition respects {St A : Type} (R : St -> St -> Prop) (m : M St A) : Prop :=
  forall s, R s (snd (m s)).

(** A trace that was extended by events which all satisfy [Q]. *)
Definition grows (Q : event -> bool) (tr tr' : list event) : Prop :=
  exists es, tr' = tr ++ es /\ forallb Q es = true.

(** A logger that did nothing but add events which all satisfy [Q]. *)
Definition only_logs (Q : event -> bool) (s s' : DataLogger.t) : Prop :=
  exists es, s' = logged es s /\ forallb Q es = true.

Definition old_grows (Q : event -> bool) (s s' : Part000.t) : Prop :=
  grows Q (Part000.trace s) (Part000.trace s').

(** Events that neither export, nor disconnect, nor record a sample. *)
Definition quiet (e : event) : bool :=
  negb (is_export e || is_disconnect e || is_sample e).

(** Quiet events that do not disable the output either. *)
Definition silent (e : event) : bool := quiet e && negb (is_force_off e).

Definition no_adjust (e : event) : bool := negb (is_adjust_warning e).

(** Events that record exactly [rows], in order, on the accumulator and on
    the display queue, and that neither export nor disconnect. *)
Definition carries (rows : list Row) (es : list event) : Prop :=
  published es = rows /\ accumulated es = rows /\ exported es = []
  /\ count is_disconnect es = 0%nat.

(** A logger whose set-up is unchanged and whose accumulator is untouched,
    after events which all satisfy [Q]. *)
Definition kept (Q : event -> bool) (s s' : DataLogger.t) : Prop :=
  DataLogger.config s' = DataLogger.config s
  /\ DataLogger.dp s' = DataLogger.dp s
  /\ DataLogger.rm s' = DataLogger.rm s
  /\ DataLogger.is_simulating s' = DataLogger.is_simulating s
  /\ DataLogger._logged_data s' = DataLogger._logged_data s
  /\ DataLogger.data_manager s' = DataLogger.data_manager s
  /\ grows Q (DataLogger.trace s) (DataLogger.trace s').

(** A logger whose set-up is unchanged and which recorded [rows]. *)
Definition advanced (rows : list Row) (s s' : DataLogger.t) : Prop :=
  DataLogger.config s' = DataLogger.config s
  /\ DataLogger.dp s' = DataLogger.dp s
  /\ DataLogger.rm s' = DataLogger.rm s
  /\ DataLogger.is_simulating s' = DataLogger.is_simulating s
  /\ DataLogger._logged_data s' = DataLogger._logged_data s ++ rows
  /\ DataManager.data_queue (DataLogger.data_manager s')
     = DataManager.data_queue (DataLogger.data_manager s) ++ rows
  /\ exists es, DataLogger.trace s' = DataLogger.trace s ++ es /\ carries rows es.

(** An iteration that completes its read and does not end the run. *)
Definition goes_on (cfg : Config) (sim : bool) (t0 : float) (j : Tick) : Prop :=
  exists v c,
    measurement cfg sim (now j - t0)%float j = Some (v, c)
    /\ stops cfg (now j - t0)%float v c = false.

(** The events a computation added. *)
Definition since (before after : list event) : list event :=
  drop (length before) after.

(** The resistance rule as the specification words it. *)
Definition resistance_as_specified (v c : float) : Prop :=
  (resistance v c = inf <-> (fabs c <=. 1e-9%float) = true)
  /\ ((fabs c <=. 1e-9%float) = false -> resistance v c = (v / c)%float).

(** ** Sample data *)

Module Sample.

Definition cfg : Config :=
  mkConfig "USB0::0x1AB1::INSTR" 4.0 0.5 0.1 "below" 200 1000 "/data"
           "all" false MODE_CONSTANT_VOLTAGE.

(** Constant current, stop above 5.0 V. *)
Definition cfg_cc : Config :=
  mkConfig "USB0::0x1AB1::INSTR" 4.0 0.5 5.0 "above" 200 1000 "/data"
           "all" false MODE_CONSTANT_CURRENT.

(** An interval of 1 ms. *)
Definition cfg_fast : Config :=
  mkConfig "USB0::0x1AB1::INSTR" 4.0 0.5 0.1 "below" 1 1000 "/data"
           "csv" false MODE_CONSTANT_VOLTAGE.

(** A host on which the spreadsheet writer fails. *)
Definition host : Host :=
  mkHost "20240101_120000" "/app" None
         (fun fmt => if String.eqb fmt "xlsx" then WriteFailed "disk full" else Written).

Definition instrument : Instrument := mkInstrument (fun _ => None) None.

(** A connected logger that carries rows of an earlier run. *)
Definition stale : Row := make_row 9 9 9.
Definition connected (c : Config) : DataLogger.t :=
  DataLogger.set_logged_data [stale]
    (DataLogger.set_rm true
       (DataLogger.set_dp (Some instrument)
          (DataLogger.init c (DataManager.init (max_plot_points_cfg c))))).

(** The same logger while its worker runs, started at clock 100. *)
Definition running (c : Config) : DataLogger.t :=
  DataLogger.set_locals 100 0 0.2
    (DataLogger.set_logging_thread Alive (connected c)).

Definition reading (t v c : float) : Tick :=
  mkTick t (Reply "v" (Some v)) (Reply "c" (Some c)) 0 0.01 None.

(** The voltage reply does not parse. *)
Definition garbled (t : float) : Tick :=
  mkTick t (Reply "abc" None) (Reply "0.5" (Some 0.5%float)) 0 0.01 None.

Definition timed_out (t : float) : Tick :=
  mkTick t (QueryVisaError "VI_ERROR_TMO") (Reply "0.5" (Some 0.5%float)) 0 0.01 None.

Definition rows11 : list Row :=
  (fun n => make_row (float_of_Z n) 4 0.5) <$> [0; 1; 2; 3; 4; 5; 6; 7; 8; 9; 10].

(** A run on the real instrument that the threshold rule ends at its second
    iteration; a third reading is at hand and is never taken. *)
Definition ticks3 : list Tick :=
  [reading 100.2 4 0.5; reading 101.5 4 0.05; reading 101.7 4 0.04].

Definition auto_stopped : result bool * DataLogger.t :=
  DataLogger.run host 100 100 ticks3 "notes" (connected cfg).

(** A logger of the older loop, connected. *)
Definition connected_old (c : Config) : Part000.t :=
  Part000.mk c (Some (DataManager.init (max_plot_points_cfg c)))
             (Some instrument) false Alive false [] 0.5 4.0 None
             0 0 0 0 0 "" [].

End Sample.

(** * More of the program *)

(** ** Input validation *)

(** [validate_float_input(value_str, name, allow_zero)]; the string comes with
    what [float()] makes of it.  Every failure leaves as a [ValueError]: the
    ones raised inside the [try] are caught by its own [except] and wrapped.
    The text of a failed conversion quotes the string as [repr] does for a
    string without quotes, backslashes or control characters. *)
Definition validate_float_input (value_str : string * option float) (name : string)
    (allow_zero : bool) : result float :=
  let invalid (e : string) : result float :=
    Raise (ValueError ("Invalid " ++ name ++ ": '" ++ fst value_str
                       ++ "'. Please enter a number. (" ++ e ++ ")")) in
  match snd value_str with
  | None => invalid ("could not convert string to float: '" ++ fst value_str ++ "'")%string
  | Some value =>
      if value <. 0%float then invalid (name ++ " must be non-negative.")%string
      else if negb allow_zero && (fabs value <. 1e-9%float)
      then invalid (name ++ " must be non-zero.")%string
      else Ok value
  end.

(** [validate_int_input(value_str, name, min_value)]; the string comes with
    what [int()] makes of it. *)
Definition validate_int_input (value_str : string * option Z) (name : string)
    (min_value : Z) : result Z :=
  let invalid (e : string) : result Z :=
    Raise (ValueError ("Invalid " ++ name ++ ": '" ++ fst value_str
                       ++ "'. Please enter an integer. (" ++ e ++ ")")) in
  match snd value_str with
  | None => invalid ("invalid literal for int() with base 10: '" ++ fst value_str
                     ++ "'")%string
  | Some value =>
      if Z.ltb value min_value then invalid (name ++ " must be at least " ++ pretty min_value ++ ".")%string
      else Ok value
  end.

(** ** [ConfigManager]: configuration and presets as dictionaries *)

(** A JSON value of the configuration. *)
Inductive value : Type :=
  | VNone
  | VBool (b : bool)
  | VInt (n : Z)
  | VFloat (x : float)
  | VStr (s : string).

Definition CONFIG_RESOURCE_NAME : string := "resource_name".
Definition CONFIG_VOLTAGE : string := "voltage".
Definition CONFIG_CURRENT : string := "current".
Definition CONFIG_THRESHOLD : string := "threshold".
Definition CONFIG_STOP_CONDITION : string := "stop_condition".
Definition CONFIG_UPDATE_INTERVAL : string := "update_interval_ms".
Definition CONFIG_MAX_PLOT_POINTS : string := "max_plot_points".
Definition CONFIG_SAVE_LOCATION : string := "save_location".
Definition CONFIG_EXPORT_FORMAT : string := "export_format".
Definition CONFIG_GUI_THEME : string := "gui_theme".
Definition CONFIG_PLOT_STYLE : string := "plot_style".
Definition CONFIG_SIMULATION_MODE : string := "simulation_mode".
Definition CONFIG_NOTES : string := "notes".
Definition CONFIG_ENABLE_THEME_FADE : string := "enable_theme_fade".
Definition CONFIG_ANODE : string := "anode".
Definition CONFIG_CATHODE : string := "cathode".
Definition CONFIG_ELECTROLYTE : string := "electrolyte".
Definition CONFIG_ELECTROLYTE_MOLARITY : string := "electrolyte_molarity".
Definition CONFIG_OPERATION_MODE : string := "operation_mode".

Definition DEFAULT_GUI_THEME : string := "clam".
Definition DEFAULT_PLOT_STYLE : string := "default".
Definition DEFAULT_ENABLE_THEME_FADE : bool := true.

Module ConfigManager.

Record t : Type := mk {
  base_path : string;
  config : gmap string value;
  presets : gmap string (gmap string value)
}.

Definition _get_defaults (base_path : string) : gmap string value :=
  list_to_map
    [(CONFIG_RESOURCE_NAME, VStr "TCPIP0::192.168.1.100::INSTR");
     (CONFIG_VOLTAGE, VFloat 4.0);
     (CONFIG_CURRENT, VFloat 0.5);
     (CONFIG_THRESHOLD, VFloat 0.062);
     (CONFIG_STOP_CONDITION, VStr "below");
     (CONFIG_UPDATE_INTERVAL, VInt 200);
     (CONFIG_MAX_PLOT_POINTS, VInt 1000);
     (CONFIG_SAVE_LOCATION, VStr base_path);
     (CONFIG_EXPORT_FORMAT, VStr DEFAULT_EXPORT_FORMAT);
     (CONFIG_GUI_THEME, VStr DEFAULT_GUI_THEME);
     (CONFIG_PLOT_STYLE, VStr DEFAULT_PLOT_STYLE);
     (CONFIG_SIMULATION_MODE, VBool false);
     (CONFIG_NOTES, VStr "");
     (CONFIG_ENABLE_THEME_FADE, VBool DEFAULT_ENABLE_THEME_FADE);
     (CONFIG_ANODE, VStr "");
     (CONFIG_CATHODE, VStr "");
     (CONFIG_ELECTROLYTE, VStr "");
     (CONFIG_ELECTROLYTE_MOLARITY, VStr "");
     (CONFIG_OPERATION_MODE, VStr MODE_CONSTANT_VOLTAGE)].

(** [_load_json_file]: the dictionary in the file, or the empty one when the
    file is missing or cannot be read or decoded. *)
Definition _load_json_file {V : Type} (file : option (gmap string V)) : gmap string V :=
  match file with
  | Some d => d
  | None => ∅
  end.

(** [load_config]: [defaults.update(loaded_config)]. *)
Definition load_config (file : option (gmap string value)) (cm : t) : t :=
  let loaded_config := _load_json_file file in
  let defaults := _get_defaults (base_path cm) in
  mk (base_path cm) (loaded_config ∪ defaults) (presets cm).

Definition load_presets (file : option (gmap string (gmap string value))) (cm : t) : t :=
  mk (base_path cm) (config cm) (_load_json_file file).

(** [ConfigManager.__init__]. *)
Definition init (base_path : string) (config_file : option (gmap string value))
    (presets_file : option (gmap string (gmap string value))) : t :=
  load_presets presets_file
    (load_config config_file (mk base_path (_get_defaults base_path) ∅)).

Definition keys_to_save : list string :=
  [CONFIG_RESOURCE_NAME; CONFIG_VOLTAGE; CONFIG_CURRENT; CONFIG_THRESHOLD;
   CONFIG_STOP_CONDITION; CONFIG_EXPORT_FORMAT; CONFIG_ANODE; CONFIG_CATHODE;
   CONFIG_ELECTROLYTE; CONFIG_ELECTROLYTE_MOLARITY; CONFIG_OPERATION_MODE].

(** [d.get(k)]: [None] for a missing key. *)
Definition dict_get (d : gmap string value) (k : string) : value :=
  default VNone (d !! k).

(** [{k: preset_data.get(k) for k in keys_to_save}]. *)
Definition relevant (preset_data : gmap string value) : gmap string value :=
  list_to_map ((fun k => (k, dict_get preset_data k)) <$> keys_to_save).

(** [add_preset]; the file written by [save_presets] is left out. *)
Definition add_preset (name : string) (preset_data : gmap string value) (cm : t)
    : bool * t :=
  if String.eqb name "" then (false, cm)
  else (true, mk (base_path cm) (config cm)
                 (<[name := relevant preset_data]> (presets cm))).

Definition get_preset (name : string) (cm : t) : option (gmap string value) :=
  presets cm !! name.

Definition delete_preset (name : string) (cm : t) : bool * t :=
  match presets cm !! name with
  | Some _ => (true, mk (base_path cm) (config cm) (delete name (presets cm)))
  | None => (false, cm)
  end.

(** The order of [sorted] on strings. *)
Definition str_le (a b : string) : Prop := String.leb a b = true.

#[global] Instance str_le_dec : RelDecision str_le :=
  fun a b => decide (String.leb a b = true).

(** [sorted(self.presets.keys())]. *)
Definition get_preset_names (cm : t) : list string :=
  merge_sort str_le (map_to_list (presets cm)).*1.

Definition get_notes (cm : t) : value :=
  default (VStr "") (config cm !! CONFIG_NOTES).

Definition save_notes (notes_content : string) (cm : t) : t :=
  mk (base_path cm) (<[CONFIG_NOTES := VStr notes_content]> (config cm)) (presets cm).

End ConfigManager.

(** ** The older [DataManager] *)

Module OldDataManager.

(** [DataManager.__init__] of the second file: the capacity is raised to 2. *)
Definition init (max_plot_points : Z) : DataManager.t :=
  let max_plot_points := if Z.ltb max_plot_points 2 then 2 else max_plot_points in
  DataManager.mk max_plot_points [] [] [] [] [] [].

End OldDataManager.

(** ** Connecting *)

(** What PyVISA does while [connect] runs. *)
Record Visa : Type := mkVisa {
  pyvisa_present : bool;                 (* the module could be imported *)
  resource_manager_error : option exn;   (* [pyvisa.ResourceManager()] raising *)
  open_resource : result Instrument;     (* [rm.open_resource(...)] *)
  idn : answer                           (* the answer to [*IDN?] *)
}.

(** [str.strip()], for text whose white space is ASCII. *)
Definition is_space (c : ascii) : bool :=
  let n := nat_of_ascii c in
  ((9 <=? n)%nat && (n <=? 13)%nat) || ((28 <=? n)%nat && (n <=? 32)%nat).

Fixpoint lstrip (s : string) : string :=
  match s with
  | String c s' => if is_space c then lstrip s' else s
  | EmptyString => EmptyString
  end.

Definition strip (s : string) : string :=
  String.rev (lstrip (String.rev (lstrip s))).

(** [DataLogger.connect]. *)
Definition connect (visa : Visa) : M DataLogger.t bool :=
  (s <- get ;;
   if DataLogger.is_simulating s then
     DataLogger._send_status STATUS_INFO [S_ "Simulation mode active."] ;;
     ret true
   else if negb (pyvisa_present visa) then
     DataLogger._send_status STATUS_ERROR [S_ "PyVISA library not found. Cannot connect."] ;;
     ret false
   else
     let resource_name := resource_name (DataLogger.config s) in
     if String.eqb resource_name "" then
       DataLogger._send_status STATUS_ERROR [S_ "No VISA resource selected."] ;;
       ret false
     else
       r <- try_ (DataLogger._send_status STATUS_INFO [S_ "Connecting to: "; S_ resource_name] ;;
                  match resource_manager_error visa with
                  | Some x => raise x
                  | None => modify (DataLogger.set_rm true)
                  end ;;
                  match open_resource visa with
                  | Raise x => raise x
                  | Ok ins => modify (DataLogger.set_dp (Some ins))
                  end ;;
                  reply <- DataLogger.dp_query "*IDN?" (idn visa) ;;
                  DataLogger._send_status STATUS_SUCCESS
                    [S_ "Connected to: "; S_ (strip (fst reply))]) ;;
       match r with
       | Ok _ => ret true
       | Raise (VisaIOError e) =>
           DataLogger._send_status STATUS_ERROR [S_ "VISA I/O Error: "; S_ e] ;;
           DataLogger._close_connection ;;
           ret false
       | Raise x =>
           DataLogger._send_status STATUS_ERROR [S_ "Connection error: "; S_ (exn_text x)] ;;
           DataLogger.emit EvTraceback ;;
           DataLogger._close_connection ;;
           ret false
       end)%py.

(** ** Further observations *)

(** The commands written to the instrument. *)
Definition writes (es : list event) : list message :=
  omap (fun e => match e with EvWrite cmd => Some cmd | _ => None end) es.

(** The messages put on the status queue. *)
Definition statuses (es : list event) : list (string * message) :=
  omap (fun e => match e with EvStatus l m => Some (l, m) | _ => None end) es.

(** Events that touch the instrument or the VISA session. *)
Definition is_io (e : event) : bool :=
  match e with
  | EvQuery _ | EvWrite _ | EvClose | EvRmClose => true
  | _ => false
  end.

Definition no_io (e : event) : bool := negb (is_io e).

(** The commands [_setup_instrument] sends when none of them fails. *)
Definition setup_program (cfg : Config) : list message :=
  (if String.eqb (operation_mode cfg) MODE_CONSTANT_CURRENT
   then [[S_ ":VOLT:PROT "; F_ (threshold cfg)]; [S_ ":OUTP:OVP ON"]]
   else [[S_ ":OUTP:OVP OFF"]])
  ++ [[S_ ":APPL CH1,"; F_ (voltage cfg); S_ ","; F_ (current cfg)];
      [S_ ":OUTP CH1,ON"]].

(** The instrument accepts every command of a list. *)
Definition accepts (ins : Instrument) (cmds : list message) : Prop :=
  Forall (fun cmd => write_error ins cmd = None) cmds.

(** The rows put on the display queue by a sequence of operations. *)
Definition puts (ops : list DataManager.op) : list Row :=
  omap (fun o => match o with DataManager.Put x => Some x | _ => None end) ops.

(** Only the producer's [put] and the display's frame step. *)
Definition streaming (o : DataManager.op) : bool :=
  match o with
  | DataManager.Put _ | DataManager.DrainOne => true
  | _ => false
  end.

(** Quiet events that leave the instrument and the session alone. *)
Definition idle (e : event) : bool := silent e && no_io e.

(** The formats [DataExporter.save_map] knows. *)
Definition known_format (fmt : string) : bool :=
  existsb (String.eqb fmt) DataExporter.keys.

(** [n] display frames while logging is on: [_update_plot] run [n] times. *)
Definition frames (n : nat) (dm : DataManager.t) : DataManager.t :=
  Nat.iter n DataManager.drain_one dm.

(** ** The events of [stop] *)

(** The directory [_generate_base_filename] saves to. *)
Definition save_dir (h : Host) (cfg : Config) : message :=
  if String.eqb (save_location cfg) "" then [S_ (script_dir h); Sep; S_ "logs"]
  else [S_ (save_location cfg)].

(** What [stop] does before it exports: the request, the worker leaving its
    loop when it is still alive, and the directory of the files. *)
Definition stop_prelude (h : Host) (s : DataLogger.t) : list event :=
  (if DataLogger.stop_event s then []
   else [EvStatus STATUS_INFO [S_ "Stop requested..."]])
  ++ match DataLogger.logging_thread s with
     | Alive => [EvStatus "LOGGER_FINISHED" [S_ "Logger thread has ended."]]
     | _ => []
     end
  ++ (if String.eqb (save_location (DataLogger.config s)) ""
      then [EvStatus STATUS_WARNING
              (S_ "Save location was empty. Defaulting to: "
               :: save_dir h (DataLogger.config s))]
      else [])
  ++ [EvMakedirs (save_dir h (DataLogger.config s))].

(** What [_close_connection] does: an instrument that is held is told to
    switch off and is closed, a session that is held is closed. *)
Definition closing_events (s : DataLogger.t) : list event :=
  match DataLogger.dp s with
  | Some ins =>
      [EvWrite OUTP_OFF; EvClose;
       match close_error ins with
       | Some x => EvStatus STATUS_ERROR [S_ "Error closing instrument: "; S_ (exn_text x)]
       | None => EvStatus STATUS_INFO [S_ "Instrument connection closed."]
       end]
  | None => []
  end
  ++ (if DataLogger.rm s then [EvRmClose] else []).

(** The last message of [stop]. *)
Definition STOPPED (data : list Row) : event :=
  EvStatus STATUS_SUCCESS
    [S_ "Logger stopped. "; I_ (Z.of_nat (length data)); S_ " points recorded."].

(** Whether a stop rule ends the run within the given iterations. *)
Fixpoint halts (cfg : Config) (sim : bool) (t0 : float) (ticks : list Tick) : bool :=
  match ticks with
  | [] => false
  | i :: ticks' =>
      let et := (now i - t0)%float in
      match measurement cfg sim et i with
      | None => false
      | Some (v, c) => stops cfg et v c || halts cfg sim t0 ticks'
      end
  end.

(** ** The older loop and its stop condition *)

(** A stop condition that is neither of the two strings [_log_data] compares
    with. *)
Definition unconditioned (cond : string) : Prop := cond <> "below" /\ cond <> "above".

(** Events that neither signal an automatic stop nor write to the instrument. *)
Definition calm (e : event) : bool :=
  negb (has_level "STOP_SIGNAL" e)
  && match e with EvWrite _ => false | _ => true end.

(** While the stop condition is unconditioned it stays so, and only calm
    events are added. *)
Definition stays_calm (s s' : Part000.t) : Prop :=
  unconditioned (Part000.stop_condition_ s) ->
  Part000.stop_condition_ s' = Part000.stop_condition_ s
  /\ grows calm (Part000.trace s) (Part000.trace s').

(** The threshold rule of the older loop, on measured values. *)
Definition old_stops (cond : string) (threshold et c : float) : bool :=
  (et >=. INITIAL_SETTLING_TIME_S)
  && ((String.eqb cond "below" && (fabs c <. threshold))
      || (String.eqb cond "above" && (fabs c >. threshold))).

(** ** [PowerLoggerApp]: the settings form *)

(** The newline character. *)
Definition NL : string := String (ascii_of_nat 10) EmptyString.

(** What writing a JSON file does. *)
Inductive save_outcome : Type :=
  | Saved
  | SaveIOError (e : string)
  | SaveError (e : string).

(** What the application shows and writes. *)
Inductive gui_event : Type :=
  | GuiStatus (level : string) (msg : message)            (* [add_status_message] *)
  | GuiMessageBox (kind title : string) (text : message)  (* [messagebox.show...] *)
  | GuiSaveConfig (config : gmap string value)            (* the dictionary written *)
  | GuiSavePresets (presets : gmap string (gmap string value))
  | GuiPresetList (names : list string)                   (* the list box reloaded *)
  | GuiTraceback.

Module PowerLoggerApp.

(** The Tk variables of the settings form; a number field comes with what
    [float()] or [int()] makes of its text. *)
Record Form : Type := mkForm {
  resource_var : string;
  voltage_var : string * option float;
  current_var : string * option float;
  threshold_var : string * option float;
  update_interval_var : string * option Z;
  max_plot_points_var : string * option Z;
  stop_condition_var : string;
  save_location_var : string;
  export_format_var : string;
  gui_theme_var : string;
  plot_style_var : string;
  simulation_mode_var : bool;
  operation_mode_var : string;
  anode_var : string;
  cathode_var : string;
  electrolyte_var : string;
  electrolyte_molarity_var : string;
  preset_name_var : string;
  notes_text : option string             (* the text of the notes widget *)
}.

Record t : Type := mk {
  config_manager : ConfigManager.t;
  data_manager : DataManager.t;
  form : Form;
  disk : save_outcome;                   (* what the next file write does *)
  gui : list gui_event
}.

Definition set_config_manager x app :=
  mk x (data_manager app) (form app) (disk app) (gui app).
Definition set_data_manager x app :=
  mk (config_manager app) x (form app) (disk app) (gui app).
Definition set_gui x app :=
  mk (config_manager app) (data_manager app) (form app) (disk app) x.

Local Open Scope py_scope.

Definition emit (e : gui_event) : M t unit :=
  modify (fun app => set_gui (gui app ++ [e]) app).

Definition add_status_message (msg : message) (level : string) : M t unit :=
  emit (GuiStatus level msg).

(** A function that returns or raises, called from the application. *)
Definition call {A : Type} (r : result A) : M t A := fun app => (r, app).

(** [cfg[k] = v] on the dictionary of the configuration manager. *)
Definition assign (k : string) (v : value) : M t unit :=
  modify (fun app =>
    let cm := config_manager app in
    set_config_manager
      (ConfigManager.mk (ConfigManager.base_path cm)
         (<[k := v]> (ConfigManager.config cm)) (ConfigManager.presets cm)) app).

(** [_save_json_file]: its own [except] clauses show the error. *)
Definition _save_json_file (written : gui_event) (description : string)
    (filepath : message) : M t unit :=
  app <- get ;;
  emit written ;;
  match disk app with
  | Saved => ret tt
  | SaveIOError e =>
      emit (GuiMessageBox "showerror" "Save Error"
              ([S_ "Could not save "; S_ description; S_ " to file:"; S_ NL]
               ++ filepath ++ [S_ NL; S_ NL; S_ e]))
  | SaveError e =>
      emit (GuiMessageBox "showerror" "Save Error"
              [S_ "Unexpected error saving "; S_ description; S_ ":"; S_ NL; S_ e])
  end.

Definition save_config : M t unit :=
  app <- get ;;
  let cm := config_manager app in
  _save_json_file (GuiSaveConfig (ConfigManager.config cm)) "Configuration"
    [S_ (ConfigManager.base_path cm); Sep; S_ "power_logger_config.json"].

Definition save_presets : M t unit :=
  app <- get ;;
  let cm := config_manager app in
  _save_json_file (GuiSavePresets (ConfigManager.presets cm)) "Presets"
    [S_ (ConfigManager.base_path cm); Sep; S_ "power_logger_presets.json"].

(** [PowerLoggerApp.save_notes]. *)
Definition save_notes : M t unit :=
  app <- get ;;
  match notes_text (form app) with
  | Some text =>
      modify (fun app =>
        set_config_manager (ConfigManager.save_notes (strip text) (config_manager app))
          app) ;;
      add_status_message [S_ "Notes updated (saved with config)."] STATUS_INFO
  | None => ret tt
  end.

(** [apply_and_save_config]. *)
Definition apply_and_save_config : M t bool :=
  r <- try_ (
    app <- get ;;
    let f := form app in
    v <- call (validate_float_input (voltage_var f) "Voltage" false) ;;
    assign CONFIG_VOLTAGE (VFloat v) ;;
    c <- call (validate_float_input (current_var f) "Current" false) ;;
    assign CONFIG_CURRENT (VFloat c) ;;
    th <- call (validate_float_input (threshold_var f) "Threshold" true) ;;
    assign CONFIG_THRESHOLD (VFloat th) ;;
    i <- call (validate_int_input (update_interval_var f) "Update Interval"
                 MIN_UPDATE_INTERVAL_MS) ;;
    assign CONFIG_UPDATE_INTERVAL (VInt i) ;;
    p <- call (validate_int_input (max_plot_points_var f) "Max Plot Points"
                 MIN_PLOT_POINTS) ;;
    assign CONFIG_MAX_PLOT_POINTS (VInt p) ;;
    assign CONFIG_RESOURCE_NAME (VStr (strip (resource_var f))) ;;
    assign CONFIG_STOP_CONDITION (VStr (stop_condition_var f)) ;;
    assign CONFIG_SAVE_LOCATION (VStr (strip (save_location_var f))) ;;
    assign CONFIG_EXPORT_FORMAT (VStr (export_format_var f)) ;;
    assign CONFIG_GUI_THEME (VStr (gui_theme_var f)) ;;
    assign CONFIG_PLOT_STYLE (VStr (plot_style_var f)) ;;
    assign CONFIG_SIMULATION_MODE (VBool (simulation_mode_var f)) ;;
    assign CONFIG_OPERATION_MODE (VStr (operation_mode_var f)) ;;
    assign CONFIG_ANODE (VStr (strip (anode_var f))) ;;
    assign CONFIG_CATHODE (VStr (strip (cathode_var f))) ;;
    assign CONFIG_ELECTROLYTE (VStr (strip (electrolyte_var f))) ;;
    assign CONFIG_ELECTROLYTE_MOLARITY (VStr (strip (electrolyte_molarity_var f))) ;;
    save_notes ;;
    save_config ;;
    (* [DataManager(cfg[CONFIG_MAX_PLOT_POINTS])]: the value assigned above *)
    modify (set_data_manager (DataManager.init p)) ;;
    add_status_message [S_ "Settings applied and saved."] STATUS_SUCCESS ;;
    ret true) ;;
  match r with
  | Ok b => ret b
  | Raise (ValueError e) =>
      emit (GuiMessageBox "showerror" "Input Error" [S_ e]) ;;
      ret false
  | Raise x =>
      emit (GuiMessageBox "showerror" "Config Error"
              [S_ "Failed to save config: "; S_ (exn_text x)]) ;;
      emit GuiTraceback ;;
      ret false
  end.

(** What [apply_and_save_config] assigns, in its order, once the five numbers
    have passed their validation. *)
Definition assignments (f : Form) (v c th : float) (i p : Z) : list (string * value) :=
  [(CONFIG_VOLTAGE, VFloat v); (CONFIG_CURRENT, VFloat c); (CONFIG_THRESHOLD, VFloat th);
   (CONFIG_UPDATE_INTERVAL, VInt i); (CONFIG_MAX_PLOT_POINTS, VInt p);
   (CONFIG_RESOURCE_NAME, VStr (strip (resource_var f)));
   (CONFIG_STOP_CONDITION, VStr (stop_condition_var f));
   (CONFIG_SAVE_LOCATION, VStr (strip (save_location_var f)));
   (CONFIG_EXPORT_FORMAT, VStr (export_format_var f));
   (CONFIG_GUI_THEME, VStr (gui_theme_var f));
   (CONFIG_PLOT_STYLE, VStr (plot_style_var f));
   (CONFIG_SIMULATION_MODE, VBool (simulation_mode_var f));
   (CONFIG_OPERATION_MODE, VStr (operation_mode_var f));
   (CONFIG_ANODE, VStr (strip (anode_var f)));
   (CONFIG_CATHODE, VStr (strip (cathode_var f)));
   (CONFIG_ELECTROLYTE, VStr (strip (electrolyte_var f)));
   (CONFIG_ELECTROLYTE_MOLARITY, VStr (strip (electrolyte_molarity_var f)))]
  ++ match notes_text f with
     | Some text => [(CONFIG_NOTES, VStr (strip text))]
     | None => []
     end.

(** The five numbers of the form in the order [apply_and_save_config]
    validates them, each under the key it is stored with. *)
Definition stored {A : Type} (wrap : A -> value) (r : result A) : result value :=
  match r with
  | Ok a => Ok (wrap a)
  | Raise x => Raise x
  end.

Definition checked (f : Form) : list (string * result value) :=
  [(CONFIG_VOLTAGE,
    stored VFloat (validate_float_input (voltage_var f) "Voltage" false));
   (CONFIG_CURRENT,
    stored VFloat (validate_float_input (current_var f) "Current" false));
   (CONFIG_THRESHOLD,
    stored VFloat (validate_float_input (threshold_var f) "Threshold" true));
   (CONFIG_UPDATE_INTERVAL,
    stored VInt (validate_int_input (update_interval_var f) "Update Interval"
                   MIN_UPDATE_INTERVAL_MS));
   (CONFIG_MAX_PLOT_POINTS,
    stored VInt (validate_int_input (max_plot_points_var f) "Max Plot Points"
                   MIN_PLOT_POINTS))].

(** The numbers that pass before the first one that does not, and the error
    of that one. *)
Fixpoint passed (checks : list (string * result value)) : list (string * value) :=
  match checks with
  | (k, Ok v) :: rest => (k, v) :: passed rest
  | _ => []
  end.

Fixpoint first_error (checks : list (string * result value)) : option exn :=
  match checks with
  | [] => None
  | (_, Ok _) :: rest => first_error rest
  | (_, Raise x) :: _ => Some x
  end.

(** A dictionary after a sequence of assignments. *)
Definition assigned (kvs : list (string * value)) (cfg : gmap string value)
    : gmap string value :=
  foldl (fun m kv => <[kv.1 := kv.2]> m) cfg kvs.

(** [load_presets_listbox]. *)
Definition load_presets_listbox : M t unit :=
  app <- get ;;
  emit (GuiPresetList (ConfigManager.get_preset_names (config_manager app))).

(** The dictionary [save_preset] builds from the form. *)
Definition p_data (f : Form) (v c t : float) : gmap string value :=
  list_to_map
    [(CONFIG_RESOURCE_NAME, VStr (resource_var f)); (CONFIG_VOLTAGE, VFloat v);
     (CONFIG_CURRENT, VFloat c); (CONFIG_THRESHOLD, VFloat t);
     (CONFIG_STOP_CONDITION, VStr (stop_condition_var f));
     (CONFIG_EXPORT_FORMAT, VStr (export_format_var f));
     (CONFIG_OPERATION_MODE, VStr (operation_mode_var f));
     (CONFIG_ANODE, VStr (anode_var f)); (CONFIG_CATHODE, VStr (cathode_var f));
     (CONFIG_ELECTROLYTE, VStr (electrolyte_var f));
     (CONFIG_ELECTROLYTE_MOLARITY, VStr (electrolyte_molarity_var f))].

(** [ConfigManager.add_preset] called from the application: the table is
    written to the presets file. *)
Definition add_preset (name : string) (preset_data : gmap string value) : M t bool :=
  app <- get ;;
  let '(added, cm) := ConfigManager.add_preset name preset_data (config_manager app) in
  if added then
    modify (set_config_manager cm) ;;
    save_presets ;;
    ret true
  else
    emit (GuiMessageBox "showwarning" "Preset Error" [S_ "Preset name cannot be empty."]) ;;
    ret false.

(** [PowerLoggerApp.save_preset]. *)
Definition save_preset : M t unit :=
  app <- get ;;
  let f := form app in
  let name := strip (preset_name_var f) in
  if String.eqb name "" then
    emit (GuiMessageBox "showwarning" "Input Error" [S_ "Please enter a preset name."])
  else
    r <- try_ (
      v <- call (validate_float_input (voltage_var f) "Voltage" false) ;;
      c <- call (validate_float_input (current_var f) "Current" false) ;;
      t <- call (validate_float_input (threshold_var f) "Threshold" true) ;;
      added <- add_preset name (p_data f v c t) ;;
      when added
      then (load_presets_listbox ;;
            add_status_message [S_ "Preset '"; S_ name; S_ "' saved successfully."]
              STATUS_SUCCESS)) ;;
    match r with
    | Ok _ => ret tt
    | Raise (ValueError e) =>
        emit (GuiMessageBox "showerror" "Input Error"
                [S_ "Cannot save preset due to invalid input:"; S_ NL; S_ e])
    | Raise x =>
        add_status_message [S_ "Error saving preset: "; S_ (exn_text x)] STATUS_ERROR
    end.

End PowerLoggerApp.

(** The dictionaries written to the configuration file, the preset tables
    written to the presets file, and the message boxes shown. *)
Definition saved_configs (es : list gui_event) : list (gmap string value) :=
  omap (fun e => match e with GuiSaveConfig c => Some c | _ => None end) es.
Definition saved_presets (es : list gui_event)
    : list (gmap string (gmap string value)) :=
  omap (fun e => match e with GuiSavePresets p => Some p | _ => None end) es.
Definition message_boxes (es : list gui_event) : list (string * string) :=
  omap (fun e => match e with GuiMessageBox kind title _ => Some (kind, title) | _ => None end)
       es.

(** A form and an application to try the settings on. *)
Module SampleApp.

Definition form : PowerLoggerApp.Form :=
  PowerLoggerApp.mkForm "USB0::0x1AB1::INSTR " ("5", Some 5%float) ("0.5", Some 0.5%float)
    ("0.1", Some 0.1%float) ("200", Some 200) ("1000", Some 1000)
    "below" "/data" "csv" "clam" "default" false MODE_CONSTANT_VOLTAGE
    "Zn" "Cu" "KOH" "6 M" " run 1 " (Some "first run").

(** The same form with a current that is not a number. *)
Definition bad_form : PowerLoggerApp.Form :=
  PowerLoggerApp.mkForm "USB0::0x1AB1::INSTR " ("5", Some 5%float) ("abc", None)
    ("0.1", Some 0.1%float) ("200", Some 200) ("1000", Some 1000)
    "below" "/data" "csv" "clam" "default" false MODE_CONSTANT_VOLTAGE
    "Zn" "Cu" "KOH" "6 M" " run 1 " (Some "first run").

Definition app (f : PowerLoggerApp.Form) : PowerLoggerApp.t :=
  PowerLoggerApp.mk (ConfigManager.init "/app" None None) (DataManager.init 1000) f
    Saved [].

End SampleApp.

(** ** [PowerLoggerApp]: the logging controls *)

Module Controls.

Record t : Type := mk {
  is_logging : bool;
  logger : option DataLogger.t;
  ani : bool;                              (* an animation is running *)
  notes_text : option string;              (* the text of the notes widget *)
  status_queue : list (string * message);  (* level and message, oldest first *)
  log : list (string * message);           (* what [add_status_message] showed *)
  history : list event                       (* what the loggers did so far *)
}.

Definition set_is_logging x app :=
  mk x (logger app) (ani app) (notes_text app) (status_queue app) (log app) (history app).
Definition set_logger x app :=
  mk (is_logging app) x (ani app) (notes_text app) (status_queue app) (log app) (history app).
Definition set_ani x app :=
  mk (is_logging app) (logger app) x (notes_text app) (status_queue app) (log app)
     (history app).
Definition set_status_queue x app :=
  mk (is_logging app) (logger app) (ani app) (notes_text app) x (log app) (history app).
Definition set_log x app :=
  mk (is_logging app) (logger app) (ani app) (notes_text app) (status_queue app) x
     (history app).
Definition set_history x app :=
  mk (is_logging app) (logger app) (ani app) (notes_text app) (status_queue app)
     (log app) x.

Local Open Scope py_scope.

Definition add_status_message (msg : message) (level : string) : M t unit :=
  modify (fun app => set_log (log app ++ [(level, msg)]) app).

(** [update_ui_state(logging_active)]; the widgets are left out. *)
Definition update_ui_state (logging_active : bool) : M t unit :=
  modify (set_is_logging logging_active).

(** A method of the logger called by the application: what the logger does
    is kept, and the messages it puts arrive on the status queue. *)
Definition on_logger {A : Type} (m : M DataLogger.t A) (l : DataLogger.t) : M t A :=
  fun app =>
    let '(r, l') := m l in
    let new := since (DataLogger.trace l) (DataLogger.trace l') in
    (r, set_history (history app ++ new)
          (set_status_queue (status_queue app ++ statuses new)
             (set_logger (Some l') app))).

(** [stop_logging]. *)
Definition stop_logging (h : Host) : M t unit :=
  app <- get ;;
  if negb (is_logging app) then ret tt
  else
    add_status_message [S_ "Stopping logging..."] STATUS_INFO ;;
    (when ani app then modify (set_ani false)) ;;
    match logger app with
    | Some l =>
        let notes := match notes_text app with
                     | Some text => strip text
                     | None => ""
                     end in
        on_logger (DataLogger.stop h notes) l ;;
        modify (set_logger None)
    | None => ret tt
    end ;;
    update_ui_state false.

(** The [while not self.status_queue.empty()] loop of [check_queues], for at
    most [fuel] messages. *)
Fixpoint drain (fuel : nat) (h : Host) : M t unit :=
  match fuel with
  | O => ret tt
  | S fuel' =>
      app <- get ;;
      match status_queue app with
      | [] => ret tt
      | (level, message) :: q =>
          modify (set_status_queue q) ;;
          add_status_message message level ;;
          (when String.eqb level "STOP_SIGNAL" then stop_logging h) ;;
          app <- get ;;
          (when String.eqb level "LOGGER_FINISHED" && is_logging app
           then stop_logging h) ;;
          drain fuel' h
      end
  end.

(** [check_queues]: an exception is printed and the polling goes on. *)
Definition check_queues (fuel : nat) (h : Host) : M t unit :=
  r <- try_ (drain fuel h) ;;
  ret tt.

(** A message that makes [check_queues] stop the run. *)
Definition ends_the_run (m : string * message) : bool :=
  String.eqb m.1 "STOP_SIGNAL" || String.eqb m.1 "LOGGER_FINISHED".

End Controls.

(** ** Starting a run from the application *)

(** Events that neither hand samples to the export nor write a file. *)
Definition unsaved (e : event) : bool :=
  match e with
  | EvExport _ _ _ _ | EvSave _ _ _ _ _ => false
  | _ => true
  end.

(** What [_connect_and_start_logging_task] does with the logger. *)
Definition connect_and_start (visa : Visa) (h : Host) (clock : float)
    : M DataLogger.t bool :=
  (connected <- connect visa ;;
   if connected then DataLogger.start h clock else ret false)%py.

(** The task and, when it fails, the [stop] of [_handle_start_failure]. *)
Definition start_or_clean_up (visa : Visa) (h : Host) (clock : float)
    : M DataLogger.t bool :=
  (started <- connect_and_start visa h clock ;;
   if started then ret true
   else (DataLogger.stop h "" ;; ret false))%py.

(** * Properties *)

(** ** Lists and floats *)

Lemma count_app {A} (p : A -> bool) (l k : list A) :
  count p (l ++ k) = (count p l + count p k)%nat.
Proof. unfold count. now rewrite List.filter_app, length_app. Qed.

Lemma count_excluded {A} (p q : A -> bool) (l : list A) :
  (forall x, q x = true -> p x = false) -> forallb q l = true -> count p l = 0%nat.
Proof.
  intros Hpq. unfold count. induction l as [|x l IH]; simpl; [reflexivity|].
  intros H. apply andb_true_iff in H as [Hx Hl].
  rewrite (Hpq x Hx). auto.
Qed.


Lemma last_n_app_ge {A} (n : nat) (d xs : list A) :
  (n <= length xs)%nat -> DataManager.last_n n (d ++ xs) = DataManager.last_n n xs.
Proof.
  intros Hn. unfold DataManager.last_n.
  rewrite length_app, drop_app_ge by lia.
  f_equal. lia.
Qed.

Lemma last_n_all {A} (n : nat) (l : list A) :
  (length l <= n)%nat -> DataManager.last_n n l = l.
Proof.
  intros Hn. unfold DataManager.last_n.
  replace (length l - n)%nat with 0%nat by lia. reflexivity.
Qed.

Lemma length_last_n {A} (n : nat) (l : list A) :
  length (DataManager.last_n n l) = Nat.min n (length l).
Proof. unfold DataManager.last_n. rewrite length_drop. lia. Qed.

Lemma last_n_last_n_app {A} (n : nat) (l xs : list A) :
  DataManager.last_n n (DataManager.last_n n l ++ xs) = DataManager.last_n n (l ++ xs).
Proof.
  destruct (decide (length l <= n)%nat) as [Hle|Hgt].
  - now rewrite (last_n_all n l).
  - unfold DataManager.last_n at 1 3.
    rewrite !length_app, length_last_n.
    unfold DataManager.last_n.
    rewrite <- (drop_app_le l xs) by lia.
    rewrite drop_drop. f_equal. lia.
Qed.

Lemma deque_append_last_n {A} (n : nat) (d : list A) (x : A) :
  (length d <= n)%nat ->
  DataManager.deque_append n d x = DataManager.last_n n (d ++ [x]).
Proof.
  intros Hd. unfold DataManager.deque_append, DataManager.last_n.
  rewrite length_app. simpl.
  destruct (n <? length d + 1)%nat eqn:E.
  - apply Nat.ltb_lt in E. f_equal. lia.
  - apply Nat.ltb_ge in E.
    replace (length d + 1 - n)%nat with 0%nat by lia. reflexivity.
Qed.

Lemma deque_appends_last_n {A} (n : nat) (xs d : list A) :
  (length d <= n)%nat ->
  foldl (DataManager.deque_append n) d xs = DataManager.last_n n (d ++ xs).
Proof.
  revert d. induction xs as [|x xs IH]; intros d Hd; simpl.
  - rewrite app_nil_r. symmetry. now apply last_n_all.
  - rewrite IH.
    + rewrite deque_append_last_n by assumption.
      rewrite last_n_last_n_app, <- app_assoc. reflexivity.
    + rewrite deque_append_last_n, length_last_n by assumption. lia.
Qed.

(** ** The sliding window *)

Section Window.

Import DataManager.

Lemma apply_max_plot_points (o : op) (dm : t) :
  max_plot_points (apply o dm) = max_plot_points dm.
Proof.
  destruct o; simpl; try reflexivity.
  - unfold get_nowait. now destruct (data_queue dm).
  - unfold drain_one, get_nowait. now destruct (data_queue dm).
Qed.

Lemma length_deque_append {A} (n : nat) (d : list A) (x : A) :
  (length d <= n)%nat ->
  length (deque_append n d x) = Nat.min n (length d + 1).
Proof.
  intros Hd. rewrite deque_append_last_n, length_last_n, length_app by assumption.
  reflexivity.
Qed.

Lemma append_for_plotting_keeps (x : Row) (dm : t) :
  lock_step dm -> bounded dm ->
  lock_step (append_for_plotting x dm) /\ bounded (append_for_plotting x dm).
Proof.
  unfold lock_step, bounded, maxlen. simpl.
  intros (Hv & Hc & Hp & Hr) Hb.
  rewrite !length_deque_append by (unfold maxlen; lia).
  rewrite Hv, Hc, Hp, Hr. unfold maxlen. repeat split; lia.
Qed.

Lemma apply_keeps (o : op) (dm : t) :
  lock_step dm -> bounded dm -> lock_step (apply o dm) /\ bounded (apply o dm).
Proof.
  intros Hl Hb. destruct o; simpl.
  - split; assumption.
  - unfold get_nowait. destruct (data_queue dm); split; assumption.
  - now apply append_for_plotting_keeps.
  - unfold lock_step, bounded. simpl. repeat split; lia.
  - unfold drain_one, get_nowait. destruct (data_queue dm) as [|y q].
    + split; assumption.
    + apply append_for_plotting_keeps; assumption.
Qed.

Lemma run_keeps (ops : list op) (dm : t) :
  lock_step dm -> bounded dm ->
  max_plot_points (run ops dm) = max_plot_points dm
  /\ lock_step (run ops dm) /\ bounded (run ops dm).
Proof.
  revert dm. induction ops as [|o ops IH]; intros dm Hl Hb; simpl.
  - split; [reflexivity | split; assumption].
  - destruct (apply_keeps o dm Hl Hb) as [Hl' Hb'].
    destruct (IH _ Hl' Hb') as (Hm & ? & ?).
    unfold run in *. rewrite Hm, apply_max_plot_points.
    split; [reflexivity | split; assumption].
Qed.

Lemma init_keeps (n : Z) : lock_step (init n) /\ bounded (init n).
Proof. unfold lock_step, bounded. simpl. repeat split; lia. Qed.

(** Each series of the window follows its own bounded deque. *)
Lemma appends_series (rows : list Row) (dm : t) :
  max_plot_points (appends rows dm) = max_plot_points dm /\
  series (appends rows dm) =
    [foldl (deque_append (maxlen dm)) (time_data dm) (row_t <$> rows);
     foldl (deque_append (maxlen dm)) (voltage_data dm) (row_v <$> rows);
     foldl (deque_append (maxlen dm)) (current_data dm) (row_i <$> rows);
     foldl (deque_append (maxlen dm)) (power_data dm) (row_p <$> rows);
     foldl (deque_append (maxlen dm)) (resistance_data dm) (row_r <$> rows)].
Proof.
  revert dm. induction rows as [|x rows IH]; intros dm.
  - split; reflexivity.
  - unfold appends in *. simpl. destruct (IH (append_for_plotting x dm)) as [Hm Hs].
    rewrite Hm, Hs. split; reflexivity.
Qed.

Lemma window_after_overflow {A} (n : nat) (f : Row -> A) (d : list A)
    (rows : list Row) :
  (length d <= n)%nat -> (n < length rows)%nat ->
  foldl (deque_append n) d (f <$> rows) = f <$> last_n n rows.
Proof.
  intros Hd Hn. rewrite deque_appends_last_n by assumption.
  rewrite last_n_app_ge by (rewrite length_fmap; lia).
  unfold last_n. now rewrite fmap_drop, length_fmap.
Qed.

End Window.

(** C6. The window's capacity is the configured one raised to at least 10 and
    never changes; after every operation the five series have one length (and
    at most [capacity] items); once more than [capacity] samples have been
    appended, the five series hold exactly the last [capacity] of them, in
    order. *)
Theorem sliding_window_keeps_last_capacity_samples :
  (forall n : Z,
      DataManager.max_plot_points (DataManager.init n) = Z.max n 10
      /\ 10 <= DataManager.max_plot_points (DataManager.init n)) /\
  (forall (n : Z) (ops : list DataManager.op),
      let dm := DataManager.run ops (DataManager.init n) in
      DataManager.max_plot_points dm = Z.max n 10
      /\ DataManager.lock_step dm /\ DataManager.bounded dm) /\
  (forall (n : Z) (ops : list DataManager.op) (rows : list Row),
      let dm := DataManager.run ops (DataManager.init n) in
      (DataManager.maxlen dm < length rows)%nat ->
      DataManager.series (DataManager.appends rows dm)
      = DataManager.series_of (DataManager.last_n (DataManager.maxlen dm) rows)
      /\ DataManager.lock_step (DataManager.appends rows dm)).
Proof.
  split; [|split].
  - intros n. simpl. unfold MIN_PLOT_POINTS. lia.
  - intros n ops dm. subst dm.
    destruct (init_keeps n) as [Hl Hb].
    destruct (run_keeps ops _ Hl Hb) as (Hm & ? & ?).
    rewrite Hm. split; [reflexivity | split; assumption].
  - intros n ops rows dm Hk. subst dm.
    destruct (init_keeps n) as [Hl Hb].
    destruct (run_keeps ops _ Hl Hb) as (_ & Hl' & Hb').
    set (dm := DataManager.run ops (DataManager.init n)) in *.
    destruct (appends_series rows dm) as [_ Hs].
    assert (Hseries : DataManager.series (DataManager.appends rows dm)
              = DataManager.series_of (DataManager.last_n (DataManager.maxlen dm) rows)).
    { rewrite Hs. unfold DataManager.series_of.
      destruct Hl' as (Hv & Hc & Hp & Hr). unfold DataManager.bounded in Hb'.
      rewrite !window_after_overflow by lia. reflexivity. }
    split; [exact Hseries|].
    unfold DataManager.series, DataManager.series_of in Hseries.
    injection Hseries as Ht Hv Hc Hp Hr.
    unfold DataManager.lock_step. rewrite Ht, Hv, Hc, Hp, Hr.
    rewrite !length_fmap. repeat split; reflexivity.
Qed.

Lemma sliding_window_witness :
  (DataManager.maxlen (DataManager.run [] (DataManager.init 3))
   < length Sample.rows11)%nat
  /\ DataManager.series
       (DataManager.appends Sample.rows11 (DataManager.run [] (DataManager.init 3)))
     = DataManager.series_of (DataManager.last_n 10 Sample.rows11).
Proof.
  assert (H : (DataManager.maxlen (DataManager.run [] (DataManager.init 3))
               < length Sample.rows11)%nat) by (cbv; repeat constructor).
  split; [exact H|].
  exact (proj1 (proj2 (proj2 sliding_window_keeps_last_capacity_samples) 3 [] Sample.rows11 H)).
Defined.

Lemma SFleb_not_gt (x y : spec_float) : SFleb x y = true -> SFltb y x = false.
Proof.
  unfold SFleb, SFltb.
  destruct x as [sx|sx| |sx mx ex], y as [sy|sy| |sy my ey]; simpl;
    try discriminate; try reflexivity;
    try (destruct sx; try destruct sy; simpl; congruence).
  pose proof (Pos.compare_cont_antisym mx my Eq) as HA. simpl in HA.
  destruct sx, sy; simpl; try congruence;
    rewrite (Z.compare_antisym ey ex);
    destruct (ey ?= ex)%Z; simpl; try congruence;
    rewrite <- HA; destruct (Pos.compare_cont Eq mx my); simpl; congruence.
Qed.

(** [x <= y] excludes [x > y], for every pair of binary64 values. *)
Lemma leb_not_gt (x y : float) : (x <=. y) = true -> (x >. y) = false.
Proof. rewrite leb_spec, ltb_spec. apply SFleb_not_gt. Qed.

(** ** Composing computations *)

Section Respects.

Context {St : Type} (R : St -> St -> Prop).
Context (R_refl : forall s, R s s).
Context (R_trans : forall s1 s2 s3, R s1 s2 -> R s2 s3 -> R s1 s3).

Lemma respects_ret {A} (a : A) : respects R (ret a).
Proof. intros s. apply R_refl. Qed.

Lemma respects_raise {A} (x : exn) : respects R (@raise St A x).
Proof. intros s. apply R_refl. Qed.

Lemma respects_get : respects R get.
Proof. intros s. apply R_refl. Qed.

Lemma respects_modify (f : St -> St) : (forall s, R s (f s)) -> respects R (modify f).
Proof. intros Hf s. apply Hf. Qed.

Lemma respects_bind {A B} (m : M St A) (k : A -> M St B) :
  respects R m -> (forall a, respects R (k a)) -> respects R (bind m k).
Proof.
  intros Hm Hk s. unfold bind. specialize (Hm s).
  destruct (m s) as [[a|x] s1]; simpl in *.
  - eapply R_trans; [exact Hm | apply Hk].
  - exact Hm.
Qed.

Lemma respects_try {A} (m : M St A) : respects R m -> respects R (try_ m).
Proof. intros Hm s. unfold try_. specialize (Hm s). now destruct (m s). Qed.

End Respects.

Lemma grows_refl (Q : event -> bool) (tr : list event) : grows Q tr tr.
Proof. exists []. now rewrite app_nil_r. Qed.

Lemma grows_trans (Q : event -> bool) (t1 t2 t3 : list event) :
  grows Q t1 t2 -> grows Q t2 t3 -> grows Q t1 t3.
Proof.
  intros (es & -> & H) (es' & -> & H'). exists (es ++ es').
  now rewrite app_assoc, forallb_app, H, H'.
Qed.

Lemma grows_one (Q : event -> bool) (tr : list event) (e : event) :
  Q e = true -> grows Q tr (tr ++ [e]).
Proof. intros H. exists [e]. simpl. now rewrite H. Qed.

Lemma since_app (tr es : list event) : since tr (tr ++ es) = es.
Proof. unfold since. apply drop_app_length. Qed.

(** Splits a computation along its binds, branches and primitives; what is
    left are the state changes themselves. *)
Ltac respects_step refl trans :=
  lazymatch goal with
  | |- respects _ (ret _) => apply (respects_ret _ refl)
  | |- respects _ (raise _) => apply (respects_raise _ refl)
  | |- respects _ get => apply (respects_get _ refl)
  | |- respects _ (try_ _) => apply respects_try
  | |- respects _ (bind _ _) => apply (respects_bind _ trans); [|intros]
  | |- respects _ (modify _) => apply respects_modify; intros []
  | |- respects _ (match ?x with _ => _ end) => destruct x
  | |- respects _ (let _ := _ in _) => cbv zeta
  end.

(** ** One iteration of the acquisition loop *)

Section Iteration.

Import DataLogger.

Lemma bind_get {A} (k : t -> M t A) (s : t) : bind get k s = k s s.
Proof. reflexivity. Qed.

Lemma bind_modify {A} (f : t -> t) (k : unit -> M t A) (s : t) :
  bind (modify f) k s = k tt (f s).
Proof. reflexivity. Qed.

Lemma bind_emit {A} (e : event) (k : unit -> M t A) (s : t) :
  bind (emit e) k s = k tt (logged [e] s).
Proof. reflexivity. Qed.

Lemma bind_eq {A B} (m : M t A) (k : A -> M t B) (s s' : t) (a : A) :
  m s = (Ok a, s') -> bind m k s = k a s'.
Proof. unfold bind. now intros ->. Qed.

Lemma bind_raise {A B} (m : M t A) (k : A -> M t B) (s s' : t) (x : exn) :
  m s = (Raise x, s') -> bind m k s = (Raise x, s').
Proof. unfold bind. now intros ->. Qed.

Lemma try_eq {A} (m : M t A) (s s' : t) (r : result A) :
  m s = (r, s') -> try_ m s = (Ok r, s').
Proof. unfold try_. now intros ->. Qed.

Lemma logged_nil (s : t) : logged [] s = s.
Proof. destruct s. unfold logged. simpl. now rewrite app_nil_r. Qed.

Lemma logged_logged (es es' : list event) (s : t) :
  logged es' (logged es s) = logged (es ++ es') s.
Proof. destruct s. unfold logged. simpl. now rewrite app_assoc. Qed.

Lemma check_stop_condition_spec (v c : float) (s : t) :
  let b := comparison_holds (config s) (monitored (config s) v c) in
  exists msg,
    _check_stop_condition v c s
    = (Ok b, logged (if b then [EvStatus STATUS_WARNING msg] else []) s).
Proof.
  unfold _check_stop_condition, comparison_holds, monitored, _send_status, emit,
    bind, ret, get, modify. simpl.
  destruct (String.eqb (lower (stop_condition (config s))) "below"
            && _) eqn:Eb; simpl.
  - eexists. reflexivity.
  - destruct (String.eqb (lower (stop_condition (config s))) "above"
              && _) eqn:Ea; simpl.
    + eexists. reflexivity.
    + exists []. now rewrite logged_nil.
Qed.

Lemma stop_checks_spec (et v c : float) (s : t) :
  let b := stops (config s) et v c in
  exists msg,
    stop_checks et v c s
    = (Ok b, logged (if b then [EvStatus STATUS_WARNING msg] else []) s)
    /\ ((et >. 1.0%float) && zero_output v c = true -> msg = ZERO_VI_MESSAGE).
Proof.
  unfold stop_checks, stops, zero_output, ZERO_VI_STOP_DELAY_S,
    INITIAL_SETTLING_TIME_S.
  destruct (et >. 1.0%float) eqn:Et; simpl.
  - destruct ((fabs v <. ZERO_VI_THRESHOLD) && (fabs c <. ZERO_VI_THRESHOLD)) eqn:Ez;
      simpl.
    + exists ZERO_VI_MESSAGE. split; reflexivity.
    + destruct (check_stop_condition_spec v c s) as [msg Hc].
      exists msg. split; [exact Hc | discriminate].
  - exists []. rewrite logged_nil. split; [reflexivity | discriminate].
Qed.

Lemma auto_stop_spec (i : Tick) (s : t) :
  ready s ->
  auto_stop i s
  = (Ok tt, set_stop_event true (logged (halt_events (is_simulating s) i) s)).
Proof.
  intros Hr. destruct s as [cfg dm dp rm ev th sim ld sst t0 pts dl tr].
  unfold ready in Hr. simpl in Hr.
  unfold auto_stop, halt_events, ignoring, dp_write, _send_status, emit, logged,
    bind, ret, raise, try_, get, modify. simpl.
  destruct sim; simpl.
  - destruct (beep i); simpl; rewrite <- ?app_assoc; reflexivity.
  - destruct (Hr eq_refl) as [ins ->]. simpl.
    destruct (write_error ins OUTP_CH1_OFF); simpl;
      destruct (beep i); simpl; rewrite <- ?app_assoc; reflexivity.
Qed.

Lemma read_measured (i : Tick) (s : t) (et v c : float) :
  measurement (config s) (is_simulating s) et i = Some (v, c) ->
  ready s ->
  (if is_simulating s then _read_simulation et i else _read_instrument i) s
  = (Ok (v, c), logged (read_events (is_simulating s)) s).
Proof.
  intros Hm Hr. destruct s as [cfg dm dp rm ev th sim ld sst t0 pts dl tr].
  unfold ready in Hr. unfold measurement in Hm. simpl in *.
  destruct sim; simpl.
  - injection Hm as <- <-. unfold _read_simulation, logged, bind, ret, get. simpl.
    now rewrite app_nil_r.
  - destruct (Hr eq_refl) as [ins ->].
    destruct (volt i) as [tv [v'|]| |] eqn:Ev; try discriminate.
    destruct (curr i) as [tc [c'|]| |] eqn:Ec; try discriminate.
    injection Hm as <- <-.
    unfold _read_instrument, dp_query, to_float, emit, logged, bind, ret, get, modify.
    simpl. rewrite Ev, Ec. simpl. now rewrite <- app_assoc.
Qed.

Lemma read_failed (i : Tick) (s : t) (et : float) :
  measurement (config s) (is_simulating s) et i = None ->
  ready s ->
  exists x qs,
    (if is_simulating s then _read_simulation et i else _read_instrument i) s
    = (Raise x, logged qs s)
    /\ forallb is_query qs = true.
Proof.
  intros Hm Hr. destruct s as [cfg dm dp rm ev th sim ld sst t0 pts dl tr].
  unfold ready in Hr. unfold measurement in Hm. simpl in *.
  destruct sim; [discriminate|].
  destruct (Hr eq_refl) as [ins ->].
  unfold _read_instrument, dp_query, to_float, emit, logged, bind, ret, raise, get,
    modify. simpl.
  destruct (volt i) as [tv [v'|]| |] eqn:Ev; simpl;
    try (eexists; exists [EvQuery MEAS_VOLT]; split; reflexivity).
  destruct (curr i) as [tc [c'|]| |] eqn:Ec; simpl; try discriminate;
    rewrite <- app_assoc;
    eexists; exists [EvQuery MEAS_VOLT; EvQuery MEAS_CURR]; split; reflexivity.
Qed.

Lemma ready_logged (es : list event) (s : t) : ready s -> ready (logged es s).
Proof. destruct s. exact id. Qed.

(** An iteration whose read completes. *)
Lemma iteration_measured (i : Tick) (s : t) (v c : float) :
  let et := (now i - start_time s)%float in
  let row := make_row et v c in
  let b := stops (config s) et v c in
  measurement (config s) (is_simulating s) et i = Some (v, c) ->
  ready s ->
  exists msg,
    iteration i s
    = (Ok (if b then Break else Continue),
       sampled row
         (read_events (is_simulating s) ++ [EvLogged row; EvPut row]
          ++ (if b then EvStatus STATUS_WARNING msg :: halt_events (is_simulating s) i
              else pace_events (delay_s s) i))
         b s)
    /\ ((et >. 1.0%float) && zero_output v c = true -> msg = ZERO_VI_MESSAGE).
Proof.
  intros et row b Hm Hr.
  unfold iteration. rewrite bind_get. fold et.
  erewrite bind_eq by (apply try_eq, read_measured; eassumption).
  cbv iota beta. fold row.
  rewrite bind_modify, bind_emit, bind_modify, bind_emit, bind_modify.
  match goal with |- context [bind (stop_checks et v c) ?k ?s1] =>
    destruct (stop_checks_spec et v c s1) as (msg & Hs & Hz); set (s2 := s1) in * end.
  exists msg. split; [|exact Hz].
  erewrite bind_eq by exact Hs.
  assert (Hcfg : config s2 = config s) by (destruct s; reflexivity).
  rewrite Hcfg. fold b.
  destruct b.
  - erewrite bind_eq.
    2:{ apply auto_stop_spec. apply ready_logged. destruct s. exact Hr. }
    destruct s. unfold sampled, logged, ret. simpl.
    rewrite orb_true_r, <- !app_assoc. reflexivity.
  - rewrite bind_get. unfold pace_events, emit, modify, bind, ret.
    destruct s as [cfg dm dp rm ev th sim ld sst t0 pts dl tr].
    unfold sampled, logged. simpl.
    destruct ((dl - spent i)%float >. 0%float); simpl;
      rewrite orb_false_r, <- ?app_assoc, ?app_nil_r; reflexivity.
Qed.

(** An iteration whose read fails: whatever the failure, the event is set
    and the loop is left. *)
Lemma iteration_failed (i : Tick) (s : t) :
  let et := (now i - start_time s)%float in
  measurement (config s) (is_simulating s) et i = None ->
  ready s ->
  exists qs msg tb,
    iteration i s = (Ok Break, aborted (qs ++ EvStatus STATUS_ERROR msg :: tb) s)
    /\ forallb is_query qs = true
    /\ (tb = [] \/ tb = [EvTraceback]).
Proof.
  intros et Hm Hr.
  destruct (read_failed i s et Hm Hr) as (x & qs & Hread & Hqs).
  unfold iteration. rewrite bind_get. fold et.
  erewrite bind_eq by (apply try_eq; exact Hread).
  destruct x as [e|e|e]; eexists qs, _, _;
    (split; [|split; [exact Hqs|]]);
    try (rewrite bind_emit, ?bind_emit, bind_modify; unfold ret, _send_status;
         unfold aborted; rewrite ?logged_logged, <- ?app_assoc; reflexivity);
    try (unfold _send_status; rewrite bind_emit, ?bind_emit, bind_modify; unfold ret;
         unfold aborted; rewrite ?logged_logged, <- ?app_assoc; reflexivity);
    auto.
Qed.

End Iteration.

(** ** The older loop *)

Section OldLoop.

Import Part000.






(** What [loop_setup] does. *)
Lemma old_loop_setup_spec (clock : float) (s : t) :
  let original := update_interval_ms (config s) in
  loop_setup clock s
  = (Ok tt,
     set_trace
       (trace s
        ++ (if Z.ltb original MIN_UPDATE_INTERVAL_MS
            then [EvStatus STATUS_WARNING [S_ ADJUSTED; I_ (interval_ms original); S_ "ms."]]
            else [])
        ++ [EvStatus STATUS_INFO [S_ "Logging data..."]])
       (set_locals (float_of_Z (interval_ms original) / 1000.0)%float clock clock 0
                   (threshold (config s)) (stop_condition (config s)) s)).
Proof.
  destruct s. unfold loop_setup, interval_ms, status_put, emit, MIN_UPDATE_INTERVAL_MS,
    bind, ret, get, modify. simpl.
  destruct (Z.ltb (update_interval_ms config0) 10) eqn:E.
  - apply Z.ltb_lt in E.
    replace (Z.eqb (Z.max (update_interval_ms config0) 10) (update_interval_ms config0))
      with false by (symmetry; apply Z.eqb_neq; lia).
    simpl. now rewrite <- app_assoc.
  - apply Z.ltb_ge in E.
    replace (Z.eqb (Z.max (update_interval_ms config0) 10) (update_interval_ms config0))
      with true by (symmetry; apply Z.eqb_eq; lia).
    reflexivity.
Qed.


End OldLoop.

Section OldReads.

Import Part000.

(** In the older loop a reply that does not convert costs one point only. *)
Lemma old_iteration_parse_error (i : Tick) (s : t) (ins : Instrument)
    (tv tc : string) (vv cv : option float) :
  is_simulating s = false -> dp s = Some ins ->
  volt i = Reply tv vv -> curr i = Reply tc cv -> vv = None \/ cv = None ->
  exists msg pause,
    iteration i s
    = (Ok Continue,
       set_trace (trace s ++ [EvQuery MEAS_VOLT; EvQuery MEAS_CURR;
                              EvError STATUS_WARNING msg] ++ pause) s)
    /\ forallb (fun e => negb (is_sample e || is_message e)) pause = true.
Proof.
  intros Hsim Hdp Hv Hc Hnone.
  destruct s as [cfg dm dp0 ev th sim ld sc sv sst dl t0 t1 pts thr cond tr].
  simpl in *. subst sim dp0.
  unfold iteration, acquire, pace, dp_query, to_float, error_put, emit, bind, ret,
    raise, try_, get, modify. simpl. rewrite Hv, Hc. simpl.
  destruct vv as [x|]; simpl.
  - destruct Hnone as [?| ->]; [discriminate|]. simpl.
    destruct ((dl - spent i)%float >. 0%float); simpl;
      eexists; eexists; (split; [rewrite <- ?app_assoc; simpl; reflexivity|]);
      reflexivity.
  - destruct ((dl - spent i)%float >. 0%float); simpl;
      eexists; eexists; (split; [rewrite <- ?app_assoc; simpl; reflexivity|]);
      reflexivity.
Qed.

(** In the older loop a transport error ends the run. *)
Lemma old_iteration_visa_error (i : Tick) (s : t) (ins : Instrument) (e : string) :
  is_simulating s = false -> dp s = Some ins ->
  volt i = QueryVisaError e
  \/ (exists tv vv, volt i = Reply tv vv /\ curr i = QueryVisaError e) ->
  exists qs msg,
    iteration i s
    = (Ok Break,
       set_stop_event true (set_trace (trace s ++ qs ++ [EvError STATUS_ERROR msg]) s))
    /\ forallb is_query qs = true.
Proof.
  intros Hsim Hdp Hvisa.
  destruct s as [cfg dm dp0 ev th sim ld sc sv sst dl t0 t1 pts thr cond tr].
  simpl in *. subst sim dp0.
  unfold iteration, acquire, pace, dp_query, to_float, error_put, emit, bind, ret,
    raise, try_, get, modify. simpl.
  destruct Hvisa as [Hv | (tv & vv & Hv & Hc)].
  - rewrite Hv. simpl. exists [EvQuery MEAS_VOLT]. eexists.
    split; [rewrite <- ?app_assoc; reflexivity | reflexivity].
  - rewrite Hv, Hc. simpl. exists [EvQuery MEAS_VOLT; EvQuery MEAS_CURR]. eexists.
    split; [rewrite <- ?app_assoc; reflexivity | reflexivity].
Qed.

End OldReads.

Lemma comparison_holds_iff (cfg : Config) (x : float) :
  comparison_holds cfg x = true <->
  (lower (stop_condition cfg) = "below" /\ (x <. threshold cfg) = true)
  \/ (lower (stop_condition cfg) = "above" /\ (x >. threshold cfg) = true).
Proof.
  unfold comparison_holds.
  rewrite orb_true_iff, !andb_true_iff, !String.eqb_eq. reflexivity.
Qed.

(** ** The claims about one iteration *)

(** C2, amended. After a completed read the loop is left exactly when more
    than 1.0 s have elapsed and either the zero-output rule holds or the
    configured comparison holds of the monitored value, which is the
    magnitude of the measured current in constant-voltage mode and the
    measured voltage in constant-current mode; at or before 1.0 s nothing
    stops the loop. *)
Theorem stop_rule_after_settling (i : Tick) (s : DataLogger.t) (v c : float) :
  let et := (now i - DataLogger.start_time s)%float in
  let cfg := DataLogger.config s in
  measurement cfg (DataLogger.is_simulating s) et i = Some (v, c) ->
  ready s ->
  (fst (DataLogger.iteration i s)
   = Ok (if stops cfg et v c then Break else Continue))
  /\ (fst (DataLogger.iteration i s) = Ok Break <->
      (et >. 1.0%float) = true
      /\ (zero_output v c = true
          \/ (lower (stop_condition cfg) = "below"
              /\ (monitored cfg v c <. threshold cfg) = true)
          \/ (lower (stop_condition cfg) = "above"
              /\ (monitored cfg v c >. threshold cfg) = true)))
  /\ ((et >. 1.0%float) = false -> fst (DataLogger.iteration i s) = Ok Continue)
  /\ (operation_mode cfg = MODE_CONSTANT_VOLTAGE -> monitored cfg v c = fabs c)
  /\ (operation_mode cfg = MODE_CONSTANT_CURRENT -> monitored cfg v c = v).
Proof.
  intros et cfg Hm Hr.
  destruct (iteration_measured i s v c Hm Hr) as (msg & Hit & _).
  fold et cfg in Hit. rewrite Hit. simpl.
  split; [reflexivity|]. split; [|split; [|split]].
  - transitivity (stops cfg et v c = true).
    + destruct (stops cfg et v c); split; intros H; try reflexivity; discriminate.
    + unfold stops. rewrite andb_true_iff, orb_true_iff, comparison_holds_iff.
      reflexivity.
  - intros Het. unfold stops. now rewrite Het.
  - intros Hmode. unfold monitored. now rewrite Hmode.
  - intros Hmode. unfold monitored. now rewrite Hmode.
Qed.

Lemma stop_rule_witness :
  fst (DataLogger.iteration (Sample.reading 101.5 4 0.09)
         (Sample.running Sample.cfg))
  = Ok Break.
Proof.
  apply (proj1 (proj2 (stop_rule_after_settling (Sample.reading 101.5 4 0.09)
                         (Sample.running Sample.cfg) 4 0.09
                         eq_refl (fun _ => ex_intro _ Sample.instrument eq_refl)))).
  split; [reflexivity|]. right. left. split; reflexivity.
Defined.

(** C2 as stated fails: in constant-voltage mode with "below 0.1", a measured
    current of -0.5 A is below the threshold after the settling window, yet
    the loop goes on, because it compares the magnitude 0.5. *)
Lemma negative_current_below_threshold_does_not_stop :
  let s := Sample.running Sample.cfg in
  let i := Sample.reading 101.5 4 (-0.5) in
  let et := (now i - DataLogger.start_time s)%float in
  measurement (DataLogger.config s) (DataLogger.is_simulating s) et i
  = Some (4%float, (-0.5)%float)
  /\ (et >. 1.0%float) = true
  /\ comparison_holds (DataLogger.config s)
       (monitored_as_specified (DataLogger.config s) 4 (-0.5)) = true
  /\ fst (DataLogger.iteration i s) = Ok Continue.
Proof. vm_compute. repeat split; reflexivity. Qed.



(** C4, amended. In [_log_data_loop] every failed read, a reply that does not
    convert as much as a VISA I/O error, reports an error, records no sample,
    sets the stop event and ends the loop.  In the older [_log_data] a reply
    that does not convert costs only that point (a warning, no sample, the
    loop goes on), and a VISA I/O error ends the loop. *)
Theorem read_failures :
  (forall (i : Tick) (s : DataLogger.t),
      measurement (DataLogger.config s) (DataLogger.is_simulating s)
        (now i - DataLogger.start_time s)%float i = None ->
      ready s ->
      let s' := snd (DataLogger.iteration i s) in
      fst (DataLogger.iteration i s) = Ok Break
      /\ DataLogger.stop_event s' = true
      /\ DataLogger._logged_data s' = DataLogger._logged_data s
      /\ DataLogger.data_manager s' = DataLogger.data_manager s
      /\ existsb (has_level STATUS_ERROR)
           (since (DataLogger.trace s) (DataLogger.trace s')) = true
      /\ count is_sample (since (DataLogger.trace s) (DataLogger.trace s')) = 0%nat)
  /\ (forall (i : Tick) (s : Part000.t) (ins : Instrument) (tv tc : string)
        (vv cv : option float),
      Part000.is_simulating s = false -> Part000.dp s = Some ins ->
      volt i = Reply tv vv -> curr i = Reply tc cv -> vv = None \/ cv = None ->
      let s' := snd (Part000.iteration i s) in
      fst (Part000.iteration i s) = Ok Continue
      /\ Part000.stop_event s' = Part000.stop_event s
      /\ Part000._logged_data s' = Part000._logged_data s
      /\ Part000.data_manager s' = Part000.data_manager s
      /\ count (has_level STATUS_WARNING)
           (since (Part000.trace s) (Part000.trace s')) = 1%nat
      /\ count (has_level STATUS_ERROR)
           (since (Part000.trace s) (Part000.trace s')) = 0%nat
      /\ count is_sample (since (Part000.trace s) (Part000.trace s')) = 0%nat)
  /\ (forall (i : Tick) (s : Part000.t) (ins : Instrument) (e : string),
      Part000.is_simulating s = false -> Part000.dp s = Some ins ->
      volt i = QueryVisaError e
      \/ (exists tv vv, volt i = Reply tv vv /\ curr i = QueryVisaError e) ->
      let s' := snd (Part000.iteration i s) in
      fst (Part000.iteration i s) = Ok Break
      /\ Part000.stop_event s' = true
      /\ Part000._logged_data s' = Part000._logged_data s
      /\ existsb (has_level STATUS_ERROR)
           (since (Part000.trace s) (Part000.trace s')) = true).
Proof.
  split; [|split].
  - intros i s Hm Hr s'.
    destruct (iteration_failed i s Hm Hr) as (qs & msg & tb & Hit & Hqs & Htb).
    subst s'. rewrite Hit. destruct s. simpl.
    rewrite since_app, existsb_app, count_app. simpl.
    rewrite orb_true_r.
    assert (Hq : count is_sample qs = 0%nat).
    { apply (count_excluded _ is_query); [now intros [] | exact Hqs]. }
    rewrite Hq. repeat split; try reflexivity.
    destruct Htb as [-> | ->]; reflexivity.
  - intros i s ins tv tc vv cv Hsim Hdp Hv Hc Hnone s'.
    destruct (old_iteration_parse_error i s ins tv tc vv cv Hsim Hdp Hv Hc Hnone)
      as (msg & pause & Hit & Hp).
    subst s'. rewrite Hit. destruct s. simpl.
    rewrite since_app.
    change (?a :: ?b :: ?c :: pause) with ([a; b; c] ++ pause).
    rewrite !count_app.
    assert (Hw : forall p : event -> bool,
               (forall x, negb (is_sample x || is_message x) = true -> p x = false) ->
               count p pause = 0%nat).
    { intros p Hp'. now apply (count_excluded p _ pause Hp'). }
    rewrite !Hw by (intros [] H; try reflexivity; discriminate).
    repeat split; reflexivity.
  - intros i s ins e Hsim Hdp Hvisa s'.
    destruct (old_iteration_visa_error i s ins e Hsim Hdp Hvisa)
      as (qs & msg & Hit & Hqs).
    subst s'. rewrite Hit. destruct s. simpl.
    rewrite since_app, existsb_app. simpl. rewrite orb_true_r.
    repeat split; reflexivity.
Qed.

Lemma read_failures_witness :
  fst (Part000.iteration (Sample.garbled 100.4) (Sample.connected_old Sample.cfg))
  = Ok Continue
  /\ fst (Part000.iteration (Sample.timed_out 100.4) (Sample.connected_old Sample.cfg))
     = Ok Break
  /\ fst (DataLogger.iteration (Sample.timed_out 100.4) (Sample.running Sample.cfg))
     = Ok Break.
Proof.
  split; [|split].
  - exact (proj1 (proj1 (proj2 read_failures) (Sample.garbled 100.4)
                    (Sample.connected_old Sample.cfg) Sample.instrument
                    "abc" "0.5" None (Some 0.5%float)
                    eq_refl eq_refl eq_refl eq_refl (or_introl eq_refl))).
  - exact (proj1 (proj2 (proj2 read_failures) (Sample.timed_out 100.4)
                    (Sample.connected_old Sample.cfg) Sample.instrument
                    "VI_ERROR_TMO" eq_refl eq_refl (or_introl eq_refl))).
  - exact (proj1 (proj1 read_failures (Sample.timed_out 100.4)
                    (Sample.running Sample.cfg) eq_refl
                    (fun _ => ex_intro _ Sample.instrument eq_refl))).
Defined.

(** C4 as stated fails on [_log_data_loop]: a voltage reply that does not
    convert ends the loop with the stop event set, instead of being skipped. *)
Lemma parse_error_ends_the_loop :
  let s := Sample.running Sample.cfg in
  let i := Sample.garbled 100.4 in
  volt i = Reply "abc" None
  /\ fst (DataLogger.iteration i s) = Ok Break
  /\ DataLogger.stop_event (snd (DataLogger.iteration i s)) = true
  /\ count (has_level STATUS_WARNING)
       (since (DataLogger.trace s) (DataLogger.trace (snd (DataLogger.iteration i s))))
     = 0%nat.
Proof. vm_compute. repeat split; reflexivity. Qed.

(** ** Pacing *)

Lemma loop_setup_spec (clock : float) (s : DataLogger.t) :
  let delay :=
    (float_of_Z (Z.max (update_interval_ms (DataLogger.config s)) MIN_UPDATE_INTERVAL_MS)
     / 1000.0)%float in
  DataLogger.loop_setup clock s
  = (Ok tt,
     logged [EvStatus STATUS_INFO
               [S_ "Logging started (Interval: "; F0 (delay * 1000)%float; S_ "ms)."]]
       (DataLogger.set_locals clock 0 delay s)).
Proof. destruct s. reflexivity. Qed.



(** ** Samples *)

(** C8, amended. The row recorded for a completed read of [v] and [c] holds
    the power [v * c]; its resistance is [v / c] whenever [|c| > 1e-9] and
    [+infinity] whenever that comparison fails, in particular whenever
    [|c| <= 1e-9]. *)
Theorem recorded_power_and_resistance (i : Tick) (s : DataLogger.t) (v c : float) :
  let et := (now i - DataLogger.start_time s)%float in
  measurement (DataLogger.config s) (DataLogger.is_simulating s) et i = Some (v, c) ->
  ready s ->
  exists row,
    DataLogger._logged_data (snd (DataLogger.iteration i s))
    = DataLogger._logged_data s ++ [row]
    /\ row_t row = et /\ row_v row = v /\ row_i row = c
    /\ row_p row = (v * c)%float
    /\ ((fabs c >. 1e-9%float) = true -> row_r row = (v / c)%float)
    /\ ((fabs c >. 1e-9%float) = false -> row_r row = inf)
    /\ ((fabs c <=. 1e-9%float) = true -> row_r row = inf).
Proof.
  intros et Hm Hr.
  destruct (iteration_measured i s v c Hm Hr) as (msg & Hit & _).
  fold et in Hit. rewrite Hit. exists (make_row et v c). simpl.
  unfold resistance.
  repeat split; try reflexivity.
  - now intros ->.
  - now intros ->.
  - intros H. now rewrite (leb_not_gt _ _ H).
Qed.

Lemma recorded_power_and_resistance_witness :
  exists row,
    DataLogger._logged_data
      (snd (DataLogger.iteration (Sample.reading 100.5 4 0) (Sample.running Sample.cfg)))
    = [Sample.stale; row]
    /\ row_p row = 0%float /\ row_r row = inf.
Proof.
  destruct (recorded_power_and_resistance (Sample.reading 100.5 4 0)
              (Sample.running Sample.cfg) 4 0 eq_refl
              (fun _ => ex_intro _ Sample.instrument eq_refl))
    as (row & Hl & _ & _ & _ & Hp & _ & _ & Hr).
  exists row. split; [exact Hl|]. split; [exact Hp | exact (Hr eq_refl)].
Defined.

(** C8 as stated fails: the quotient of two ordinary readings can itself be
    [+infinity] while [|c|] is far above 1e-9, and a current that is not a
    number gets [+infinity] although neither [|c| <= 1e-9] holds nor is
    [v / c] infinite. *)
Lemma resistance_not_as_specified :
  ~ resistance_as_specified 1e308 0.5 /\ ~ resistance_as_specified 1 nan.
Proof.
  split.
  - intros [[H _] _]. specialize (H eq_refl). vm_compute in H. discriminate.
  - intros [[H _] _]. specialize (H eq_refl). vm_compute in H. discriminate.
Qed.

(** ** Export *)

(** C9. With no samples the export puts the one warning "No data logged to
    export." and calls no writer.  With samples and the format "all", the
    three writers are called in the order csv, xlsx, json whatever each of
    them answers, and every one is followed by its own report: success or
    error. *)
Theorem export_empty_and_all_formats (h : Host) (base : message) (cfg : Config)
    (notes : string) :
  (DataExporter.export_data h base [] cfg notes
   = [EvStatus STATUS_WARNING [S_ "No data logged to export."]]
   /\ DataExporter.attempted (DataExporter.export_data h base [] cfg notes) = []
   /\ count (has_level STATUS_ERROR) (DataExporter.export_data h base [] cfg notes) = 0%nat)
  /\ (forall data : list Row,
        data <> [] -> export_format cfg = "all" ->
        let tr := DataExporter.export_data h base data cfg notes in
        DataExporter.attempted tr = ["csv"; "xlsx"; "json"]
        /\ DataExporter.reports tr
           = [("csv", fst (DataExporter.save_to_csv (writer h "csv") (base ++ [S_ "."; S_ "csv"])));
              ("xlsx", fst (DataExporter.save_to_excel (writer h "xlsx") (base ++ [S_ "."; S_ "xlsx"])));
              ("json", fst (DataExporter.save_to_json (writer h "json") (base ++ [S_ "."; S_ "json"])))]).
Proof.
  split; [repeat split|].
  intros data Hne Hall tr. subst tr.
  unfold DataExporter.export_data. destruct data as [|d data]; [congruence|].
  rewrite Hall. simpl. unfold DataExporter.export_one. simpl.
  destruct (DataExporter.save_to_csv _ _) as [[|] m1];
    destruct (DataExporter.save_to_excel _ _) as [[|] m2];
    destruct (DataExporter.save_to_json _ _) as [[|] m3]; split; reflexivity.
Qed.

Lemma export_all_formats_witness :
  let tr := DataExporter.export_data Sample.host [S_ "/data/run"] [Sample.stale]
              Sample.cfg "notes" in
  DataExporter.attempted tr = ["csv"; "xlsx"; "json"]
  /\ DataExporter.reports tr = [("csv", true); ("xlsx", false); ("json", true)].
Proof.
  apply (proj2 (export_empty_and_all_formats Sample.host [S_ "/data/run"] Sample.cfg "notes")
           [Sample.stale]); [discriminate | reflexivity].
Defined.

(** ** A whole run *)

Section Run.

Import DataLogger.

Lemma carries_nil : carries [] [].
Proof. repeat split. Qed.

Lemma carries_app (r1 r2 : list Row) (e1 e2 : list event) :
  carries r1 e1 -> carries r2 e2 -> carries (r1 ++ r2) (e1 ++ e2).
Proof.
  unfold carries, published, accumulated, exported.
  intros (P1 & A1 & X1 & D1) (P2 & A2 & X2 & D2).
  rewrite !omap_app, count_app, P1, P2, A1, A2, X1, X2, D1, D2.
  repeat split.
Qed.

Lemma carries_quiet (es : list event) : forallb quiet es = true -> carries [] es.
Proof.
  induction es as [|e es IH]; [intros _; apply carries_nil|].
  simpl. intros H. apply andb_true_iff in H as [He Hes].
  apply (carries_app [] [] [e] es); [|auto].
  destruct e; try discriminate; repeat split.
Qed.

Lemma quiet_queries (qs : list event) : forallb is_query qs = true -> forallb quiet qs = true.
Proof.
  induction qs as [|e qs IH]; [reflexivity|]. simpl.
  intros H. apply andb_true_iff in H as [He Hqs].
  rewrite (IH Hqs). now destruct e.
Qed.

Lemma advanced_refl (s : t) : advanced [] s s.
Proof.
  unfold advanced. rewrite !app_nil_r. repeat split.
  exists []. rewrite app_nil_r. split; [reflexivity | apply carries_nil].
Qed.

Lemma advanced_trans (r1 r2 : list Row) (s1 s2 s3 : t) :
  advanced r1 s1 s2 -> advanced r2 s2 s3 -> advanced (r1 ++ r2) s1 s3.
Proof.
  intros (C1 & D1 & R1 & S1 & L1 & Q1 & e1 & T1 & K1)
         (C2 & D2 & R2 & S2 & L2 & Q2 & e2 & T2 & K2).
  unfold advanced.
  rewrite C2, C1, D2, D1, R2, R1, S2, S1, L2, L1, Q2, Q1, T2, T1, !app_assoc.
  repeat split. exists (e1 ++ e2). rewrite !app_assoc.
  split; [reflexivity | now apply carries_app].
Qed.

Lemma kept_advanced (s s' : t) : kept quiet s s' -> advanced [] s s'.
Proof.
  intros (C & D & R & S & L & Q & es & T & HQ).
  unfold advanced. rewrite C, D, R, S, L, Q, !app_nil_r. repeat split.
  exists es. split; [exact T | now apply carries_quiet].
Qed.

Lemma kept_refl Q (s : t) : kept Q s s.
Proof. repeat split. apply grows_refl. Qed.

Lemma kept_trans Q (s1 s2 s3 : t) : kept Q s1 s2 -> kept Q s2 s3 -> kept Q s1 s3.
Proof.
  intros (C1 & D1 & R1 & S1 & L1 & Q1 & G1) (C2 & D2 & R2 & S2 & L2 & Q2 & G2).
  unfold kept. rewrite C2, C1, D2, D1, R2, R1, S2, S1, L2, L1, Q2, Q1.
  repeat split. eapply grows_trans; eassumption.
Qed.

Ltac kept_step Q :=
  respects_step (kept_refl Q) (kept_trans Q);
  try (repeat split; first [apply grows_refl | apply grows_one; reflexivity]).

Lemma quiet_silent (es : list event) : forallb silent es = true -> forallb quiet es = true.
Proof.
  induction es as [|e es IH]; [reflexivity|]. simpl.
  intros H. apply andb_true_iff in H as [He Hes]. rewrite (IH Hes).
  unfold silent in He. apply andb_true_iff in He as [-> _]. reflexivity.
Qed.

Lemma silent_export_data (h : Host) (base : message) (data : list Row)
    (cfg : Config) (notes : string) :
  forallb silent (DataExporter.export_data h base data cfg notes) = true.
Proof.
  unfold DataExporter.export_data. destruct data as [|d data]; [reflexivity|].
  assert (H1 : forall fmt, forallb silent
                 (DataExporter.export_one h base (d :: data) cfg notes fmt) = true).
  { intros fmt. unfold DataExporter.export_one.
    destruct (DataExporter.lookup fmt DataExporter.save_map) as [save|]; [|reflexivity].
    now destruct (save (writer h fmt) _). }
  generalize (if String.eqb (export_format cfg) "all" then DataExporter.keys
              else [export_format cfg]).
  intros fmts. induction fmts as [|f fmts IH]; [reflexivity|].
  rewrite fmap_cons. cbn [concat]. rewrite forallb_app, H1. exact IH.
Qed.

(** The sample of a completed read. *)
Lemma sampled_advanced (row : Row) (sim : bool) (i : Tick) (tail : list event)
    (b : bool) (s : t) :
  forallb quiet tail = true ->
  advanced [row] s (sampled row (read_events sim ++ [EvLogged row; EvPut row] ++ tail) b s).
Proof.
  intros Ht. unfold advanced, sampled. simpl. repeat split.
  eexists. split; [reflexivity|].
  apply (carries_app [] [row] (read_events sim)); [now destruct sim|].
  apply (carries_app [row] [] [EvLogged row; EvPut row] tail); [repeat split|].
  now apply carries_quiet.
Qed.

Lemma quiet_halt_events (sim : bool) (i : Tick) (msg : message) :
  forallb quiet (EvStatus STATUS_WARNING msg :: halt_events sim i) = true.
Proof. unfold halt_events. destruct sim, (bool_decide _); reflexivity. Qed.

Lemma quiet_pace_events (d : float) (i : Tick) : forallb quiet (pace_events d i) = true.
Proof. unfold pace_events. now destruct (_ >. _). Qed.

(** The loop records the samples the run produces, in order, and nothing
    else; it is left unless the iterations given are used up. *)
Lemma while_loop_spec (ticks : list Tick) (s : t) :
  stop_event s = false -> ready s ->
  exists left s',
    while_loop ticks s = (Ok left, s')
    /\ advanced (produced (config s) (is_simulating s) (start_time s) ticks) s s'
    /\ start_time s' = start_time s.
Proof.
  revert s. induction ticks as [|i ticks IH]; intros s Hev Hr; simpl.
  - rewrite bind_get, Hev. exists false, s. split; [reflexivity|].
    split; [apply advanced_refl | reflexivity].
  - rewrite bind_get, Hev.
    destruct (measurement (config s) (is_simulating s)
                (now i - start_time s)%float i) as [[v c]|] eqn:Hm.
    + destruct (iteration_measured i s v c Hm Hr) as (msg & Hit & _).
      erewrite bind_eq by exact Hit.
      destruct (stops (config s) (now i - start_time s)%float v c) eqn:Hs.
      * eexists true, _. split; [reflexivity|]. split; [|reflexivity].
        apply sampled_advanced; [exact i | apply quiet_halt_events].
      * match goal with |- context [while_loop ticks ?s1] => set (s1' := s1) end.
        destruct (IH s1') as (left & s' & Hw & Ha & Ht).
        { subst s1'. simpl. now rewrite Hev. }
        { subst s1'. destruct s. exact Hr. }
        exists left, s'. split; [exact Hw|]. split; [|exact Ht].
        assert (Hcfg : produced (config s1') (is_simulating s1') (start_time s1') ticks
                       = produced (config s) (is_simulating s) (start_time s) ticks)
          by (subst s1'; destruct s; reflexivity).
        rewrite Hcfg in Ha.
        change (?r :: ?rs) with ([r] ++ rs).
        eapply advanced_trans; [|exact Ha].
        subst s1'. apply sampled_advanced; [exact i | apply quiet_pace_events].
    + destruct (iteration_failed i s Hm Hr) as (qs & msg & tb & Hit & Hqs & Htb).
      erewrite bind_eq by exact Hit.
      eexists true, _. split; [reflexivity|]. split; [|now destruct s].
      apply kept_advanced. destruct s. unfold kept, aborted, logged. simpl.
      repeat split. eexists. split; [reflexivity|].
      rewrite forallb_app, (quiet_queries qs Hqs). simpl.
      destruct Htb as [-> | ->]; reflexivity.
Qed.

Lemma bind_inv {A B} (m : M t A) (k : A -> M t B) (s s' : t) (b : B) :
  bind m k s = (Ok b, s') -> exists a s1, m s = (Ok a, s1) /\ k a s1 = (Ok b, s').
Proof.
  unfold bind. destruct (m s) as [[a|x] s1]; [eauto | discriminate].
Qed.

Lemma only_logs_refl Q (s : t) : only_logs Q s s.
Proof. exists []. now rewrite logged_nil. Qed.

Lemma only_logs_trans Q (s1 s2 s3 : t) :
  only_logs Q s1 s2 -> only_logs Q s2 s3 -> only_logs Q s1 s3.
Proof.
  intros (e1 & -> & H1) (e2 & -> & H2). exists (e1 ++ e2).
  now rewrite logged_logged, forallb_app, H1, H2.
Qed.

Lemma setup_only_logs : respects (only_logs quiet) _setup_instrument.
Proof.
  unfold _setup_instrument, dp_write, _send_status, emit.
  repeat (respects_step (only_logs_refl quiet) (only_logs_trans quiet);
          try (eexists [_]; split; reflexivity)).
Qed.

(** A successful [start] leaves an empty accumulator and a live worker. *)
Lemma start_success (h : Host) (clock : float) (s s1 : t) :
  start h clock s = (Ok true, s1) ->
  ready s1 /\ stop_event s1 = false /\ logging_thread s1 = Alive
  /\ _logged_data s1 = []
  /\ config s1 = config s /\ is_simulating s1 = is_simulating s
  /\ data_manager s1 = data_manager s /\ dp s1 = dp s /\ rm s1 = rm s
  /\ grows quiet (trace s) (trace s1).
Proof.
  unfold start. rewrite bind_modify, bind_get.
  destruct s as [cfg dm dp rm ev th sim ld sst t0 pts dl tr]. simpl.
  assert (Hlaunch : forall es s0,
             s0 = logged es (mk cfg dm dp rm false th sim ld sst t0 pts dl tr)
              \/ s0 = logged es (mk cfg dm dp rm false th sim ld (Some clock) t0 pts dl tr) ->
             forallb quiet es = true -> (sim = false -> is_Some dp) ->
             launch s0 = (Ok true, s1) ->
             ready s1 /\ DataLogger.stop_event s1 = false
             /\ DataLogger.logging_thread s1 = Alive /\ DataLogger._logged_data s1 = []
             /\ DataLogger.config s1 = cfg /\ DataLogger.is_simulating s1 = sim
             /\ DataLogger.data_manager s1 = dm /\ DataLogger.dp s1 = dp
             /\ DataLogger.rm s1 = rm /\ grows quiet tr (DataLogger.trace s1)).
  { intros es s0 Hs0 Hq Hdp Hl. unfold launch, bind, ret, modify in Hl.
    injection Hl as <-. destruct Hs0 as [-> | ->]; simpl;
      (repeat split; [exact Hdp | exists es; split; [reflexivity | exact Hq]]). }
  assert (Hreal : sim = false -> dp <> None ->
            (ok <- _setup_instrument ;;
             if ok then launch else (stop h "" ;; ret false))%py
              (mk cfg dm dp rm false th sim ld sst t0 pts dl tr) = (Ok true, s1) ->
            ready s1 /\ DataLogger.stop_event s1 = false
             /\ DataLogger.logging_thread s1 = Alive /\ DataLogger._logged_data s1 = []
             /\ DataLogger.config s1 = cfg /\ DataLogger.is_simulating s1 = sim
             /\ DataLogger.data_manager s1 = dm /\ DataLogger.dp s1 = dp
             /\ DataLogger.rm s1 = rm /\ grows quiet tr (DataLogger.trace s1)).
  { intros Hsim Hdp H. apply bind_inv in H as (ok & sa & Hsetup & H).
    destruct (setup_only_logs (mk cfg dm dp rm false th sim ld sst t0 pts dl tr))
      as (es & Hsa & Hq).
    rewrite Hsetup in Hsa. simpl in Hsa.
    destruct ok.
    - apply (Hlaunch es sa); auto. intros _. now destruct dp; [eexists|].
    - apply bind_inv in H as (? & ? & _ & H). discriminate. }
  destruct th; simpl; try discriminate;
    (destruct sim; simpl;
     [ unfold _send_status; rewrite bind_modify, bind_emit;
       apply (Hlaunch [EvStatus STATUS_INFO [S_ "Simulation started."]]);
       [right; reflexivity | reflexivity | discriminate]
     | destruct dp as [ins|];
       [ apply Hreal; [reflexivity | discriminate]
       | unfold _send_status; rewrite bind_emit; discriminate ] ]).
Qed.

Lemma log_data_loop_spec (clock : float) (ticks : list Tick) (s : t) :
  stop_event s = false -> ready s ->
  exists s',
    _log_data_loop clock ticks s = (Ok tt, s')
    /\ advanced (produced (config s) (is_simulating s) clock ticks) s s'
    /\ ready s'.
Proof.
  intros Hev Hr. unfold _log_data_loop, guarded.
  pose proof (loop_setup_spec clock s) as Hsetup. cbv zeta in Hsetup.
  set (s2 := logged _ _) in Hsetup.
  destruct (while_loop_spec ticks s2) as (left & s3 & Hw & Ha & _).
  { subst s2. destruct s. exact Hev. }
  { subst s2. destruct s. exact Hr. }
  assert (Hin : bind (loop_setup clock) (fun _ => while_loop ticks) s = (Ok left, s3)).
  { erewrite bind_eq by exact Hsetup. exact Hw. }
  erewrite bind_eq by (apply try_eq; exact Hin).
  assert (H2 : advanced [] s s2).
  { apply kept_advanced. subst s2. destruct s. unfold kept. simpl.
    repeat split. apply grows_one. reflexivity. }
  assert (Hp : produced (config s2) (is_simulating s2) (start_time s2) ticks
               = produced (config s) (is_simulating s) clock ticks)
    by (subst s2; destruct s; reflexivity).
  rewrite Hp in Ha.
  pose proof (advanced_trans _ _ _ _ _ H2 Ha) as H3. simpl in H3.
  assert (Hr3 : ready s3).
  { destruct H3 as (_ & D & _ & S & _). unfold ready. now rewrite D, S. }
  destruct left.
  - unfold finally_, _send_status. rewrite bind_emit.
    eexists. split; [reflexivity|]. split.
    + rewrite <- (app_nil_r (produced _ _ _ _)).
      eapply advanced_trans; [exact H3|].
      apply kept_advanced. destruct s3. unfold kept. simpl.
      repeat split. apply grows_one. reflexivity.
    + destruct s3. exact Hr3.
  - exists s3. split; [reflexivity|]. split; assumption.
Qed.

Lemma stop_request_kept (s0 : t) :
  respects (kept silent)
    (when negb (stop_event s0)
     then (_send_status STATUS_INFO [S_ "Stop requested..."] ;;
           modify (set_stop_event true)))%py.
Proof. unfold _send_status, emit. repeat kept_step silent. Qed.

Lemma join_kept : respects (kept silent) join.
Proof.
  unfold join, resume, guarded, finally_, _send_status, emit. simpl.
  repeat kept_step silent.
Qed.

Lemma generate_base_filename_kept (h : Host) :
  respects (kept silent) (_generate_base_filename h).
Proof.
  unfold _generate_base_filename, _send_status, emit. repeat kept_step silent.
Qed.

(** What [stop] does, whenever it returns: the samples are handed to the
    export, then a real instrument is switched off and closed. *)
Lemma stop_spec (h : Host) (notes : string) (s s' : t) :
  ready s ->
  stop h notes s = (Ok tt, s') ->
  exists pre base post,
    trace s'
    = trace s ++ pre
      ++ [EvExport base (_logged_data s) (config s) notes]
      ++ DataExporter.export_data h base (_logged_data s) (config s) notes
      ++ (if is_simulating s then [] else [EvWrite OUTP_OFF; EvClose])
      ++ post
    /\ forallb silent pre = true /\ forallb silent post = true
    /\ _logged_data s' = _logged_data s
    /\ data_manager s' = data_manager s
    /\ logging_thread s' = NoThread
    /\ (is_simulating s = false -> dp s' = None).
Proof.
  intros Hr H. unfold stop in H. rewrite bind_get in H.
  apply bind_inv in H as ([] & sa & HA & H).
  apply bind_inv in H as ([] & sb & HJ & H).
  apply bind_inv in H as (base & sc & HG & H).
  assert (K : kept silent s sc).
  { pose proof (stop_request_kept s s) as K1. rewrite HA in K1.
    pose proof (join_kept sa) as K2. rewrite HJ in K2.
    pose proof (generate_base_filename_kept h sb) as K3. rewrite HG in K3.
    exact (kept_trans _ _ _ _ (kept_trans _ _ _ _ K1 K2) K3). }
  destruct K as (C & D & R & S & L & Q & pre & T & Hpre).
  rewrite bind_get in H. unfold ready in Hr.
  destruct sc as [cfg dm dp rm ev th sim ld sst t0 pts dl tr]. simpl in *.
  rewrite <- C, <- D, <- S, <- L, <- Q in *. clear C D S L Q.
  exists pre, base.
  unfold _close_connection, ignoring, dp_write, _send_status, emits, emit,
    bind, ret, raise, try_, get, modify in H. simpl in H.
  destruct sim; simpl in H.
  - injection H as <-. simpl. eexists. rewrite T, <- !app_assoc. simpl.
    split; [reflexivity|]. repeat split; try assumption; discriminate.
  - destruct (Hr eq_refl) as [ins ->]. simpl in H.
    destruct (write_error ins OUTP_OFF), (close_error ins), rm; simpl in H;
      injection H as <-; simpl; eexists; rewrite T, <- !app_assoc; simpl;
      (split; [reflexivity|]); repeat split; assumption.
Qed.

(** A whole run, from a successful [start] to the return of [stop]. *)
Lemma run_spec (h : Host) (c0 c1 : float) (ticks : list Tick) (notes : string)
    (s s' : t) :
  run h c0 c1 ticks notes s = (Ok true, s') ->
  let rows := produced (config s) (is_simulating s) c1 ticks in
  exists before base post,
    trace s'
    = trace s ++ before
      ++ [EvExport base rows (config s) notes]
      ++ DataExporter.export_data h base rows (config s) notes
      ++ (if is_simulating s then [] else [EvWrite OUTP_OFF; EvClose])
      ++ post
    /\ carries rows before /\ forallb silent post = true
    /\ _logged_data s' = rows
    /\ DataManager.data_queue (data_manager s')
       = DataManager.data_queue (data_manager s) ++ rows
    /\ logging_thread s' = NoThread
    /\ (is_simulating s = false -> dp s' = None).
Proof.
  intros H rows. unfold run in H.
  apply bind_inv in H as (started & s1 & Hstart & H).
  destruct started; [|discriminate].
  apply bind_inv in H as ([] & s4 & Hloop & H).
  apply bind_inv in H as ([] & s5 & Hstop & H).
  injection H as <-.
  destruct (start_success h c0 s s1 Hstart)
    as (Hr1 & Hev1 & _ & Hl1 & C1 & S1 & Q1 & D1 & R1 & e1 & T1 & He1).
  destruct (log_data_loop_spec c1 ticks s1 Hev1 Hr1) as (s4' & Hloop' & Ha & Hr4).
  rewrite Hloop in Hloop'. injection Hloop' as <-.
  rewrite C1, S1 in Ha. fold rows in Ha.
  destruct Ha as (C4 & D4 & R4 & S4 & L4 & Q4 & e4 & T4 & K4).
  destruct (stop_spec h notes s4 s5 Hr4 Hstop)
    as (pre & base & post & T5 & Hpre & Hpost & L5 & Q5 & Th5 & D5).
  rewrite Hl1 in L4. simpl in L4.
  exists (e1 ++ e4 ++ pre), base, post.
  rewrite T5, T4, T1, L4, C4, C1, S4, S1, L5, Q5, Q4, Q1, <- !app_assoc.
  split; [reflexivity|]. split; [|repeat split; try assumption].
  - apply (carries_app [] rows e1); [now apply carries_quiet|].
    rewrite <- (app_nil_r rows).
    apply carries_app; [exact K4 | now apply carries_quiet, quiet_silent].
  - intros Hs. apply D5. now rewrite S4, S1.
Qed.

End Run.

Lemma silent_counts (es : list event) :
  forallb silent es = true ->
  count is_export es = 0%nat /\ count is_disconnect es = 0%nat
  /\ count is_force_off es = 0%nat.
Proof.
  intros H. repeat split; apply (count_excluded _ silent es); try exact H;
    intros [] Hx; try reflexivity; try discriminate.
  unfold silent in Hx. simpl in *. now destruct (is_off_command cmd).
Qed.

Lemma exported_none (es : list event) : exported es = [] -> count is_export es = 0%nat.
Proof.
  unfold exported. induction es as [|e es IH]; [reflexivity|].
  destruct e; simpl; try exact IH. discriminate.
Qed.

Lemma produced_reaching (cfg : Config) (sim : bool) (t0 : float)
    (pre post : list Tick) (i : Tick) (v c : float) :
  Forall (goes_on cfg sim t0) pre ->
  measurement cfg sim (now i - t0)%float i = Some (v, c) ->
  stops cfg (now i - t0)%float v c = true ->
  produced cfg sim t0 (pre ++ i :: post)
  = produced cfg sim t0 pre ++ [make_row (now i - t0)%float v c].
Proof.
  intros Hpre Hm Hs. induction Hpre as [|j pre (vj & cj & Hmj & Hsj) _ IH]; simpl.
  - now rewrite Hm, Hs.
  - now rewrite Hmj, Hsj, IH.
Qed.

(** ** The claims about a whole run *)

(** C1, amended. In every run on a real instrument whose [stop] returns, the
    stop sequence hands the accumulated samples, the configuration and the
    notes to the export first, then writes the output-disable, then closes
    the instrument: the export and the disconnect happen exactly once in the
    run, no output-disable follows the disconnect, and [stop] keeps the
    accumulated list (the next [start] empties it). *)
Theorem stop_sequence_of_a_run (h : Host) (c0 c1 : float) (ticks : list Tick)
    (notes : string) (s s' : DataLogger.t) :
  DataLogger.run h c0 c1 ticks notes s = (Ok true, s') ->
  DataLogger.is_simulating s = false ->
  exists before base mid post,
    since (DataLogger.trace s) (DataLogger.trace s')
    = before
      ++ [EvExport base (DataLogger._logged_data s') (DataLogger.config s) notes]
      ++ mid ++ [EvWrite OUTP_OFF; EvClose] ++ post
    /\ count is_export (before ++ mid ++ post) = 0%nat
    /\ count is_disconnect (before ++ mid ++ post) = 0%nat
    /\ count is_force_off (mid ++ post) = 0%nat
    /\ DataLogger._logged_data s'
       = produced (DataLogger.config s) false c1 ticks
    /\ DataLogger.logging_thread s' = NoThread
    /\ DataLogger.dp s' = None.
Proof.
  intros Hrun Hsim.
  destruct (run_spec h c0 c1 ticks notes s s' Hrun)
    as (before & base & post & T & (_ & _ & X & D) & Hpost & L & _ & Th & Hdp).
  rewrite Hsim in *.
  set (rows := produced (DataLogger.config s) false c1 ticks) in *.
  exists before, base, (DataExporter.export_data h base rows (DataLogger.config s) notes),
    post.
  destruct (silent_counts _ Hpost) as (X1 & D1 & F1).
  destruct (silent_counts _ (silent_export_data h base rows (DataLogger.config s) notes))
    as (X2 & D2 & F2).
  rewrite T, since_app, L, !count_app, X1, D1, F1, X2, D2, F2, D, (exported_none _ X).
  repeat split; auto.
Qed.

Lemma stop_sequence_witness :
  exists before base mid post,
    since (DataLogger.trace (Sample.connected Sample.cfg))
      (DataLogger.trace (snd Sample.auto_stopped))
    = before
      ++ [EvExport base (DataLogger._logged_data (snd Sample.auto_stopped))
            Sample.cfg "notes"]
      ++ mid ++ [EvWrite OUTP_OFF; EvClose] ++ post.
Proof.
  assert (Hrun : DataLogger.run Sample.host 100 100 Sample.ticks3 "notes"
                   (Sample.connected Sample.cfg)
                 = (Ok true, snd Sample.auto_stopped))
    by (vm_compute; reflexivity).
  destruct (stop_sequence_of_a_run Sample.host 100 100 Sample.ticks3 "notes"
              (Sample.connected Sample.cfg) (snd Sample.auto_stopped) Hrun eq_refl)
    as (before & base & mid & post & H & _).
  exists before, base, mid, post. exact H.
Defined.

(** C1 as stated fails: in a run on a real instrument that is stopped from
    outside, the export comes before the only output-disable and before the
    disconnect, and the accumulated sample is still there after [stop]. *)
Lemma export_precedes_force_off_and_disconnect :
  let s := Sample.connected Sample.cfg in
  let r := DataLogger.run Sample.host 100 100 [Sample.reading 100.2 4 0.5] "notes" s in
  let tr := since (DataLogger.trace s) (DataLogger.trace (snd r)) in
  fst r = Ok true
  /\ specified_stop_order tr = false
  /\ follows is_disconnect is_export tr = false
  /\ follows is_export is_force_off tr = true
  /\ follows is_export is_disconnect tr = true
  /\ length (DataLogger._logged_data (snd r)) = 1%nat.
Proof. vm_compute. repeat split; reflexivity. Qed.



(** C10. In an iteration whose read completes, the only events before the new
    sample are the two queries of a real instrument; the sample is appended
    to the accumulator and put on the display queue next, and every message,
    the output-disable and the stop signal come after it.  So when an
    iteration ends the run by the zero-output or the threshold rule, its own
    sample is the last one of the list handed to the export and the last one
    put on the display queue. *)
Theorem sample_is_recorded_before_the_stop_checks :
  (forall (i : Tick) (s : DataLogger.t) (v c : float),
      let et := (now i - DataLogger.start_time s)%float in
      let row := make_row et v c in
      let s' := snd (DataLogger.iteration i s) in
      measurement (DataLogger.config s) (DataLogger.is_simulating s) et i = Some (v, c) ->
      ready s ->
      exists tail,
        since (DataLogger.trace s) (DataLogger.trace s')
        = read_events (DataLogger.is_simulating s) ++ [EvLogged row; EvPut row] ++ tail
        /\ forallb is_query (read_events (DataLogger.is_simulating s)) = true
        /\ forallb (fun e => negb (is_sample e || is_query e)) tail = true
        /\ DataLogger._logged_data s' = DataLogger._logged_data s ++ [row]
        /\ DataManager.data_queue (DataLogger.data_manager s')
           = DataManager.data_queue (DataLogger.data_manager s) ++ [row]
        /\ (stops (DataLogger.config s) et v c = true ->
            fst (DataLogger.iteration i s) = Ok Break
            /\ existsb (has_level STATUS_WARNING) tail = true
            /\ existsb (has_level "STOP_SIGNAL") tail = true))
  /\ (forall (h : Host) (c0 c1 : float) (pre post : list Tick) (i : Tick)
        (notes : string) (s s' : DataLogger.t) (v c : float),
      let cfg := DataLogger.config s in
      let sim := DataLogger.is_simulating s in
      let et := (now i - c1)%float in
      Forall (goes_on cfg sim c1) pre ->
      measurement cfg sim et i = Some (v, c) ->
      stops cfg et v c = true ->
      DataLogger.run h c0 c1 (pre ++ i :: post) notes s = (Ok true, s') ->
      exists data,
        exported (since (DataLogger.trace s) (DataLogger.trace s')) = [data]
        /\ last data = Some (make_row et v c)
        /\ last (published (since (DataLogger.trace s) (DataLogger.trace s')))
           = Some (make_row et v c)).
Proof.
  split.
  - intros i s v c et row s' Hm Hr.
    destruct (iteration_measured i s v c Hm Hr) as (msg & Hit & _).
    fold et row in Hit. subst s'. rewrite Hit.
    eexists. unfold sampled at 1. cbn [snd DataLogger.trace].
    rewrite since_app. split; [reflexivity|].
    split; [now destruct (DataLogger.is_simulating s)|].
    split; [|split; [reflexivity | split; [reflexivity|]]].
    + destruct (stops _ _ _ _).
      * unfold halt_events.
        destruct (DataLogger.is_simulating s), (bool_decide _); reflexivity.
      * unfold pace_events. now destruct (_ >. _).
    + intros ->. split; [reflexivity|]. split; [reflexivity|].
      unfold halt_events. simpl.
      destruct (DataLogger.is_simulating s), (bool_decide _); reflexivity.
  - intros h c0 c1 pre post i notes s s' v c cfg sim et Hpre Hm Hs Hrun.
    destruct (run_spec h c0 c1 (pre ++ i :: post) notes s s' Hrun)
      as (before & base & after & T & K & Hafter & _).
    fold cfg sim in T, K.
    rewrite (produced_reaching cfg sim c1 pre post i v c Hpre Hm Hs) in T, K.
    fold et in T, K.
    set (rows := produced cfg sim c1 pre ++ [make_row et v c]) in *.
    exists rows. rewrite T, since_app.
    pose proof (carries_quiet _ (quiet_silent _ Hafter)) as (P2 & _ & X2 & _).
    pose proof (carries_quiet _ (quiet_silent _
                  (silent_export_data h base rows cfg notes))) as (P1 & _ & X1 & _).
    destruct K as (P0 & _ & X0 & _).
    unfold exported, published in *.
    rewrite !omap_app, P0, X0, P1, X1, P2, X2.
    assert (Hoff : forall b : bool,
               omap (fun e => match e with EvExport _ d _ _ => Some d | _ => None end)
                    (if b then [] else [EvWrite OUTP_OFF; EvClose]) = []
               /\ omap (fun e => match e with EvPut r => Some r | _ => None end)
                       (if b then [] else [EvWrite OUTP_OFF; EvClose]) = [])
      by (intros []; split; reflexivity).
    destruct (Hoff sim) as [-> ->]. simpl. rewrite !app_nil_r.
    subst rows. rewrite last_snoc. repeat split; reflexivity.
Qed.

Lemma sample_is_recorded_witness :
  exists data,
    exported
      (since (DataLogger.trace (Sample.connected Sample.cfg))
         (DataLogger.trace (snd Sample.auto_stopped))) = [data]
    /\ last data = Some (make_row (101.5 - 100) 4 0.05).
Proof.
  assert (Hrun : DataLogger.run Sample.host 100 100
                   ([Sample.reading 100.2 4 0.5] ++ Sample.reading 101.5 4 0.05
                    :: [Sample.reading 101.7 4 0.04]) "notes"
                   (Sample.connected Sample.cfg)
                 = (Ok true, snd Sample.auto_stopped))
    by (vm_compute; reflexivity).
  assert (Hpre : Forall (goes_on Sample.cfg false 100) [Sample.reading 100.2 4 0.5]).
  { repeat constructor. exists 4%float, 0.5%float. split; vm_compute; reflexivity. }
  assert (Hm : measurement Sample.cfg false (101.5 - 100)%float
                 (Sample.reading 101.5 4 0.05) = Some (4%float, 0.05%float))
    by reflexivity.
  assert (Hs : stops Sample.cfg (101.5 - 100)%float 4 0.05 = true)
    by (vm_compute; reflexivity).
  destruct (proj2 sample_is_recorded_before_the_stop_checks Sample.host
              100%float 100%float
              [Sample.reading 100.2 4 0.5] [Sample.reading 101.7 4 0.04]
              (Sample.reading 101.5 4 0.05) "notes" (Sample.connected Sample.cfg)
              (snd Sample.auto_stopped) 4%float 0.05%float Hpre Hm Hs Hrun)
    as (data & Hx & Hl & _).
  exists data. split; [exact Hx | exact Hl].
Defined.

(** * Further properties of the program *)

(** ** Configuration and presets *)

(** X1. After [load_config] every key has the value the file gives it and,
    where the file has none, the default; so every default key is present,
    keys the defaults do not know are kept, and a missing or undecodable file
    yields exactly the defaults, whatever the configuration held before. *)
Theorem load_config_merges_file_over_defaults (file : option (gmap string value))
    (cm : ConfigManager.t) :
  let defaults := ConfigManager._get_defaults (ConfigManager.base_path cm) in
  let loaded := ConfigManager._load_json_file file in
  let cfg := ConfigManager.config (ConfigManager.load_config file cm) in
  (forall k : string,
      cfg !! k = match loaded !! k with Some v => Some v | None => defaults !! k end)
  /\ dom defaults ⊆ dom cfg
  /\ dom loaded ⊆ dom cfg
  /\ (file = None -> cfg = defaults)
  /\ ConfigManager.presets (ConfigManager.load_config file cm) = ConfigManager.presets cm.
Proof.
  intros defaults loaded cfg. subst cfg defaults loaded.
  unfold ConfigManager.load_config. cbn [ConfigManager.config ConfigManager.presets].
  set (defaults := ConfigManager._get_defaults _).
  set (loaded := ConfigManager._load_json_file file).
  split; [|split; [|split; [|split]]].
  - intros k. rewrite lookup_union. destruct (loaded !! k), (defaults !! k); reflexivity.
  - rewrite dom_union. apply union_subseteq_r.
  - rewrite dom_union. apply union_subseteq_l.
  - intros ->. subst loaded. unfold ConfigManager._load_json_file.
    apply (left_id_L ∅ (∪)).
  - reflexivity.
Qed.

Lemma relevant_lookup (preset_data : gmap string value) (keys : list string) (k : string) :
  (list_to_map ((fun k => (k, ConfigManager.dict_get preset_data k)) <$> keys)
     : gmap string value) !! k
  = if decide (k ∈ keys) then Some (ConfigManager.dict_get preset_data k) else None.
Proof.
  induction keys as [|k' keys IH].
  - rewrite fmap_nil, list_to_map_nil, lookup_empty.
    rewrite decide_False; [reflexivity | apply not_elem_of_nil].
  - rewrite fmap_cons, list_to_map_cons.
    destruct (decide (k' = k)) as [->|Hne].
    + rewrite lookup_insert_eq, decide_True; [reflexivity | left].
    + rewrite lookup_insert_ne by exact Hne. rewrite IH.
      destruct (decide (k ∈ keys)) as [Hin|Hnin].
      * rewrite decide_True; [reflexivity | now right].
      * rewrite decide_False; [reflexivity|].
        intros [->|?]%elem_of_cons; [now apply Hne | now apply Hnin].
Qed.

(** X2. A preset saved under a non-empty name is what [get_preset] returns
    for that name: exactly the eleven preset keys, each with the value given
    or [None] where none was given, and nothing else of the data; all other
    presets and the configuration are untouched.  An empty name is refused
    and changes nothing. *)
Theorem add_preset_then_get_preset (name : string) (preset_data : gmap string value)
    (cm : ConfigManager.t) :
  (name <> "" ->
   let cm' := snd (ConfigManager.add_preset name preset_data cm) in
   fst (ConfigManager.add_preset name preset_data cm) = true
   /\ (exists saved,
         ConfigManager.get_preset name cm' = Some saved
         /\ forall k : string,
              saved !! k
              = if decide (k ∈ ConfigManager.keys_to_save)
                then Some (ConfigManager.dict_get preset_data k) else None)
   /\ (forall other : string,
         other <> name ->
         ConfigManager.get_preset other cm' = ConfigManager.get_preset other cm)
   /\ ConfigManager.config cm' = ConfigManager.config cm)
  /\ ConfigManager.add_preset "" preset_data cm = (false, cm).
Proof.
  split; [|reflexivity].
  intros Hname cm'. subst cm'. unfold ConfigManager.add_preset.
  destruct (String.eqb_spec name "") as [->|_]; [congruence|]. simpl.
  split; [reflexivity|]. split; [|split; [|reflexivity]].
  - exists (ConfigManager.relevant preset_data).
    unfold ConfigManager.get_preset. simpl. rewrite lookup_insert_eq.
    split; [reflexivity|]. intros k. apply relevant_lookup.
  - intros other Hother. unfold ConfigManager.get_preset. simpl.
    now rewrite lookup_insert_ne.
Qed.

Lemma add_preset_witness :
  exists saved,
    ConfigManager.get_preset "cell A"
      (snd (ConfigManager.add_preset "cell A"
              (<[CONFIG_VOLTAGE := VFloat 4.0]> (<["colour" := VStr "red"]> ∅))
              (ConfigManager.init "/app" None None)))
    = Some saved
    /\ saved !! CONFIG_VOLTAGE = Some (VFloat 4.0)
    /\ saved !! CONFIG_CURRENT = Some VNone
    /\ saved !! "colour" = None.
Proof.
  destruct (proj1 (add_preset_then_get_preset "cell A"
                     (<[CONFIG_VOLTAGE := VFloat 4.0]> (<["colour" := VStr "red"]> ∅))
                     (ConfigManager.init "/app" None None)))
    as (_ & (saved & Hget & Hk) & _); [discriminate|].
  exists saved. split; [exact Hget|].
  rewrite !Hk. repeat split.
Defined.

(** X3. [delete_preset] answers whether the name was a preset; afterwards the
    name is no preset, every other preset is untouched, and when the name
    was none nothing changes.  In particular a preset just added is gone
    after its deletion. *)
Theorem delete_preset_removes_only_that_preset (name : string) (cm : ConfigManager.t) :
  let cm' := snd (ConfigManager.delete_preset name cm) in
  fst (ConfigManager.delete_preset name cm)
  = bool_decide (is_Some (ConfigManager.get_preset name cm))
  /\ ConfigManager.get_preset name cm' = None
  /\ (forall other : string,
        other <> name ->
        ConfigManager.get_preset other cm' = ConfigManager.get_preset other cm)
  /\ (ConfigManager.get_preset name cm = None -> cm' = cm)
  /\ (forall data,
        ConfigManager.get_preset name
          (snd (ConfigManager.delete_preset name
                  (snd (ConfigManager.add_preset name data cm)))) = None).
Proof.
  intros cm'. subst cm'.
  assert (Hdel : forall c, ConfigManager.get_preset name
                             (snd (ConfigManager.delete_preset name c)) = None).
  { intros c. unfold ConfigManager.delete_preset, ConfigManager.get_preset.
    destruct (ConfigManager.presets c !! name) eqn:E; simpl; [|exact E].
    apply lookup_delete_eq. }
  unfold ConfigManager.delete_preset, ConfigManager.get_preset in *.
  split; [|split; [|split; [|split]]].
  - destruct (ConfigManager.presets cm !! name) eqn:E; reflexivity.
  - apply Hdel.
  - intros other Hother.
    destruct (ConfigManager.presets cm !! name); simpl; [|reflexivity].
    now rewrite lookup_delete_ne.
  - intros ->. reflexivity.
  - intros data. apply Hdel.
Qed.

#[local] Instance str_le_total : Total ConfigManager.str_le.
Proof. intros a b. apply String.leb_total. Qed.

(** X4. [get_preset_names] lists the names of exactly the presets there are,
    each once, in ascending order. *)
Theorem get_preset_names_sorted_and_complete (cm : ConfigManager.t) :
  Sorted ConfigManager.str_le (ConfigManager.get_preset_names cm)
  /\ NoDup (ConfigManager.get_preset_names cm)
  /\ forall name : string,
       name ∈ ConfigManager.get_preset_names cm
       <-> is_Some (ConfigManager.get_preset name cm).
Proof.
  unfold ConfigManager.get_preset_names, ConfigManager.get_preset.
  split; [apply Sorted_merge_sort, _|]. split.
  - rewrite merge_sort_Permutation. apply NoDup_fst_map_to_list.
  - intros name. rewrite merge_sort_Permutation, list_elem_of_fmap. split.
    + intros ([k v] & -> & Hin). apply elem_of_map_to_list in Hin. simpl. eauto.
    + intros [v Hv]. exists (name, v). split; [reflexivity|].
      now apply elem_of_map_to_list.
Qed.

(** ** Export formats *)

(** X5. With samples to export, a format other than csv, xlsx, json and all
    makes [export_data] do nothing at all: no writer is called and no message
    is put.  With one of the three formats exactly that writer is called,
    once, on [base.fmt] with the samples, the configuration and the notes,
    between the "Saving to" message and its own success or error report. *)
Theorem export_of_a_single_format (h : Host) (base : message) (data : list Row)
    (cfg : Config) (notes : string) :
  data <> [] ->
  export_format cfg <> "all" ->
  let fmt := export_format cfg in
  let tr := DataExporter.export_data h base data cfg notes in
  (known_format fmt = false -> tr = [])
  /\ (known_format fmt = true ->
      exists (ok : bool) (msg : message),
        tr = [EvStatus STATUS_INFO [S_ "Saving to "; S_ (upper fmt); S_ "..."];
              EvSave fmt (base ++ [S_ "."; S_ fmt]) data cfg notes;
              EvStatus (if ok then STATUS_SUCCESS else STATUS_ERROR) msg]
        /\ (writer h fmt = Written -> ok = true)
        /\ (forall e, writer h fmt = WriteFailed e \/ writer h fmt = WriteIOError e ->
                      ok = false)).
Proof.
  intros Hdata Hall fmt tr. subst tr.
  assert (E : DataExporter.export_data h base data cfg notes
              = DataExporter.export_one h base data cfg notes fmt).
  { unfold DataExporter.export_data. destruct data as [|d data]; [congruence|].
    apply String.eqb_neq in Hall. rewrite Hall. simpl. apply app_nil_r. }
  rewrite E. clear E. unfold known_format, DataExporter.export_one.
  change DataExporter.keys with ["csv"; "xlsx"; "json"].
  cbn [existsb DataExporter.lookup DataExporter.save_map].
  destruct (String.eqb_spec fmt "csv") as [Ec|Ec];
    [|destruct (String.eqb_spec fmt "xlsx") as [Ex|Ex];
      [|destruct (String.eqb_spec fmt "json") as [Ej|Ej]]];
    cbn [orb]; (split; [intros H; try discriminate; reflexivity|]); intros H;
    try discriminate H; clear H.
  - rewrite Ec.
    destruct (DataExporter.save_to_csv (writer h "csv") (base ++ [S_ "."; S_ "csv"]))
      as [ok msg] eqn:Es.
    exists ok, msg. split; [reflexivity|]. unfold DataExporter.save_to_csv in Es.
    split; [intros Hw | intros e [Hw|Hw]]; rewrite Hw in Es; injection Es;
      congruence.
  - rewrite Ex.
    destruct (DataExporter.save_to_excel (writer h "xlsx") (base ++ [S_ "."; S_ "xlsx"]))
      as [ok msg] eqn:Es.
    exists ok, msg. split; [reflexivity|]. unfold DataExporter.save_to_excel in Es.
    split; [intros Hw | intros e [Hw|Hw]]; rewrite Hw in Es; injection Es;
      congruence.
  - rewrite Ej.
    destruct (DataExporter.save_to_json (writer h "json") (base ++ [S_ "."; S_ "json"]))
      as [ok msg] eqn:Es.
    exists ok, msg. split; [reflexivity|]. unfold DataExporter.save_to_json in Es.
    split; [intros Hw | intros e [Hw|Hw]]; rewrite Hw in Es; injection Es;
      congruence.
Qed.

Lemma export_of_a_single_format_witness :
  DataExporter.export_data Sample.host [S_ "/data/run"] [Sample.stale]
    Sample.cfg_fast "notes"
  <> []
  /\ DataExporter.attempted
       (DataExporter.export_data Sample.host [S_ "/data/run"] [Sample.stale]
          Sample.cfg_fast "notes") = ["csv"].
Proof.
  destruct (proj2 (export_of_a_single_format Sample.host [S_ "/data/run"]
                     [Sample.stale] Sample.cfg_fast "notes"
                     ltac:(discriminate) ltac:(discriminate)) eq_refl)
    as (ok & msg & H & _).
  rewrite H. split; [discriminate | reflexivity].
Defined.

(** ** The display queue *)

Lemma fmap_last_n {A B} (f : A -> B) (n : nat) (l : list A) :
  f <$> DataManager.last_n n l = DataManager.last_n n (f <$> l).
Proof. unfold DataManager.last_n. now rewrite fmap_drop, length_fmap. Qed.

Lemma deque_append_window {A} (f : Row -> A) (n : nat) (rows : list Row) (x : Row) :
  DataManager.deque_append n (f <$> DataManager.last_n n rows) (f x)
  = f <$> DataManager.last_n n (rows ++ [x]).
Proof.
  rewrite deque_append_last_n
    by (rewrite length_fmap, length_last_n; lia).
  rewrite !fmap_last_n, last_n_last_n_app, fmap_app. reflexivity.
Qed.

Lemma streaming_step (o : DataManager.op) (dm : DataManager.t) (P : list Row)
    (k : nat) :
  streaming o = true ->
  (k <= length P)%nat ->
  DataManager.data_queue dm = drop k P ->
  DataManager.series dm
  = DataManager.series_of (DataManager.last_n (DataManager.maxlen dm) (take k P)) ->
  exists k',
    (k' <= length (P ++ puts [o]))%nat
    /\ DataManager.data_queue (DataManager.apply o dm) = drop k' (P ++ puts [o])
    /\ DataManager.series (DataManager.apply o dm)
       = DataManager.series_of
           (DataManager.last_n (DataManager.maxlen dm) (take k' (P ++ puts [o]))).
Proof.
  intros Ho Hk Hq Hs. destruct o as [x| |x| |]; try discriminate Ho.
  - exists k. cbn [puts omap DataManager.apply]. rewrite length_app.
    split; [simpl; lia|]. split.
    + cbn [DataManager.put DataManager.data_queue]. rewrite Hq.
      now rewrite drop_app_le by lia.
    + rewrite take_app_le by lia. exact Hs.
  - change (puts [DataManager.DrainOne]) with (@nil Row). rewrite app_nil_r.
    cbn [DataManager.apply]. unfold DataManager.drain_one, DataManager.get_nowait.
    destruct (DataManager.data_queue dm) as [|x q] eqn:Eq.
    + exists k. rewrite Eq. auto.
    + assert (Hx : P !! k = Some x).
      { rewrite <- (Nat.add_0_r k), <- lookup_drop, <- Hq. reflexivity. }
      exists (S k). split; [apply lookup_lt_Some in Hx; lia|]. split.
      * cbn [DataManager.append_for_plotting DataManager.data_queue].
        rewrite <- (Nat.add_1_r k), <- drop_drop, <- Hq. reflexivity.
      * rewrite (take_S_r _ _ _ Hx).
        unfold DataManager.series, DataManager.series_of in Hs |- *.
        injection Hs as Ht Hv Hi Hp Hr.
        unfold DataManager.append_for_plotting, DataManager.maxlen in *.
        cbn [DataManager.time_data DataManager.voltage_data
             DataManager.current_data DataManager.power_data
             DataManager.resistance_data DataManager.max_plot_points].
        rewrite Ht, Hv, Hi, Hp, Hr, !deque_append_window. reflexivity.
Qed.

Lemma streaming_run (ops : list DataManager.op) (dm : DataManager.t)
    (P : list Row) (k : nat) :
  forallb streaming ops = true ->
  (k <= length P)%nat ->
  DataManager.data_queue dm = drop k P ->
  DataManager.series dm
  = DataManager.series_of (DataManager.last_n (DataManager.maxlen dm) (take k P)) ->
  exists k',
    (k' <= length (P ++ puts ops))%nat
    /\ DataManager.data_queue (DataManager.run ops dm) = drop k' (P ++ puts ops)
    /\ DataManager.series (DataManager.run ops dm)
       = DataManager.series_of
           (DataManager.last_n (DataManager.maxlen dm) (take k' (P ++ puts ops))).
Proof.
  revert dm P k. induction ops as [|o ops IH]; intros dm P k Hops Hk Hq Hs.
  - exists k. change (puts []) with (@nil Row). rewrite app_nil_r. auto.
  - cbn [forallb] in Hops. apply andb_true_iff in Hops as [Ho Hops].
    destruct (streaming_step o dm P k Ho Hk Hq Hs) as (k1 & Hk1 & Hq1 & Hs1).
    assert (Hm : DataManager.maxlen (DataManager.apply o dm) = DataManager.maxlen dm).
    { unfold DataManager.maxlen. now rewrite apply_max_plot_points. }
    rewrite <- Hm in Hs1.
    destruct (IH (DataManager.apply o dm) (P ++ puts [o]) k1 Hops Hk1 Hq1 Hs1)
      as (k2 & Hk2 & Hq2 & Hs2).
    exists k2. rewrite Hm in Hs2.
    assert (Hp : puts (o :: ops) = puts [o] ++ puts ops).
    { unfold puts. cbn [omap]. destruct o; reflexivity. }
    rewrite Hp, app_assoc. auto.
Qed.

Lemma frames_run (m : nat) (dm : DataManager.t) :
  frames m dm = DataManager.run (replicate m DataManager.DrainOne) dm.
Proof.
  unfold frames, DataManager.run. revert dm.
  induction m as [|m IH]; intros dm; [reflexivity|].
  rewrite Nat.iter_succ_r. cbn [replicate foldl]. apply IH.
Qed.

Lemma frames_empty_the_queue (m : nat) (dm : DataManager.t) :
  (length (DataManager.data_queue dm) <= m)%nat ->
  DataManager.data_queue (frames m dm) = [].
Proof.
  unfold frames. revert dm. induction m as [|m IH]; intros dm Hm.
  - simpl. destruct (DataManager.data_queue dm); [reflexivity | simpl in Hm; lia].
  - rewrite Nat.iter_succ_r. apply IH.
    unfold DataManager.drain_one, DataManager.get_nowait.
    destruct (DataManager.data_queue dm) as [|x q] eqn:Eq.
    + rewrite Eq. simpl. lia.
    + simpl in Hm |- *. lia.
Qed.

(** X6. A manager that only receives the worker's [put] and the display's
    frame step ([get_nowait] then [append_for_plotting]) never loses or
    reorders a sample: the queue holds the samples put and not yet shown, in
    the order they were put, and the window holds the last [maxlen] of the
    samples already shown.  Once enough frames have run to empty the queue
    the window shows the last [maxlen] samples of all that were put. *)
Theorem display_shows_the_samples_in_order (n : Z) (ops : list DataManager.op) :
  forallb streaming ops = true ->
  let dm := DataManager.run ops (DataManager.init n) in
  (exists k,
      (k <= length (puts ops))%nat
      /\ DataManager.data_queue dm = drop k (puts ops)
      /\ DataManager.series dm
         = DataManager.series_of
             (DataManager.last_n (DataManager.maxlen dm) (take k (puts ops))))
  /\ (forall m,
        (length (DataManager.data_queue dm) <= m)%nat ->
        DataManager.data_queue (frames m dm) = []
        /\ DataManager.series (frames m dm)
           = DataManager.series_of
               (DataManager.last_n (DataManager.maxlen dm) (puts ops))).
Proof.
  intros Hops dm.
  assert (Hm : forall ops', DataManager.maxlen (DataManager.run ops' (DataManager.init n))
               = DataManager.maxlen (DataManager.init n)).
  { intros ops'. unfold DataManager.run.
    induction ops' as [|o ops' IH] using rev_ind; [reflexivity|].
    rewrite foldl_app. cbn [foldl]. unfold DataManager.maxlen in *.
    now rewrite apply_max_plot_points. }
  split.
  - destruct (streaming_run ops (DataManager.init n) [] 0 Hops) as (k & Hk & Hq & Hs);
      [simpl; lia | reflexivity | reflexivity |].
    exists k. subst dm. rewrite Hm. auto.
  - intros m Hlen. split; [now apply frames_empty_the_queue|].
    pose proof (frames_empty_the_queue m dm Hlen) as He.
    rewrite frames_run in He |- *. subst dm. unfold DataManager.run in *.
    rewrite <- foldl_app in He |- *.
    assert (Hall : forallb streaming (ops ++ replicate m DataManager.DrainOne) = true).
    { rewrite forallb_app, Hops. simpl. clear. induction m; simpl; auto. }
    destruct (streaming_run _ (DataManager.init n) [] 0 Hall) as (k & Hk & Hq & Hs);
      [simpl; lia | reflexivity | reflexivity |].
    assert (Hp : puts (ops ++ replicate m DataManager.DrainOne) = puts ops).
    { unfold puts. rewrite omap_app.
      replace (omap _ (replicate m DataManager.DrainOne)) with (@nil Row);
        [apply app_nil_r|].
      clear. induction m; simpl; auto. }
    unfold DataManager.run in Hq, Hs. rewrite Hp in *. simpl in Hk, Hq, Hs.
    rewrite He in Hq. symmetry in Hq. apply drop_nil_inv in Hq.
    rewrite Hm.
    rewrite Hs, take_ge by lia. reflexivity.
Qed.

Lemma display_shows_the_samples_witness :
  DataManager.series
    (frames 1
       (DataManager.run
          [DataManager.Put Sample.stale; DataManager.DrainOne;
           DataManager.Put (make_row 1 4 0.5)] (DataManager.init 10)))
  = DataManager.series_of [Sample.stale; make_row 1 4 0.5].
Proof.
  exact (proj2 (proj2 (display_shows_the_samples_in_order 10
                  [DataManager.Put Sample.stale; DataManager.DrainOne;
                   DataManager.Put (make_row 1 4 0.5)] eq_refl) 1%nat
                  ltac:(simpl; lia))).
Defined.

(** X7. The manager of the second file raises a requested capacity to 2, not
    to 10: whatever is done to it afterwards the capacity is [max n 2], the
    five series stay in lock step and within it, and samples appended to the
    fresh window leave exactly the last [max n 2] of them.  For a request
    below 10 its window is therefore shorter than the one of
    [Power_Supply_Stopper.py]. *)
Theorem old_manager_window (n : Z) :
  (forall ops,
      let dm := DataManager.run ops (OldDataManager.init n) in
      DataManager.max_plot_points dm = Z.max n 2
      /\ DataManager.lock_step dm /\ DataManager.bounded dm)
  /\ (forall rows,
        DataManager.series (DataManager.appends rows (OldDataManager.init n))
        = DataManager.series_of (DataManager.last_n (Z.to_nat (Z.max n 2)) rows))
  /\ (n < 10 ->
      (DataManager.maxlen (OldDataManager.init n)
       < DataManager.maxlen (DataManager.init n))%nat).
Proof.
  assert (Hcap : DataManager.max_plot_points (OldDataManager.init n) = Z.max n 2).
  { unfold OldDataManager.init. cbn [DataManager.max_plot_points].
    destruct (Z.ltb_spec n 2); lia. }
  split; [|split].
  - intros ops dm.
    destruct (run_keeps ops (OldDataManager.init n)) as (Hm & Hl & Hb).
    + unfold DataManager.lock_step. simpl. repeat split; lia.
    + unfold DataManager.bounded. simpl. lia.
    + subst dm. rewrite Hm, Hcap. auto.
  - intros rows.
    destruct (appends_series rows (OldDataManager.init n)) as [_ Hs].
    rewrite Hs. unfold DataManager.maxlen. rewrite Hcap.
    unfold OldDataManager.init, DataManager.series_of.
    cbn [DataManager.time_data DataManager.voltage_data DataManager.current_data
         DataManager.power_data DataManager.resistance_data].
    rewrite !deque_appends_last_n by (simpl; lia).
    rewrite !app_nil_l, !fmap_last_n. reflexivity.
  - intros Hn. unfold DataManager.maxlen. rewrite Hcap.
    unfold DataManager.init, MIN_PLOT_POINTS. cbn [DataManager.max_plot_points]. lia.
Qed.

(** ** Validated input *)



Lemma fabs_not_below (c t : float) :
  (0%float <. t) = false -> (fabs c <. t) = false.
Proof.
  unfold fabs. rewrite !ltb_spec, abs_spec.
  change (Prim2SF 0) with (S754_zero false).
  destruct (Prim2SF c) as [sc|sc| |sc mc ec], (Prim2SF t) as [st|st| |st mt et];
    unfold SFltb, SFabs; simpl; try congruence; destruct st; simpl; congruence.
Qed.

(** X9. [validate_float_input] lets through a threshold that is neither
    below nor above zero: zero itself, and NaN.  With such a threshold, in
    constant-voltage mode and the condition "below", the threshold rule never
    stops a run, whatever the current: a completed read ends the run only by
    the zero-output rule. *)
Theorem threshold_not_above_zero_never_stops_below (text : string) (t : float) :
  (t <. 0%float) = false ->
  (0%float <. t) = false ->
  validate_float_input (text, Some t) "Threshold" true = Ok t
  /\ forall cfg,
       threshold cfg = t ->
       operation_mode cfg = MODE_CONSTANT_VOLTAGE ->
       lower (stop_condition cfg) = "below" ->
       forall et v c,
         comparison_holds cfg (monitored cfg v c) = false
         /\ stops cfg et v c = (et >. 1.0%float) && zero_output v c.
Proof.
  intros Hneg Ht. split.
  { unfold validate_float_input. cbn [snd]. rewrite Hneg. reflexivity. }
  intros cfg Hthr Hmode Hcond et v c.
  assert (Hc : comparison_holds cfg (monitored cfg v c) = false).
  { unfold comparison_holds, monitored. rewrite Hmode, Hcond, Hthr.
    rewrite String.eqb_refl.
    cbn [String.eqb Ascii.eqb Bool.eqb andb orb]. rewrite orb_false_r.
    apply fabs_not_below, Ht. }
  split; [exact Hc|]. unfold stops. rewrite Hc, orb_false_r. reflexivity.
Qed.

Lemma threshold_not_above_zero_witness :
  validate_float_input ("0", Some 0%float) "Threshold" true = Ok 0%float
  /\ stops (mkConfig "USB0::0x1AB1::INSTR" 4.0 0.5 0 "Below" 200 1000 "/data"
                     "all" false MODE_CONSTANT_VOLTAGE) 5 4 0.01 = false.
Proof.
  destruct (threshold_not_above_zero_never_stops_below "0" 0%float eq_refl eq_refl)
    as [Hv Hs].
  split; [exact Hv|].
  rewrite (proj2 (Hs (mkConfig "USB0::0x1AB1::INSTR" 4.0 0.5 0 "Below" 200 1000
                               "/data" "all" false MODE_CONSTANT_VOLTAGE)
                     eq_refl eq_refl eq_refl 5%float 4%float 0.01%float)).
  reflexivity.
Defined.

(** ** Simulation *)

Lemma ltb_leb (x y : float) : (x <. y) = true -> (x <=. y) = true.
Proof.
  rewrite ltb_spec, leb_spec. unfold SFltb, SFleb.
  destruct (SFcompare (Prim2SF x) (Prim2SF y)) as [[| |]|]; congruence.
Qed.

(** X10. A simulated reading changes nothing in the logger, its voltage is
    the configured voltage, and its current is never negative and never NaN:
    [0 <= c] holds for every elapsed time, every random draw and every
    configured current. *)
Theorem simulated_reading (elapsed_time : float) (i : Tick) (s : DataLogger.t) :
  exists c,
    DataLogger._read_simulation elapsed_time i s = (Ok (voltage (DataLogger.config s), c), s)
    /\ (0%float <=. c) = true
    /\ measurement (DataLogger.config s) true elapsed_time i
       = Some (voltage (DataLogger.config s), c).
Proof.
  eexists. split; [reflexivity|]. split; [|reflexivity].
  unfold max0.
  destruct (_ >. 0%float) eqn:E; [apply ltb_leb, E | reflexivity].
Qed.
(** ** Opening and closing the connection *)

(** X11. [_close_connection] never raises and leaves the logger without
    instrument and without session, whatever the instrument does on the
    way.  When an instrument was held it is told [:OUTP OFF] and closed,
    once each and in that order; when a session was held it is closed.  A
    second call does nothing at all. *)
Theorem close_connection_releases_everything (s : DataLogger.t) :
  let s' := snd (DataLogger._close_connection s) in
  let new := since (DataLogger.trace s) (DataLogger.trace s') in
  fst (DataLogger._close_connection s) = Ok tt
  /\ DataLogger.dp s' = None /\ DataLogger.rm s' = false
  /\ List.filter is_io new
     = match DataLogger.dp s with Some _ => [EvWrite OUTP_OFF; EvClose] | None => [] end
       ++ (if DataLogger.rm s then [EvRmClose] else [])
  /\ DataLogger._logged_data s' = DataLogger._logged_data s
  /\ DataLogger.logging_thread s' = DataLogger.logging_thread s
  /\ DataLogger._close_connection s' = (Ok tt, s').
Proof.
  destruct s as [cfg dm dp0 rm0 ev th sim data st t0 n d tr].
  unfold DataLogger._close_connection, DataLogger.ignoring, DataLogger.dp_write,
    DataLogger._send_status, DataLogger.emit, bind, try_, ret, raise, get, modify.
  destruct dp0 as [ins|], rm0; cbn;
    try destruct (write_error ins OUTP_OFF); try destruct (close_error ins); cbn;
    rewrite <- ?app_assoc, ?drop_app_length, ?drop_all; repeat split; reflexivity.
Qed.


Ltac setup_rejected E :=
  exists false;
  match type of E with
  | _ = Some ?x => destruct x
  end;
  eexists; (split; [cbn; rewrite <- ?app_assoc; reflexivity|]); cbn;
  (split; [split; [discriminate
                  | intros HF; rewrite ?Forall_cons in HF; destruct_and?; congruence]|]);
  (split; [eexists; reflexivity|]);
  (split; [discriminate|]);
  (split; [intros _; eexists _, _, _;
           split; [reflexivity | split; [exact E | reflexivity]]
          | reflexivity]).

Ltac setup_accepted :=
  exists true; eexists; (split; [cbn; rewrite <- ?app_assoc; reflexivity|]); cbn;
  (split; [split; [intros _; repeat constructor; assumption | reflexivity]|]);
  (split; [reflexivity|]);
  (split; [reflexivity|]);
  (split; [discriminate | reflexivity]).

Lemma setup_instrument_result (s : DataLogger.t) (ins : Instrument) :
  DataLogger.dp s = Some ins ->
  exists (ok : bool) (es : list event),
    DataLogger._setup_instrument s = (Ok ok, logged es s)
    /\ (ok = true <-> accepts ins (setup_program (DataLogger.config s)))
    /\ writes es `prefix_of` setup_program (DataLogger.config s)
    /\ (ok = true -> writes es = setup_program (DataLogger.config s))
    /\ (ok = false ->
        exists cmd x msg,
          last (writes es) = Some cmd /\ write_error ins cmd = Some x
          /\ last es = Some (EvStatus STATUS_ERROR msg))
    /\ forallb silent es = true.
Proof.
  destruct s as [cfg dm dp0 rm0 ev th sim data st t0 n d tr].
  cbn [DataLogger.dp DataLogger.config]. intros ->.
  unfold DataLogger._setup_instrument, DataLogger.dp_write, DataLogger._send_status,
    DataLogger.emit, setup_program, accepts, logged, bind, try_, ret, raise, get,
    modify.
  cbn [DataLogger.dp DataLogger.config DataLogger.trace DataLogger.set_trace fst snd].
  destruct (String.eqb (operation_mode cfg) MODE_CONSTANT_CURRENT); cbn.
  - destruct (write_error ins [S_ ":VOLT:PROT "; F_ (threshold cfg)]) as [x0|] eqn:E0;
      [setup_rejected E0 | cbn].
    destruct (write_error ins [S_ ":OUTP:OVP ON"]) as [x1|] eqn:E1;
      [setup_rejected E1 | cbn].
    destruct (write_error ins [S_ ":APPL CH1,"; F_ (voltage cfg); S_ ",";
                               F_ (current cfg)]) as [x2|] eqn:E2;
      [setup_rejected E2 | cbn].
    destruct (write_error ins [S_ ":OUTP CH1,ON"]) as [x3|] eqn:E3;
      [setup_rejected E3 | cbn].
    setup_accepted.
  - destruct (write_error ins [S_ ":OUTP:OVP OFF"]) as [x1|] eqn:E1;
      [setup_rejected E1 | cbn].
    destruct (write_error ins [S_ ":APPL CH1,"; F_ (voltage cfg); S_ ",";
                               F_ (current cfg)]) as [x2|] eqn:E2;
      [setup_rejected E2 | cbn].
    destruct (write_error ins [S_ ":OUTP CH1,ON"]) as [x3|] eqn:E3;
      [setup_rejected E3 | cbn].
    setup_accepted.
Qed.

Lemma close_connection_eq (s : DataLogger.t) :
  DataLogger._close_connection s
  = (Ok tt, DataLogger.set_rm false (DataLogger.set_dp None (logged (closing_events s) s))).
Proof.
  destruct s as [cfg dm dp0 rm0 ev th sim data st t0 n d tr].
  unfold DataLogger._close_connection, DataLogger.ignoring, DataLogger.dp_write,
    DataLogger._send_status, DataLogger.emit, closing_events, logged,
    bind, try_, ret, raise, get, modify.
  destruct dp0 as [ins|], rm0; cbn;
    try destruct (write_error ins OUTP_OFF); try destruct (close_error ins); cbn;
    rewrite <- ?app_assoc, ?app_nil_r; reflexivity.
Qed.

(** [stop] when the directory of the files can be made. *)
Lemma stop_returns (h : Host) (notes : string) (s : DataLogger.t) :
  makedirs_error h = None ->
  exists base s',
    DataLogger.stop h notes s = (Ok tt, s')
    /\ DataLogger.trace s'
       = DataLogger.trace s ++ stop_prelude h s
         ++ [EvExport base (DataLogger._logged_data s) (DataLogger.config s) notes]
         ++ DataExporter.export_data h base (DataLogger._logged_data s)
              (DataLogger.config s) notes
         ++ (if DataLogger.is_simulating s
             then [EvStatus STATUS_INFO [S_ "Simulation stopped."]]
             else closing_events s)
         ++ [STOPPED (DataLogger._logged_data s)]
    /\ DataLogger._logged_data s' = DataLogger._logged_data s
    /\ DataLogger.data_manager s' = DataLogger.data_manager s
    /\ DataLogger.config s' = DataLogger.config s
    /\ DataLogger.is_simulating s' = DataLogger.is_simulating s
    /\ DataLogger.logging_thread s' = NoThread
    /\ DataLogger.stop_event s' = true
    /\ DataLogger.dp s' = (if DataLogger.is_simulating s then DataLogger.dp s else None)
    /\ DataLogger.rm s' = (if DataLogger.is_simulating s then DataLogger.rm s else false).
Proof.
  intros Hmk.
  destruct s as [cfg dm dp0 rm0 ev th sim data st t0 n d tr].
  unfold DataLogger.stop, DataLogger.join, DataLogger.resume, DataLogger.guarded,
    DataLogger.finally_, DataLogger._generate_base_filename.
  rewrite Hmk.
  unfold DataLogger.while_loop, stop_prelude, save_dir, STOPPED.
  rewrite !bind_get.
  cbn [DataLogger.stop_event DataLogger.logging_thread DataLogger.config
       DataLogger.is_simulating DataLogger.dp DataLogger.rm DataLogger.trace
       DataLogger._logged_data DataLogger.data_manager].
  destruct ev, th, sim;
    unfold DataLogger._send_status, DataLogger.emits, DataLogger.emit, bind, try_, ret,
      get, modify;
    cbn -[DataExporter.export_data DataLogger._close_connection];
    destruct (String.eqb (save_location cfg) "");
    cbn -[DataExporter.export_data DataLogger._close_connection];
    rewrite ?close_connection_eq;
    (eexists _, _; split; [reflexivity|]);
    unfold closing_events, logged;
    cbn -[DataExporter.export_data];
    rewrite <- ?app_assoc; repeat split; try reflexivity.
Qed.

(** [stop] when the directory of the files cannot be made. *)
Lemma stop_raises (h : Host) (notes : string) (s : DataLogger.t) (x : exn) :
  makedirs_error h = Some x ->
  exists s',
    DataLogger.stop h notes s = (Raise x, s')
    /\ DataLogger.trace s' = DataLogger.trace s ++ stop_prelude h s
    /\ DataLogger._logged_data s' = DataLogger._logged_data s
    /\ DataLogger.dp s' = DataLogger.dp s
    /\ DataLogger.rm s' = DataLogger.rm s
    /\ DataLogger.stop_event s' = true
    /\ (DataLogger.logging_thread s = NoThread -> DataLogger.logging_thread s' = NoThread).
Proof.
  intros Hmk.
  destruct s as [cfg dm dp0 rm0 ev th sim data st t0 n d tr].
  unfold DataLogger.stop, DataLogger.join, DataLogger.resume, DataLogger.guarded,
    DataLogger.finally_, DataLogger._generate_base_filename.
  rewrite Hmk.
  unfold DataLogger.while_loop, stop_prelude, save_dir.
  rewrite !bind_get.
  cbn [DataLogger.stop_event DataLogger.logging_thread DataLogger.config
       DataLogger.is_simulating DataLogger.dp DataLogger.rm DataLogger.trace
       DataLogger._logged_data DataLogger.data_manager].
  destruct ev, th;
    unfold DataLogger._send_status, DataLogger.emits, DataLogger.emit, bind, try_, ret,
      raise, get, modify;
    cbn -[DataExporter.export_data DataLogger._close_connection];
    destruct (String.eqb (save_location cfg) "");
    cbn -[DataExporter.export_data DataLogger._close_connection];
    (eexists; split; [reflexivity|]);
    cbn; rewrite <- ?app_assoc; repeat split; try reflexivity; discriminate.
Qed.

Lemma idle_stop_prelude (h : Host) (s : DataLogger.t) :
  forallb idle (stop_prelude h s) = true.
Proof.
  unfold stop_prelude.
  destruct (DataLogger.stop_event s), (DataLogger.logging_thread s),
    (String.eqb (save_location (DataLogger.config s)) ""); reflexivity.
Qed.

Lemma filter_is_io_idle (es : list event) :
  forallb idle es = true -> List.filter is_io es = [].
Proof.
  induction es as [|e es IH]; [reflexivity|]. cbn [forallb List.filter].
  intros H. apply andb_true_iff in H as [He Hes]. rewrite (IH Hes).
  unfold idle, no_io in He. apply andb_true_iff in He as [_ He].
  now destruct (is_io e).
Qed.

Lemma idle_export_data (h : Host) (base : message) (data : list Row)
    (cfg : Config) (notes : string) :
  forallb no_io (DataExporter.export_data h base data cfg notes) = true.
Proof.
  unfold DataExporter.export_data. destruct data as [|d data]; [reflexivity|].
  assert (H1 : forall fmt, forallb no_io
                 (DataExporter.export_one h base (d :: data) cfg notes fmt) = true).
  { intros fmt. unfold DataExporter.export_one.
    destruct (DataExporter.lookup fmt DataExporter.save_map) as [save|]; [|reflexivity].
    now destruct (save (writer h fmt) _). }
  generalize (if String.eqb (export_format cfg) "all" then DataExporter.keys
              else [export_format cfg]).
  intros fmts. induction fmts as [|f fmts IH]; [reflexivity|].
  rewrite fmap_cons. cbn [concat]. rewrite forallb_app, H1. exact IH.
Qed.

Lemma exported_export_data (h : Host) (base : message) (data : list Row)
    (cfg : Config) (notes : string) :
  exported (DataExporter.export_data h base data cfg notes) = [].
Proof.
  pose proof (silent_export_data h base data cfg notes) as H.
  induction (DataExporter.export_data h base data cfg notes) as [|e es IH];
    [reflexivity|].
  cbn [forallb] in H. apply andb_true_iff in H as [He Hes].
  specialize (IH Hes). unfold exported in *.
  destruct e; try discriminate He; cbn [omap]; exact IH.
Qed.

Lemma exported_idle (es : list event) : forallb idle es = true -> exported es = [].
Proof.
  induction es as [|e es IH]; [reflexivity|]. cbn [forallb].
  intros H. apply andb_true_iff in H as [He Hes].
  specialize (IH Hes). unfold exported in *.
  destruct e; try discriminate He; cbn [omap]; exact IH.
Qed.

Lemma exported_app (l k : list event) : exported (l ++ k) = exported l ++ exported k.
Proof. unfold exported. apply omap_app. Qed.

Lemma exported_closing (s : DataLogger.t) : exported (closing_events s) = [].
Proof.
  unfold closing_events.
  destruct (DataLogger.dp s) as [ins|], (DataLogger.rm s); try reflexivity;
    destruct (close_error ins); reflexivity.
Qed.

(** X12. [_setup_instrument] never raises.  It answers true exactly when
    the instrument accepts every command of the mode's set-up program; the
    commands it writes are always a prefix of that program, all of it on
    success, and up to the rejected command - followed by an error message -
    on failure.  The program ends with the output-enable, so the output is
    switched on only after the protection and the set-points were accepted.
    Nothing but the trace changes. *)
Theorem setup_instrument_sends_the_program_in_order (s : DataLogger.t)
    (ins : Instrument) :
  DataLogger.dp s = Some ins ->
  let r := DataLogger._setup_instrument s in
  let new := since (DataLogger.trace s) (DataLogger.trace (snd r)) in
  (fst r = Ok true <-> accepts ins (setup_program (DataLogger.config s)))
  /\ (fst r = Ok false <-> ~ accepts ins (setup_program (DataLogger.config s)))
  /\ writes new `prefix_of` setup_program (DataLogger.config s)
  /\ last (setup_program (DataLogger.config s)) = Some [S_ ":OUTP CH1,ON"]
  /\ (fst r = Ok true -> writes new = setup_program (DataLogger.config s))
  /\ (fst r = Ok false ->
      exists cmd x msg,
        last (writes new) = Some cmd /\ write_error ins cmd = Some x
        /\ last new = Some (EvStatus STATUS_ERROR msg))
  /\ snd r = logged new s.
Proof.
  intros Hdp r new.
  destruct (setup_instrument_result s ins Hdp) as (ok & es & Hr & Hok & Hp & Ht & Hf & _).
  assert (Hnew : new = es).
  { subst new r. rewrite Hr. destruct s. apply since_app. }
  subst r. rewrite Hnew, Hr. cbn [fst snd].
  split; [|split; [|split; [|split; [|split; [|split]]]]].
  - rewrite <- Hok. split; [intros [= ->] | intros ->]; reflexivity.
  - rewrite <- Hok. split; [intros [= ->]; discriminate|].
    destruct ok; [intros H; now contradiction H | reflexivity].
  - exact Hp.
  - unfold setup_program.
    destruct (String.eqb (operation_mode (DataLogger.config s)) MODE_CONSTANT_CURRENT);
      reflexivity.
  - intros [= ->]. now apply Ht.
  - intros [= ->]. now apply Hf.
  - reflexivity.
Qed.

Lemma setup_instrument_witness :
  writes (since (DataLogger.trace (Sample.connected Sample.cfg))
            (DataLogger.trace
               (snd (DataLogger._setup_instrument (Sample.connected Sample.cfg)))))
  = setup_program Sample.cfg.
Proof.
  destruct (setup_instrument_sends_the_program_in_order
              (Sample.connected Sample.cfg) Sample.instrument eq_refl)
    as (_ & _ & _ & _ & H & _).
  apply H. reflexivity.
Defined.

(** X13. [start] refuses, with a message and without touching the
    instrument, the samples or the worker, when the worker is alive and when
    a real run has no instrument.  Even then it has cleared the stop event
    first.  So a [start] while the worker is alive withdraws a stop that was
    requested and not yet seen: the worker, which would have left its loop
    without another sample, goes on and records what the following
    iterations produce. *)
Theorem start_refused_withdraws_a_stop (h : Host) (clock : float) (ticks : list Tick)
    (s : DataLogger.t) :
  (DataLogger.logging_thread s = Alive
   \/ (DataLogger.is_simulating s = false /\ DataLogger.dp s = None) ->
   exists msg,
     DataLogger.start h clock s
     = (Ok false,
        logged [EvStatus match DataLogger.logging_thread s with
                         | Alive => STATUS_WARNING
                         | _ => STATUS_ERROR
                         end msg]
          (DataLogger.set_stop_event false s)))
  /\ (DataLogger.logging_thread s = Alive ->
      ready s ->
      DataLogger.stop_event s = true ->
      DataLogger._logged_data (snd (DataLogger.resume ticks s)) = DataLogger._logged_data s
      /\ DataLogger._logged_data
           (snd (DataLogger.resume ticks (snd (DataLogger.start h clock s))))
         = DataLogger._logged_data s
           ++ produced (DataLogger.config s) (DataLogger.is_simulating s)
                (DataLogger.start_time s) ticks).
Proof.
  split.
  - destruct s as [cfg dm dp0 rm0 ev th sim data st t0 n d tr].
    cbn [DataLogger.logging_thread DataLogger.is_simulating DataLogger.dp].
    intros [-> | [-> ->]].
    + eexists. reflexivity.
    + destruct th; eexists; reflexivity.
  - intros Hth Hr Hev. split.
    + unfold DataLogger.resume. rewrite bind_get, Hth. unfold DataLogger.guarded.
      assert (Hw : DataLogger.while_loop ticks s = (Ok true, s)).
      { destruct ticks; cbn [DataLogger.while_loop]; rewrite bind_get, Hev; reflexivity. }
      erewrite bind_eq by (apply try_eq; exact Hw).
      destruct s. reflexivity.
    + set (s1 := logged [EvStatus STATUS_WARNING [S_ "Logging already running."]]
                   (DataLogger.set_stop_event false s)).
      assert (Hstart : DataLogger.start h clock s = (Ok false, s1)).
      { subst s1. destruct s. cbn in Hth. subst. reflexivity. }
      rewrite Hstart. cbn [snd].
      assert (He1 : DataLogger.stop_event s1 = false) by (subst s1; now destruct s).
      assert (Hr1 : ready s1) by (subst s1; destruct s; exact Hr).
      destruct (while_loop_spec ticks s1 He1 Hr1) as (left & s2 & Hw & Hadv & _).
      unfold DataLogger.resume. rewrite bind_get.
      replace (DataLogger.logging_thread s1) with Alive
        by (subst s1; destruct s; now symmetry).
      unfold DataLogger.guarded. erewrite bind_eq by (apply try_eq; exact Hw).
      destruct Hadv as (_ & _ & _ & _ & Hdata & _).
      replace (DataLogger._logged_data s1) with (DataLogger._logged_data s) in Hdata
        by (subst s1; now destruct s).
      replace (DataLogger.config s1) with (DataLogger.config s) in Hdata
        by (subst s1; now destruct s).
      replace (DataLogger.is_simulating s1) with (DataLogger.is_simulating s) in Hdata
        by (subst s1; now destruct s).
      replace (DataLogger.start_time s1) with (DataLogger.start_time s) in Hdata
        by (subst s1; now destruct s).
      rewrite <- Hdata. destruct left; [destruct s2; reflexivity | reflexivity].
Qed.

Lemma start_refused_witness :
  DataLogger._logged_data
    (snd (DataLogger.resume [Sample.reading 100.2 4 0.5]
            (DataLogger.set_stop_event true (Sample.running Sample.cfg))))
  = [Sample.stale]
  /\ DataLogger._logged_data
       (snd (DataLogger.resume [Sample.reading 100.2 4 0.5]
               (snd (DataLogger.start Sample.host 100
                       (DataLogger.set_stop_event true (Sample.running Sample.cfg))))))
     = [Sample.stale]
       ++ produced Sample.cfg false 100 [Sample.reading 100.2 4 0.5].
Proof.
  exact (proj2 (start_refused_withdraws_a_stop Sample.host 100
                  [Sample.reading 100.2 4 0.5]
                  (DataLogger.set_stop_event true (Sample.running Sample.cfg)))
           eq_refl (fun _ => ex_intro _ Sample.instrument eq_refl) eq_refl).
Defined.

Lemma writes_app (l k : list event) : writes (l ++ k) = writes l ++ writes k.
Proof. unfold writes. apply omap_app. Qed.

Lemma writes_filter_is_io (es : list event) : writes (List.filter is_io es) = writes es.
Proof.
  induction es as [|e es IH]; [reflexivity|]. unfold writes in *.
  destruct e; simpl; try exact IH; f_equal; exact IH.
Qed.

Lemma writes_no_io (es : list event) : forallb no_io es = true -> writes es = [].
Proof.
  induction es as [|e es IH]; [reflexivity|]. cbn [forallb].
  intros H. apply andb_true_iff in H as [He Hes]. specialize (IH Hes).
  destruct e; try discriminate He; exact IH.
Qed.

Lemma exported_silent (es : list event) : forallb silent es = true -> exported es = [].
Proof.
  induction es as [|e es IH]; [reflexivity|]. cbn [forallb].
  intros H. apply andb_true_iff in H as [He Hes].
  specialize (IH Hes). unfold exported in *.
  destruct e; try discriminate He; cbn [omap]; exact IH.
Qed.

Lemma no_io_idle (es : list event) : forallb idle es = true -> forallb no_io es = true.
Proof.
  induction es as [|e es IH]; [reflexivity|]. cbn [forallb].
  intros H. apply andb_true_iff in H as [He Hes]. rewrite (IH Hes).
  unfold idle in He. apply andb_true_iff in He as [_ ->]. reflexivity.
Qed.

(** X14. When the instrument rejects a command of the set-up program,
    [start] answers false after having run [stop]: whatever the accumulator
    held is handed to the export, the instrument is told [:OUTP OFF] as the
    last command it gets and is closed, the session is closed, and no worker
    is left. *)
Theorem start_with_rejected_setup (h : Host) (clock : float) (s : DataLogger.t)
    (ins : Instrument) :
  makedirs_error h = None ->
  DataLogger.logging_thread s <> Alive ->
  DataLogger.is_simulating s = false ->
  DataLogger.dp s = Some ins ->
  ~ accepts ins (setup_program (DataLogger.config s)) ->
  let r := DataLogger.start h clock s in
  let new := since (DataLogger.trace s) (DataLogger.trace (snd r)) in
  fst r = Ok false
  /\ DataLogger.dp (snd r) = None /\ DataLogger.rm (snd r) = false
  /\ DataLogger.logging_thread (snd r) = NoThread
  /\ exported new = [DataLogger._logged_data s]
  /\ last (writes new) = Some OUTP_OFF
  /\ count is_disconnect new = 1%nat.
Proof.
  intros Hmk Hth Hsim Hdp Hrej r new.
  set (s0 := DataLogger.set_stop_event false s).
  assert (Hdp0 : DataLogger.dp s0 = Some ins) by (subst s0; destruct s; exact Hdp).
  assert (Hc0 : DataLogger.config s0 = DataLogger.config s) by (subst s0; now destruct s).
  destruct (setup_instrument_result s0 ins Hdp0) as (ok & es & Hr & Hok & _ & _ & _ & Hes).
  rewrite Hc0 in Hok.
  assert (ok = false) as ->
    by (destruct ok; [contradiction Hrej; now apply Hok | reflexivity]).
  destruct (stop_returns h "" (logged es s0) Hmk)
    as (base & s1 & Hstop & Htr & Hdata & _ & _ & _ & Hth1 & _ & Hdp1 & Hrm1).
  assert (Hstart : DataLogger.start h clock s = (Ok false, s1)).
  { unfold DataLogger.start. rewrite bind_modify, bind_get. fold s0.
    replace (DataLogger.logging_thread s0) with (DataLogger.logging_thread s)
      by (subst s0; now destruct s).
    replace (DataLogger.is_simulating s0) with false
      by (subst s0; destruct s; now symmetry).
    rewrite Hdp0. cbn [negb].
    destruct (DataLogger.logging_thread s); try congruence;
      (erewrite bind_eq by exact Hr; cbv beta iota;
       erewrite bind_eq by exact Hstop; reflexivity). }
  assert (Hs1 : DataLogger.is_simulating (logged es s0) = false)
    by (subst s0; destruct s; exact Hsim).
  assert (Hd1 : DataLogger.dp (logged es s0) = Some ins)
    by (subst s0; destruct s; exact Hdp).
  assert (Hl1 : DataLogger._logged_data (logged es s0) = DataLogger._logged_data s)
    by (subst s0; now destruct s).
  assert (Ht1 : DataLogger.trace (logged es s0) = DataLogger.trace s ++ es)
    by (subst s0; now destruct s).
  rewrite Hs1 in Htr, Hdp1, Hrm1. rewrite Hl1, Ht1 in Htr.
  subst r new. rewrite Hstart. cbn [fst snd]. rewrite Htr, <- app_assoc, since_app.
  pose proof (idle_stop_prelude h (logged es s0)) as Hpre.
  set (pre := stop_prelude h (logged es s0)) in *.
  match goal with |- context [DataExporter.export_data ?a ?b ?c ?d ?e] =>
    pose proof (idle_export_data a b c d e) as Hx1;
    pose proof (exported_export_data a b c d e) as Hx2;
    pose proof (silent_export_data a b c d e) as Hx3;
    set (X := DataExporter.export_data a b c d e) in *
  end.
  assert (Hcl : exists tail, closing_events (logged es s0)
                             = [EvWrite OUTP_OFF; EvClose] ++ tail
                             /\ forallb silent tail = true
                             /\ writes tail = [] /\ exported tail = []).
  { unfold closing_events. rewrite Hd1.
    destruct (DataLogger.rm (logged es s0)), (close_error ins);
      eexists; (split; [reflexivity|]); repeat split. }
  destruct Hcl as (tail & -> & Htail & Hwt & Hxt).
  split; [reflexivity|]. split; [exact Hdp1|]. split; [exact Hrm1|].
  split; [exact Hth1|]. split; [|split].
  - rewrite !exported_app, (exported_silent es Hes), (exported_idle pre Hpre), Hx2, Hxt.
    reflexivity.
  - rewrite !writes_app, (writes_no_io pre (no_io_idle pre Hpre)),
      (writes_no_io X Hx1), Hwt.
    change (writes [EvExport base (DataLogger._logged_data s)
                      (DataLogger.config (logged es s0)) ""]) with (@nil message).
    change (writes [EvWrite OUTP_OFF; EvClose]) with [OUTP_OFF].
    change (writes [STOPPED (DataLogger._logged_data s)]) with (@nil message).
    rewrite !app_nil_r, !app_nil_l. apply last_snoc.
  - rewrite !count_app.
    destruct (silent_counts es Hes) as (_ & -> & _).
    destruct (silent_counts X Hx3) as (_ & -> & _).
    destruct (silent_counts tail Htail) as (_ & -> & _).
    rewrite (count_excluded is_disconnect idle pre); [reflexivity | | exact Hpre].
    intros e He. unfold idle, silent, quiet in He.
    destruct (is_disconnect e); [|reflexivity].
    now rewrite orb_true_r in He.
Qed.

Lemma start_with_rejected_setup_witness :
  exported
    (since (DataLogger.trace (Sample.connected Sample.cfg))
       (DataLogger.trace
          (snd (DataLogger.start Sample.host 100
                  (DataLogger.set_dp
                     (Some (mkInstrument
                              (fun cmd => if is_off_command cmd then None
                                          else Some (VisaIOError "VI_ERROR_TMO"))
                              None))
                     (Sample.connected Sample.cfg))))))
  = [[Sample.stale]].
Proof.
  refine (proj1 (proj2 (proj2 (proj2 (proj2
            (start_with_rejected_setup Sample.host 100
               (DataLogger.set_dp
                  (Some (mkInstrument
                           (fun cmd => if is_off_command cmd then None
                                       else Some (VisaIOError "VI_ERROR_TMO"))
                           None))
                  (Sample.connected Sample.cfg))
               _ eq_refl ltac:(discriminate) eq_refl eq_refl _)))))).
  unfold accepts. intros H. inversion H as [|? ? H1 _]. discriminate H1.
Defined.

(** X15. [stop] fails only on the directory of the files.  When
    [os.makedirs] succeeds it returns whatever the instrument does on the
    way: its last message reports the number of samples, no worker is left
    and a real run holds neither instrument nor session.  When [os.makedirs]
    raises, [stop] raises the same exception before anything is exported or
    written to a file and before the instrument is touched: the instrument
    and the session stay as they were, and the samples stay in the
    accumulator. *)
Theorem stop_fails_only_on_the_directory (h : Host) (notes : string)
    (s : DataLogger.t) :
  let r := DataLogger.stop h notes s in
  let new := since (DataLogger.trace s) (DataLogger.trace (snd r)) in
  (makedirs_error h = None ->
   fst r = Ok tt
   /\ last new = Some (STOPPED (DataLogger._logged_data s))
   /\ DataLogger.logging_thread (snd r) = NoThread
   /\ (DataLogger.is_simulating s = false ->
       DataLogger.dp (snd r) = None /\ DataLogger.rm (snd r) = false))
  /\ (forall x,
        makedirs_error h = Some x ->
        fst r = Raise x
        /\ exported new = [] /\ DataExporter.attempted new = []
        /\ List.filter is_io new = []
        /\ DataLogger.dp (snd r) = DataLogger.dp s
        /\ DataLogger.rm (snd r) = DataLogger.rm s
        /\ DataLogger._logged_data (snd r) = DataLogger._logged_data s).
Proof.
  intros r new. split.
  - intros Hmk.
    destruct (stop_returns h notes s Hmk)
      as (base & s' & Hstop & Htr & _ & _ & _ & _ & Hth & _ & Hdp & Hrm).
    subst r new. rewrite Hstop. cbn [fst snd]. rewrite Htr, since_app.
    split; [reflexivity|]. split; [|split; [exact Hth|]].
    + rewrite !app_assoc. apply last_snoc.
    + intros Hsim. rewrite Hsim in Hdp, Hrm. split; assumption.
  - intros x Hmk.
    destruct (stop_raises h notes s x Hmk) as (s' & Hstop & Htr & Hl & Hdp & Hrm & _).
    subst r new. rewrite Hstop. cbn [fst snd]. rewrite Htr, since_app.
    pose proof (idle_stop_prelude h s) as Hpre.
    split; [reflexivity|]. split; [now apply exported_idle|].
    split; [|split; [now apply filter_is_io_idle|]]; [|repeat split; assumption].
    unfold stop_prelude.
    destruct (DataLogger.stop_event s), (DataLogger.logging_thread s),
      (String.eqb (save_location (DataLogger.config s)) ""); reflexivity.
Qed.

Lemma stop_fails_only_on_the_directory_witness :
  fst (DataLogger.stop (mkHost "20240101_120000" "/app"
                          (Some (OtherError "Permission denied")) (fun _ => Written))
         "notes" (Sample.running Sample.cfg))
  = Raise (OtherError "Permission denied")
  /\ DataLogger.dp
       (snd (DataLogger.stop (mkHost "20240101_120000" "/app"
                                (Some (OtherError "Permission denied"))
                                (fun _ => Written))
               "notes" (Sample.running Sample.cfg)))
     = Some Sample.instrument.
Proof.
  destruct (proj2 (stop_fails_only_on_the_directory
                     (mkHost "20240101_120000" "/app"
                        (Some (OtherError "Permission denied")) (fun _ => Written))
                     "notes" (Sample.running Sample.cfg))
              (OtherError "Permission denied") eq_refl)
    as (H1 & _ & _ & _ & H2 & _).
  split; [exact H1 | exact H2].
Defined.

Lemma attempted_app (l k : list event) :
  DataExporter.attempted (l ++ k) = DataExporter.attempted l ++ DataExporter.attempted k.
Proof. unfold DataExporter.attempted. apply omap_app. Qed.

Lemma attempted_idle_prelude (h : Host) (s : DataLogger.t) :
  DataExporter.attempted (stop_prelude h s) = [].
Proof.
  unfold stop_prelude.
  destruct (DataLogger.stop_event s), (DataLogger.logging_thread s),
    (String.eqb (save_location (DataLogger.config s)) ""); reflexivity.
Qed.

Lemma attempted_closing (s : DataLogger.t) : DataExporter.attempted (closing_events s) = [].
Proof.
  unfold closing_events.
  destruct (DataLogger.dp s) as [ins|], (DataLogger.rm s); try reflexivity;
    destruct (close_error ins); reflexivity.
Qed.

Lemma filter_is_io_no_io (es : list event) :
  forallb no_io es = true -> List.filter is_io es = [].
Proof.
  induction es as [|e es IH]; [reflexivity|]. cbn [forallb List.filter].
  intros H. apply andb_true_iff in H as [He Hes]. rewrite (IH Hes).
  unfold no_io in He. now destruct (is_io e).
Qed.

(** The writers [export_data] calls depend on the samples and the format
    only. *)
Lemma attempted_export_data (h h' : Host) (base base' : message) (data : list Row)
    (cfg : Config) (notes notes' : string) :
  DataExporter.attempted (DataExporter.export_data h base data cfg notes)
  = DataExporter.attempted (DataExporter.export_data h' base' data cfg notes').
Proof.
  unfold DataExporter.export_data. destruct data as [|d data]; [reflexivity|].
  generalize (if String.eqb (export_format cfg) "all" then DataExporter.keys
              else [export_format cfg]).
  intros fmts. induction fmts as [|f fmts IH]; [reflexivity|].
  rewrite !fmap_cons. cbn [concat]. rewrite !attempted_app, IH. f_equal.
  unfold DataExporter.export_one.
  destruct (DataExporter.lookup f DataExporter.save_map) as [save|]; [|reflexivity].
  destruct (save (writer h f) _), (save (writer h' f) _). reflexivity.
Qed.

(** X16. A second [stop] - [_handle_start_failure] makes one after [start]
    has already stopped on a rejected set-up - returns, hands the same
    samples to the export again and calls the same writers again, and does
    not touch the instrument or the session: nothing is written to them and
    nothing is closed twice. *)
Theorem stop_again_exports_again (h h' : Host) (notes notes' : string)
    (s s1 : DataLogger.t) :
  DataLogger.stop h notes s = (Ok tt, s1) ->
  makedirs_error h' = None ->
  let r := DataLogger.stop h' notes' s1 in
  let new := since (DataLogger.trace s1) (DataLogger.trace (snd r)) in
  fst r = Ok tt
  /\ exported new = [DataLogger._logged_data s]
  /\ DataExporter.attempted new
     = DataExporter.attempted (since (DataLogger.trace s) (DataLogger.trace s1))
  /\ (DataLogger.is_simulating s = false -> List.filter is_io new = [])
  /\ last new = Some (STOPPED (DataLogger._logged_data s)).
Proof.
  intros Hstop Hmk' r new.
  assert (Hmk : makedirs_error h = None).
  { destruct (makedirs_error h) as [x|] eqn:E; [|reflexivity].
    destruct (stop_raises h notes s x E) as (s' & H & _). congruence. }
  destruct (stop_returns h notes s Hmk)
    as (base & s1' & Hstop1 & Htr & Hl & _ & Hc & Hsim & _ & _ & Hdp & Hrm).
  rewrite Hstop in Hstop1. injection Hstop1 as <-.
  destruct (stop_returns h' notes' s1 Hmk')
    as (base' & s2 & Hstop2 & Htr2 & _).
  subst r new. rewrite Hstop2. cbn [fst snd].
  rewrite Htr2, since_app, Htr, since_app, Hl, Hc, Hsim.
  split; [reflexivity|]. split; [|split; [|split]].
  - rewrite !exported_app, (exported_idle _ (idle_stop_prelude h' s1)),
      exported_export_data.
    replace (exported (if DataLogger.is_simulating s then _ else _)) with (@nil (list Row))
      by (destruct (DataLogger.is_simulating s);
          [reflexivity | symmetry; apply exported_closing]).
    reflexivity.
  - rewrite !attempted_app, !attempted_idle_prelude.
    rewrite (attempted_export_data h' h base' base _ _ notes' notes).
    destruct (DataLogger.is_simulating s); [reflexivity|].
    now rewrite !attempted_closing.
  - intros Hreal. rewrite Hreal in *.
    rewrite !List.filter_app, (filter_is_io_idle _ (idle_stop_prelude h' s1)).
    unfold closing_events. rewrite Hdp, Hrm.
    match goal with |- context [DataExporter.export_data ?a ?b ?c ?d ?e] =>
      rewrite (filter_is_io_no_io _ (idle_export_data a b c d e)) end.
    reflexivity.
  - rewrite !app_assoc. apply last_snoc.
Qed.

Lemma stop_again_witness :
  exported
    (since (DataLogger.trace
              (snd (DataLogger.stop Sample.host "notes" (Sample.connected Sample.cfg))))
       (DataLogger.trace
          (snd (DataLogger.stop Sample.host ""
                  (snd (DataLogger.stop Sample.host "notes"
                          (Sample.connected Sample.cfg)))))))
  = [[Sample.stale]].
Proof.
  assert (Hstop : DataLogger.stop Sample.host "notes" (Sample.connected Sample.cfg)
                  = (Ok tt, snd (DataLogger.stop Sample.host "notes"
                                   (Sample.connected Sample.cfg))))
    by (vm_compute; reflexivity).
  exact (proj1 (proj2 (stop_again_exports_again Sample.host Sample.host "notes" ""
                         (Sample.connected Sample.cfg) _ Hstop eq_refl))).
Defined.

Ltac connect_case :=
  cbn -[DataLogger._close_connection]; rewrite ?close_connection_eq;
  unfold closing_events, logged; cbn;
  try match goal with |- context [close_error ?ins] => destruct (close_error ins) end;
  rewrite <- ?app_assoc, ?since_app; cbn;
  repeat match goal with
         | |- _ /\ _ => split
         | |- _ <-> _ => split
         | |- _ -> _ => intro
         end;
  try discriminate; try reflexivity; try congruence;
  try solve [left; reflexivity]; try solve [right; reflexivity];
  try solve [right; left; reflexivity]; try solve [right; right; reflexivity];
  try solve [eexists; repeat split; reflexivity];
  try solve [eexists _, _; reflexivity];
  try solve [repeat match goal with
                    | H : _ /\ _ |- _ => destruct H
                    | H : exists _, _ |- _ => destruct H
                    end; congruence].

(** X17. [connect] on a logger that holds neither instrument nor session
    never raises.  In simulation mode it succeeds without touching PyVISA.
    Otherwise it succeeds exactly when PyVISA is there, a resource is
    selected, the session and the resource open and the instrument answers
    [*IDN?]; the logger then holds that instrument and the session.  When it
    fails it has put an error message and holds nothing: an instrument that
    had been opened was told [:OUTP OFF] and closed, and the session was
    closed. *)
Theorem connect_holds_all_or_nothing (visa : Visa) (s : DataLogger.t) :
  DataLogger.dp s = None ->
  DataLogger.rm s = false ->
  let r := connect visa s in
  let new := since (DataLogger.trace s) (DataLogger.trace (snd r)) in
  (DataLogger.is_simulating s = true ->
   fst r = Ok true /\ List.filter is_io new = [] /\ DataLogger.dp (snd r) = None)
  /\ (DataLogger.is_simulating s = false ->
      (fst r = Ok true
       <-> pyvisa_present visa = true
           /\ resource_name (DataLogger.config s) <> ""
           /\ resource_manager_error visa = None
           /\ (exists ins, open_resource visa = Ok ins)
           /\ (exists text value, idn visa = Reply text value))
      /\ (fst r = Ok true ->
          exists ins,
            open_resource visa = Ok ins /\ DataLogger.dp (snd r) = Some ins
            /\ DataLogger.rm (snd r) = true
            /\ List.filter is_io new = [EvQuery "*IDN?"]))
  /\ (fst r = Ok true \/ fst r = Ok false)
  /\ (fst r = Ok false ->
      DataLogger.dp (snd r) = None /\ DataLogger.rm (snd r) = false
      /\ existsb (has_level STATUS_ERROR) new = true
      /\ (List.filter is_io new = []
          \/ List.filter is_io new = [EvRmClose]
          \/ List.filter is_io new
             = [EvQuery "*IDN?"; EvWrite OUTP_OFF; EvClose; EvRmClose]))
  /\ DataLogger._logged_data (snd r) = DataLogger._logged_data s
  /\ DataLogger.logging_thread (snd r) = DataLogger.logging_thread s.
Proof.
  destruct s as [cfg dm dp0 rm0 ev th sim data st t0 n d tr].
  destruct visa as [present rme open_ answer_].
  cbn [DataLogger.dp DataLogger.rm DataLogger.is_simulating DataLogger.config
       DataLogger._logged_data DataLogger.logging_thread DataLogger.trace
       pyvisa_present resource_manager_error open_resource idn].
  intros -> ->.
  unfold connect. rewrite bind_get.
  cbn [DataLogger.is_simulating DataLogger.config pyvisa_present
       resource_manager_error open_resource idn].
  destruct sim; [connect_case|].
  destruct present; cbn [negb]; [|connect_case].
  destruct (String.eqb_spec (resource_name cfg) "") as [En|En]; [connect_case|].
  unfold DataLogger.dp_query, DataLogger._send_status, DataLogger.emit,
    bind, try_, ret, raise, get, modify.
  destruct rme as [x|]; [destruct x; connect_case|].
  destruct open_ as [ins|x]; [|destruct x; connect_case].
  destruct answer_ as [text value|e|e]; connect_case.
Qed.

Lemma connect_witness :
  fst (connect (mkVisa true None (Ok Sample.instrument) (QueryVisaError "VI_ERROR_TMO"))
         (DataLogger.init Sample.cfg (DataManager.init 1000)))
  = Ok false
  /\ DataLogger.dp
       (snd (connect (mkVisa true None (Ok Sample.instrument)
                        (QueryVisaError "VI_ERROR_TMO"))
               (DataLogger.init Sample.cfg (DataManager.init 1000))))
     = None.
Proof.
  destruct (connect_holds_all_or_nothing
              (mkVisa true None (Ok Sample.instrument) (QueryVisaError "VI_ERROR_TMO"))
              (DataLogger.init Sample.cfg (DataManager.init 1000)) eq_refl eq_refl)
    as (_ & _ & _ & H & _).
  split; [reflexivity | apply H; reflexivity].
Defined.

(** ** What the worker sends to the instrument *)

Lemma writes_queries (qs : list event) : forallb is_query qs = true -> writes qs = [].
Proof.
  induction qs as [|e qs IH]; [reflexivity|]. cbn [forallb].
  intros H. apply andb_true_iff in H as [He Hes]. specialize (IH Hes).
  destruct e; try discriminate He; exact IH.
Qed.

Lemma while_loop_traffic (ticks : list Tick) (s : DataLogger.t) :
  DataLogger.stop_event s = false -> ready s ->
  exists es,
    DataLogger.trace (snd (DataLogger.while_loop ticks s)) = DataLogger.trace s ++ es
    /\ writes es
       = (if negb (DataLogger.is_simulating s)
             && halts (DataLogger.config s) (DataLogger.is_simulating s)
                  (DataLogger.start_time s) ticks
          then [OUTP_CH1_OFF] else [])
    /\ (DataLogger.is_simulating s = true -> List.filter is_io es = []).
Proof.
  revert s. induction ticks as [|i ticks IH]; intros s Hev Hr; cbn [DataLogger.while_loop halts].
  - rewrite bind_get, Hev. exists []. rewrite app_nil_r, andb_false_r. auto.
  - rewrite bind_get, Hev.
    destruct (measurement (DataLogger.config s) (DataLogger.is_simulating s)
                (now i - DataLogger.start_time s)%float i) as [[v c]|] eqn:Hm.
    + destruct (iteration_measured i s v c Hm Hr) as (msg & Hit & _).
      erewrite bind_eq by exact Hit.
      destruct (stops (DataLogger.config s) (now i - DataLogger.start_time s)%float v c)
        eqn:Hs.
      * eexists. split; [reflexivity|]. rewrite orb_true_l, andb_true_r.
        unfold read_events, halt_events.
        destruct (DataLogger.is_simulating s), (bool_decide (is_Some (beep i)));
          split; try reflexivity; discriminate.
      * match goal with |- context [DataLogger.while_loop ticks ?s1] => set (s1' := s1) end.
        destruct (IH s1') as (es & Htr & Hw & Hio).
        { subst s1'. simpl. now rewrite Hev. }
        { subst s1'. destruct s. exact Hr. }
        rewrite Htr.
        replace (DataLogger.config s1') with (DataLogger.config s) in Hw
          by (subst s1'; now destruct s).
        replace (DataLogger.is_simulating s1') with (DataLogger.is_simulating s) in Hw, Hio
          by (subst s1'; now destruct s).
        replace (DataLogger.start_time s1') with (DataLogger.start_time s) in Hw
          by (subst s1'; now destruct s).
        subst s1'. unfold sampled. cbn [DataLogger.trace]. rewrite <- app_assoc.
        eexists. split; [reflexivity|]. rewrite orb_false_l.
        rewrite writes_app, Hw. unfold read_events, pace_events.
        split.
        -- destruct (DataLogger.is_simulating s), (_ >. _); reflexivity.
        -- intros Hsim. rewrite List.filter_app, (Hio Hsim), Hsim.
           destruct (_ >. _); reflexivity.
    + destruct (iteration_failed i s Hm Hr) as (qs & msg & tb & Hit & Hqs & Htb).
      erewrite bind_eq by exact Hit.
      exists (qs ++ EvStatus STATUS_ERROR msg :: tb).
      split; [now destruct s|]. rewrite andb_false_r. split.
      * rewrite writes_app, (writes_queries qs Hqs).
        destruct Htb as [-> | ->]; reflexivity.
      * intros Hsim. unfold measurement in Hm. rewrite Hsim in Hm. discriminate.
Qed.

Lemma log_data_loop_traffic (clock : float) (ticks : list Tick) (s : DataLogger.t) :
  DataLogger.stop_event s = false ->
  ready s ->
  let s' := snd (DataLogger._log_data_loop clock ticks s) in
  let new := since (DataLogger.trace s) (DataLogger.trace s') in
  writes new
  = (if negb (DataLogger.is_simulating s)
        && halts (DataLogger.config s) (DataLogger.is_simulating s) clock ticks
     then [OUTP_CH1_OFF] else [])
  /\ (DataLogger.is_simulating s = true -> List.filter is_io new = [])
  /\ DataLogger.dp s' = DataLogger.dp s /\ DataLogger.rm s' = DataLogger.rm s.
Proof.
  intros Hev Hr s' new.
  destruct (log_data_loop_spec clock ticks s Hev Hr) as (s1 & Hrun & Hadv & _).
  destruct Hadv as (_ & Hdp & Hrm & _).
  assert (Hs' : s' = s1) by (subst s'; now rewrite Hrun).
  split; [|split; [|now rewrite Hs']].
  all: subst new s'; unfold DataLogger._log_data_loop, DataLogger.guarded.
  all: pose proof (loop_setup_spec clock s) as Hsetup; cbv zeta in Hsetup.
  all: set (s2 := logged _ _) in Hsetup.
  all: destruct (while_loop_spec ticks s2) as (left & s3 & Hw & _);
    [subst s2; destruct s; exact Hev | subst s2; destruct s; exact Hr |].
  all: destruct (while_loop_traffic ticks s2) as (es & Htr & Hwr & Hio);
    [subst s2; destruct s; exact Hev | subst s2; destruct s; exact Hr |].
  all: rewrite Hw in Htr; cbn [snd] in Htr.
  all: assert (Hin : bind (DataLogger.loop_setup clock)
                       (fun _ => DataLogger.while_loop ticks) s = (Ok left, s3))
         by (erewrite bind_eq by exact Hsetup; exact Hw).
  all: erewrite bind_eq by (apply try_eq; exact Hin).
  all: replace (DataLogger.config s2) with (DataLogger.config s) in Hwr
         by (subst s2; now destruct s).
  all: replace (DataLogger.is_simulating s2) with (DataLogger.is_simulating s) in Hwr, Hio
         by (subst s2; now destruct s).
  all: replace (DataLogger.start_time s2) with clock in Hwr
         by (subst s2; now destruct s).
  all: replace (DataLogger.trace s2)
         with (DataLogger.trace s
               ++ [EvStatus STATUS_INFO
                     [S_ "Logging started (Interval: ";
                      F0 (float_of_Z (Z.max (update_interval_ms (DataLogger.config s))
                                        MIN_UPDATE_INTERVAL_MS) / 1000.0 * 1000)%float;
                      S_ "ms)."]]) in Htr
         by (subst s2; now destruct s).
  all: destruct left; unfold DataLogger.finally_, DataLogger._send_status;
    rewrite ?bind_emit; unfold ret, modify; cbn [snd].
  all: try (replace (DataLogger.trace (DataLogger.set_logging_thread Finished
                                         (logged [EvStatus "LOGGER_FINISHED"
                                                    [S_ "Logger thread has ended."]] s3)))
              with (DataLogger.trace s3 ++ [EvStatus "LOGGER_FINISHED"
                                              [S_ "Logger thread has ended."]])
              by (now destruct s3)).
  all: rewrite Htr, <- ?app_assoc, since_app.
  - rewrite !writes_app, Hwr. cbn. now rewrite app_nil_r.
  - rewrite !writes_app, Hwr. cbn. reflexivity.
  - intros Hsim. rewrite !List.filter_app, (Hio Hsim). reflexivity.
  - intros Hsim. rewrite !List.filter_app, (Hio Hsim). reflexivity.
Qed.

(** X18. What the worker sends: over a whole [_log_data_loop] the only
    command written to the instrument is [:OUTP CH1,OFF], once, and only when
    a stop rule ended the run on a real instrument.  A run that ends on a
    failed read, or because a stop was requested, writes nothing: the output
    stays as it is until [stop] closes the connection.  In simulation mode
    the worker does not touch the instrument or the session at all. *)
Theorem worker_switches_off_only_on_a_stop_rule (clock : float) (ticks : list Tick)
    (s : DataLogger.t) :
  DataLogger.stop_event s = false ->
  ready s ->
  let s' := snd (DataLogger._log_data_loop clock ticks s) in
  let new := since (DataLogger.trace s) (DataLogger.trace s') in
  writes new
  = (if negb (DataLogger.is_simulating s)
        && halts (DataLogger.config s) (DataLogger.is_simulating s) clock ticks
     then [OUTP_CH1_OFF] else [])
  /\ (DataLogger.is_simulating s = true -> List.filter is_io new = [])
  /\ DataLogger.dp s' = DataLogger.dp s /\ DataLogger.rm s' = DataLogger.rm s.
Proof. exact (log_data_loop_traffic clock ticks s). Qed.

Lemma worker_switches_off_witness :
  writes (since (DataLogger.trace (Sample.connected Sample.cfg))
            (DataLogger.trace
               (snd (DataLogger._log_data_loop 100 Sample.ticks3
                       (Sample.connected Sample.cfg)))))
  = [OUTP_CH1_OFF].
Proof.
  destruct (worker_switches_off_only_on_a_stop_rule 100 Sample.ticks3
              (Sample.connected Sample.cfg) eq_refl
              (fun _ => ex_intro _ Sample.instrument eq_refl)) as [H _].
  rewrite H. reflexivity.
Defined.

(** ** The stop condition of the older loop *)

Lemma stays_calm_refl (s : Part000.t) : stays_calm s s.
Proof. intros _. split; [reflexivity | apply grows_refl]. Qed.

Lemma stays_calm_trans (s1 s2 s3 : Part000.t) :
  stays_calm s1 s2 -> stays_calm s2 s3 -> stays_calm s1 s3.
Proof.
  intros H12 H23 Hu. destruct (H12 Hu) as [E12 G12].
  destruct H23 as [E23 G23]; [now rewrite E12|].
  split; [congruence | eapply grows_trans; eassumption].
Qed.

Lemma old_threshold_check_spec (et c : float) (s : Part000.t) :
  exists msg,
    Part000.threshold_check et c s
    = (Ok (old_stops (Part000.stop_condition_ s) (Part000.threshold_ s) et c),
       if old_stops (Part000.stop_condition_ s) (Part000.threshold_ s) et c
       then Part000.set_trace (Part000.trace s ++ [EvStatus STATUS_WARNING msg]) s
       else s).
Proof.
  unfold Part000.threshold_check, old_stops, Part000.status_put, Part000.emit,
    bind, ret, get, modify.
  destruct (et >=. INITIAL_SETTLING_TIME_S); cbn [andb]; [|exists []; reflexivity].
  destruct (String.eqb_spec (Part000.stop_condition_ s) "below") as [Eb|Eb].
  - rewrite Eb. cbn [String.eqb Ascii.eqb Bool.eqb andb orb].
    destruct (fabs c <. Part000.threshold_ s); cbn; [eexists | exists []]; reflexivity.
  - cbn [andb orb]. destruct (String.eqb (Part000.stop_condition_ s) "above"); cbn [andb].
    + destruct (fabs c >. Part000.threshold_ s); cbn; [eexists | exists []]; reflexivity.
    + exists []. reflexivity.
Qed.

Lemma respects_threshold_check {A} (et c : float) (k : bool -> M Part000.t A) :
  respects stays_calm (k false) ->
  respects stays_calm (bind (Part000.threshold_check et c) k).
Proof.
  intros Hk s Hu. destruct (old_threshold_check_spec et c s) as [msg H].
  unfold bind. rewrite H.
  assert (Hf : old_stops (Part000.stop_condition_ s) (Part000.threshold_ s) et c = false).
  { unfold old_stops. destruct Hu as [Hb Ha].
    apply String.eqb_neq in Hb, Ha. rewrite Hb, Ha. apply andb_false_r. }
  rewrite Hf. apply Hk. exact Hu.
Qed.

Ltac calm_step :=
  lazymatch goal with
  | |- respects _ (bind (Part000.threshold_check _ _) _) =>
      apply respects_threshold_check
  | |- _ => respects_step stays_calm_refl stays_calm_trans
  end;
  try (let H := fresh in
       intros H; split;
       [reflexivity | first [apply grows_refl | apply grows_one; reflexivity]]).

Lemma old_iteration_calm (i : Tick) : respects stays_calm (Part000.iteration i).
Proof.
  unfold Part000.iteration, Part000.acquire, Part000.pace, Part000.dp_query,
    Part000.status_put, Part000.error_put, Part000.emit, to_float.
  repeat calm_step.
Qed.

Lemma old_while_loop_calm (ticks : list Tick) : respects stays_calm (Part000.while_loop ticks).
Proof.
  induction ticks as [|i ticks IH]; simpl.
  - repeat calm_step.
  - apply (respects_bind _ stays_calm_trans); [repeat calm_step|].
    intros s. destruct (Part000.stop_event s); [repeat calm_step|].
    apply (respects_bind _ stays_calm_trans).
    + apply old_iteration_calm.
    + intros [|]; [exact IH | repeat calm_step].
Qed.

Lemma calm_counts (es : list event) :
  forallb calm es = true ->
  count (has_level "STOP_SIGNAL") es = 0%nat /\ writes es = [].
Proof.
  intros H. split.
  - apply (count_excluded _ calm); [|exact H].
    intros e He. unfold calm in He. apply andb_true_iff in He as [He _].
    now destruct (has_level "STOP_SIGNAL" e).
  - induction es as [|e es IH]; [reflexivity|]. cbn [forallb] in H.
    apply andb_true_iff in H as [He Hes]. specialize (IH Hes).
    unfold calm in He. apply andb_true_iff in He as [_ He].
    destruct e; try discriminate He; exact IH.
Qed.

(** X19. The threshold rule of the older [_log_data] compares the stop
    condition with "below" and "above" as they are written: it fires from a
    settling time of exactly one second on, on the magnitude of the current,
    whatever the mode, and only for these two strings.  With any other
    condition - "Below", the default of that file's configuration, is one -
    a whole run never signals an automatic stop and never writes to the
    instrument: the output is not switched off however low the current gets. *)
Theorem old_loop_stop_condition_is_case_sensitive :
  (forall et c s,
      fst (Part000.threshold_check et c s)
      = Ok (old_stops (Part000.stop_condition_ s) (Part000.threshold_ s) et c))
  /\ (forall clock ticks s,
        unconditioned (stop_condition (Part000.config s)) ->
        let new := since (Part000.trace s)
                     (Part000.trace (snd (Part000._log_data clock ticks s))) in
        count (has_level "STOP_SIGNAL") new = 0%nat /\ writes new = []).
Proof.
  split.
  - intros et c s. destruct (old_threshold_check_spec et c s) as [msg ->]. reflexivity.
  - intros clock ticks s Hu new. apply calm_counts. subst new.
    unfold Part000._log_data.
    set (rest := bind (Part000.while_loop ticks) _).
    assert (Hrest : respects stays_calm rest).
    { unfold rest, Part000.status_put, Part000.emit.
      apply (respects_bind _ stays_calm_trans);
        [apply old_while_loop_calm | intros; repeat calm_step]. }
    unfold bind at 1. unfold try_ at 1. unfold bind at 1.
    rewrite old_loop_setup_spec. cbv iota beta zeta.
    match goal with |- context [rest ?s1] => set (s1' := s1); specialize (Hrest s1') end.
    destruct Hrest as [Hc (es & Hes & HQ)]; [subst s1'; destruct s; exact Hu|].
    assert (Hpre : exists pre, Part000.trace s1' = Part000.trace s ++ pre
                                /\ forallb calm pre = true).
    { subst s1'. destruct s. cbn [Part000.trace Part000.set_trace Part000.set_locals
                                   Part000.config].
      destruct (Z.ltb _ _); eexists; (split; [reflexivity|]); reflexivity. }
    destruct Hpre as (pre & Hpre & Hcalm). rewrite Hpre in Hes.
    destruct (rest s1') as [[[|]|x] s2]; cbn [snd fst] in *;
      unfold Part000.status_put, Part000.error_put, Part000.emit, bind, modify, ret;
      cbn [snd fst]; destruct s2; cbn [Part000.trace Part000.set_trace
                                       Part000.set_logging_thread] in *;
      rewrite Hes, <- ?app_assoc, since_app, ?forallb_app, Hcalm, HQ; reflexivity.
Qed.

Lemma old_loop_stop_condition_witness :
  writes (since (Part000.trace (Sample.connected_old
                                  (mkConfig "USB0::0x1AB1::INSTR" 4.0 0.5 0.1 "Below" 200
                                     1000 "/data" "all" false MODE_CONSTANT_VOLTAGE)))
            (Part000.trace
               (snd (Part000._log_data 100 Sample.ticks3
                       (Sample.connected_old
                          (mkConfig "USB0::0x1AB1::INSTR" 4.0 0.5 0.1 "Below" 200
                             1000 "/data" "all" false MODE_CONSTANT_VOLTAGE))))))
  = [].
Proof.
  refine (proj2 (proj2 old_loop_stop_condition_is_case_sensitive 100%float Sample.ticks3
                   (Sample.connected_old
                      (mkConfig "USB0::0x1AB1::INSTR" 4.0 0.5 0.1 "Below" 200
                         1000 "/data" "all" false MODE_CONSTANT_VOLTAGE)) _)).
  split; discriminate.
Defined.

(** ** Applying the settings form *)



Lemma bind_get' {St A} (k : St -> M St A) (s : St) : bind get k s = k s s.
Proof. reflexivity. Qed.














(** ** Saving a preset from the form *)








(** ** The logging controls *)

Lemma stop_logging_idle (h : Host) (app : Controls.t) :
  Controls.is_logging app = false -> Controls.stop_logging h app = (Ok tt, app).
Proof.
  intros H. unfold Controls.stop_logging. rewrite bind_get', H. reflexivity.
Qed.

Lemma stop_logging_runs (h : Host) (app : Controls.t) (l : DataLogger.t) :
  makedirs_error h = None ->
  Controls.is_logging app = true ->
  Controls.logger app = Some l ->
  exists l',
    DataLogger.stop h match Controls.notes_text app with
                      | Some text => strip text
                      | None => ""
                      end l = (Ok tt, l')
    /\ Controls.stop_logging h app
       = (Ok tt,
          Controls.mk false None false (Controls.notes_text app)
            (Controls.status_queue app
             ++ statuses (since (DataLogger.trace l) (DataLogger.trace l')))
            (Controls.log app ++ [(STATUS_INFO, [S_ "Stopping logging..."])])
            (Controls.history app
             ++ since (DataLogger.trace l) (DataLogger.trace l'))).
Proof.
  intros Hmk Hlog Hl.
  destruct (stop_returns h match Controls.notes_text app with
                           | Some text => strip text
                           | None => ""
                           end l Hmk) as (base & l' & Hstop & _).
  exists l'. split; [exact Hstop|].
  destruct app as [lg lo an nt q lg0 hist]. cbn in Hlog, Hl. subst lg lo.
  unfold Controls.stop_logging. rewrite bind_get'.
  cbn [Controls.is_logging negb Controls.logger Controls.ani Controls.notes_text].
  unfold Controls.add_status_message, Controls.update_ui_state, Controls.on_logger,
    bind, modify, ret.
  cbn [Controls.notes_text] in Hstop |- *. rewrite Hstop. destruct an; reflexivity.
Qed.

Lemma drain_idle (h : Host) (fuel : nat) (app : Controls.t) :
  Controls.is_logging app = false ->
  (length (Controls.status_queue app) <= fuel)%nat ->
  Controls.drain fuel h app
  = (Ok tt,
     Controls.set_log (Controls.log app ++ Controls.status_queue app)
       (Controls.set_status_queue [] app)).
Proof.
  revert app. induction fuel as [|fuel IH]; intros app Hlog Hlen.
  - destruct app as [lg lo an nt q lg0 hist]. cbn in *.
    destruct q; [|cbn in Hlen; lia]. unfold ret, Controls.set_log. cbn.
    now rewrite app_nil_r.
  - cbn [Controls.drain]. rewrite bind_get'.
    destruct app as [lg lo an nt q lg0 hist]. cbn in Hlog. subst lg.
    cbn [Controls.status_queue] in *.
    destruct q as [|[level message] q].
    { unfold ret, Controls.set_log. cbn. now rewrite app_nil_r. }
    unfold Controls.add_status_message. unfold bind at 1. unfold modify at 1.
    unfold bind at 1. unfold modify at 1.
    cbn [Controls.set_status_queue Controls.set_log Controls.is_logging Controls.logger
         Controls.ani Controls.notes_text Controls.status_queue Controls.log
         Controls.history].
    unfold bind at 1.
    assert (Hs : forall b, (if b : bool then Controls.stop_logging h else ret tt)
                   (Controls.mk false lo an nt q (lg0 ++ [(level, message)]) hist)
                 = (Ok tt, Controls.mk false lo an nt q (lg0 ++ [(level, message)]) hist)).
    { intros [|]; [now apply stop_logging_idle | reflexivity]. }
    rewrite Hs. rewrite bind_get'. cbn [Controls.is_logging]. rewrite andb_false_r.
    unfold bind at 1. unfold ret at 1.
    rewrite IH; [|reflexivity | cbn in *; lia].
    cbn. now rewrite <- app_assoc.
Qed.

Lemma drain_cons (h : Host) (l : DataLogger.t) (nt : option string)
    (level : string) (msg : message) (q : list (string * message))
    (fuel : nat) (an : bool) (lg : list (string * message)) (hist : list event) :
  makedirs_error h = None ->
  let notes := match nt with Some text => strip text | None => "" end in
  let new := since (DataLogger.trace l) (DataLogger.trace (snd (DataLogger.stop h notes l))) in
  Controls.drain (S fuel) h (Controls.mk true (Some l) an nt ((level, msg) :: q) lg hist)
  = if Controls.ends_the_run (level, msg)
    then Controls.drain fuel h
           (Controls.mk false None false nt (q ++ statuses new)
              ((lg ++ [(level, msg)]) ++ [(STATUS_INFO, [S_ "Stopping logging..."])])
              (hist ++ new))
    else Controls.drain fuel h
           (Controls.mk true (Some l) an nt q (lg ++ [(level, msg)]) hist).
Proof.
  intros Hmk notes new.
  cbn [Controls.drain]. rewrite bind_get'. cbn [Controls.status_queue].
  unfold Controls.add_status_message. unfold bind at 1. unfold modify at 1.
  unfold bind at 1. unfold modify at 1. cbv beta iota.
  set (app1 := Controls.mk true (Some l) an nt q (lg ++ [(level, msg)]) hist).
  change (Controls.set_log _ (Controls.set_status_queue q _)) with app1.
  destruct (stop_logging_runs h app1 l Hmk eq_refl eq_refl) as (l' & Hstop & Hrun).
  cbn [Controls.notes_text app1] in Hstop. fold notes in Hstop.
  assert (Hnew : since (DataLogger.trace l) (DataLogger.trace l') = new)
    by (subst new; now rewrite Hstop).
  rewrite Hnew in Hrun.
  cbn [Controls.notes_text Controls.status_queue Controls.log Controls.history app1]
    in Hrun.
  unfold Controls.ends_the_run. cbn [fst].
  destruct (String.eqb level "STOP_SIGNAL") eqn:Es.
  - unfold bind at 1. cbv beta iota. rewrite Hrun. rewrite bind_get'.
    cbn [Controls.is_logging orb]. rewrite andb_false_r. reflexivity.
  - unfold bind at 1. unfold ret at 1. rewrite bind_get'.
    cbn [Controls.is_logging app1 orb]. rewrite andb_true_r.
    destruct (String.eqb level "LOGGER_FINISHED") eqn:Ef.
    + unfold bind at 1. cbv beta iota. rewrite Hrun. reflexivity.
    + reflexivity.
Qed.

Lemma drain_running (h : Host) (l : DataLogger.t) (nt : option string)
    (q : list (string * message)) :
  makedirs_error h = None ->
  let notes := match nt with Some text => strip text | None => "" end in
  let new := since (DataLogger.trace l) (DataLogger.trace (snd (DataLogger.stop h notes l))) in
  forall (fuel : nat) (an : bool) (lg : list (string * message)) (hist : list event),
    (length q + length (statuses new) <= fuel)%nat ->
    fst (Controls.drain fuel h (Controls.mk true (Some l) an nt q lg hist)) = Ok tt
    /\ Controls.status_queue
         (snd (Controls.drain fuel h (Controls.mk true (Some l) an nt q lg hist))) = []
    /\ if existsb Controls.ends_the_run q
       then Controls.is_logging
              (snd (Controls.drain fuel h (Controls.mk true (Some l) an nt q lg hist)))
            = false
            /\ Controls.logger
                 (snd (Controls.drain fuel h (Controls.mk true (Some l) an nt q lg hist)))
               = None
            /\ Controls.history
                 (snd (Controls.drain fuel h (Controls.mk true (Some l) an nt q lg hist)))
               = hist ++ new
       else Controls.is_logging
              (snd (Controls.drain fuel h (Controls.mk true (Some l) an nt q lg hist)))
            = true
            /\ Controls.logger
                 (snd (Controls.drain fuel h (Controls.mk true (Some l) an nt q lg hist)))
               = Some l
            /\ Controls.history
                 (snd (Controls.drain fuel h (Controls.mk true (Some l) an nt q lg hist)))
               = hist.
Proof.
  intros Hmk notes new.
  induction q as [|[level msg] q IH]; intros fuel an lg hist Hfuel.
  - destruct fuel; cbn; auto.
  - destruct fuel as [|fuel]; [cbn in Hfuel; lia|].
    rewrite (drain_cons h l nt level msg q fuel an lg hist Hmk).
    fold notes. fold new. cbn [existsb].
    destruct (Controls.ends_the_run (level, msg)); cbn [orb].
    + rewrite drain_idle; [|reflexivity | cbn in *; rewrite length_app; lia].
      cbn. auto.
    + apply IH. cbn in Hfuel. lia.
Qed.

(** X22. [check_queues] stops a run once.  With the application logging and
    a logger at hand, polling the status queue shows every message and
    empties the queue, whatever it holds.  If one of the messages is
    [STOP_SIGNAL] or [LOGGER_FINISHED], [stop] of the logger runs exactly
    once - at the first of them - however many follow and although [stop]
    itself puts further messages on the queue: the samples are exported once,
    the logger is dropped and the application is no longer logging.
    Otherwise the run goes on untouched. *)
Theorem check_queues_stops_the_run_once (h : Host) (app : Controls.t)
    (l : DataLogger.t) :
  let notes := match Controls.notes_text app with
               | Some text => strip text
               | None => ""
               end in
  let new := since (DataLogger.trace l)
               (DataLogger.trace (snd (DataLogger.stop h notes l))) in
  makedirs_error h = None ->
  Controls.is_logging app = true ->
  Controls.logger app = Some l ->
  forall fuel,
    (length (Controls.status_queue app) + length (statuses new) <= fuel)%nat ->
    let r := Controls.check_queues fuel h app in
    let did := drop (length (Controls.history app)) (Controls.history (snd r)) in
    fst r = Ok tt
    /\ Controls.status_queue (snd r) = []
    /\ if existsb Controls.ends_the_run (Controls.status_queue app)
       then Controls.is_logging (snd r) = false /\ Controls.logger (snd r) = None
            /\ did = new
            /\ exported did = [DataLogger._logged_data l]
            /\ last did = Some (STOPPED (DataLogger._logged_data l))
       else Controls.is_logging (snd r) = true /\ Controls.logger (snd r) = Some l
            /\ did = [].
Proof.
  intros notes new Hmk Hlog Hl fuel Hfuel r did.
  destruct app as [lg lo an nt q lg0 hist]. cbn in Hlog, Hl.
  subst lg lo. cbn [Controls.history Controls.status_queue Controls.notes_text] in *.
  pose proof (drain_running h l nt q Hmk fuel an lg0 hist Hfuel) as (Hr & Hq & Hif).
  subst did r. unfold Controls.check_queues. unfold bind, try_.
  destruct (Controls.drain fuel h _) as [[[]|x] app'] eqn:Hd; cbn [fst snd] in *;
    try discriminate Hr.
  unfold ret. cbn [fst snd]. split; [reflexivity|]. split; [exact Hq|].
  destruct (existsb Controls.ends_the_run q).
  - destruct Hif as (H1 & H2 & H3). rewrite H3, drop_app_length.
    split; [exact H1|]. split; [exact H2|]. split; [reflexivity|].
    destruct (stop_returns h notes l Hmk) as (base & l' & Hstop & Htr & _).
    subst new notes. rewrite Hstop. cbn [snd]. rewrite Htr, since_app.
    split.
    + rewrite !exported_app, (exported_idle _ (idle_stop_prelude h l)),
        exported_export_data.
      replace (exported (if DataLogger.is_simulating l then _ else _))
        with (@nil (list Row))
        by (destruct (DataLogger.is_simulating l);
            [reflexivity | symmetry; apply exported_closing]).
      reflexivity.
    + rewrite !app_assoc. apply last_snoc.
  - destruct Hif as (H1 & H2 & H3). rewrite H3, drop_all. auto.
Qed.

Lemma check_queues_witness :
  Controls.is_logging
    (snd (Controls.check_queues 20 Sample.host
            (Controls.mk true (Some (Sample.running Sample.cfg)) true (Some " notes ")
               [(STATUS_WARNING, [S_ "Stop: Current 0.0500 < 0.1000 A."]);
                ("STOP_SIGNAL", [S_ "Auto-Stop Triggered"]);
                ("LOGGER_FINISHED", [S_ "Logger thread has ended."])] [] [])))
  = false.
Proof.
  assert (Hfuel : (length [(STATUS_WARNING, [S_ "Stop: Current 0.0500 < 0.1000 A."]);
                           ("STOP_SIGNAL", [S_ "Auto-Stop Triggered"]);
                           ("LOGGER_FINISHED", [S_ "Logger thread has ended."])]
                   + length (statuses
                               (since (DataLogger.trace (Sample.running Sample.cfg))
                                  (DataLogger.trace
                                     (snd (DataLogger.stop Sample.host (strip " notes ")
                                             (Sample.running Sample.cfg))))))
                   <= 20)%nat) by (vm_compute; lia).
  exact (proj1 (proj2 (proj2 (check_queues_stops_the_run_once Sample.host
              (Controls.mk true (Some (Sample.running Sample.cfg)) true (Some " notes ")
                 [(STATUS_WARNING, [S_ "Stop: Current 0.0500 < 0.1000 A."]);
                  ("STOP_SIGNAL", [S_ "Auto-Stop Triggered"]);
                  ("LOGGER_FINISHED", [S_ "Logger thread has ended."])] [] [])
              (Sample.running Sample.cfg) eq_refl eq_refl eq_refl 20%nat Hfuel)))).
Defined.

(** ** A simulated run *)

(** X23. A simulated run never touches the instrument or the VISA session:
    from [start] through the worker to the end of [stop] - whether [stop]
    returns or fails on the directory - nothing is queried, written or
    closed, and an instrument and a session that happen to be held stay as
    they are. *)
Theorem simulated_run_never_touches_the_instrument (h : Host) (c0 c1 : float)
    (ticks : list Tick) (notes : string) (s : DataLogger.t) :
  DataLogger.is_simulating s = true ->
  let s' := snd (DataLogger.run h c0 c1 ticks notes s) in
  List.filter is_io (since (DataLogger.trace s) (DataLogger.trace s')) = []
  /\ DataLogger.dp s' = DataLogger.dp s
  /\ DataLogger.rm s' = DataLogger.rm s.
Proof.
  intros Hsim s'. subst s'. unfold DataLogger.run.
  destruct (DataLogger.logging_thread s) eqn:Hth.
  1,3: (* no worker alive: the run starts *)
    set (s1 := DataLogger.set_logging_thread Alive
                 (DataLogger.set_logged_data []
                    (logged [EvStatus STATUS_INFO [S_ "Simulation started."]]
                       (DataLogger.set_sim_start_time (Some c0)
                          (DataLogger.set_stop_event false s)))));
    assert (Hstart : DataLogger.start h c0 s = (Ok true, s1))
      by (subst s1; destruct s; cbn in Hsim, Hth; subst; reflexivity);
    erewrite bind_eq by exact Hstart; cbv beta iota;
    assert (Hr1 : ready s1) by (subst s1; destruct s; cbn in Hsim; subst; discriminate);
    assert (He1 : DataLogger.stop_event s1 = false) by (subst s1; now destruct s);
    assert (Hs1 : DataLogger.is_simulating s1 = true) by (subst s1; now destruct s);
    destruct (log_data_loop_spec c1 ticks s1 He1 Hr1) as (s2 & Hloop & Hadv & _);
    destruct (log_data_loop_traffic c1 ticks s1 He1 Hr1) as (_ & Hio & Hdp2 & Hrm2);
    rewrite Hloop in Hio, Hdp2, Hrm2; cbn [snd] in Hio, Hdp2, Hrm2;
    specialize (Hio Hs1);
    destruct Hadv as (_ & _ & _ & Hs2 & _ & _ & es & Htr2 & _);
    rewrite Htr2, since_app in Hio;
    erewrite bind_eq by exact Hloop;
    assert (Htr1 : DataLogger.trace s1
                   = DataLogger.trace s ++ [EvStatus STATUS_INFO [S_ "Simulation started."]])
      by (subst s1; now destruct s);
    assert (Hdp1 : DataLogger.dp s1 = DataLogger.dp s) by (subst s1; now destruct s);
    assert (Hrm1 : DataLogger.rm s1 = DataLogger.rm s) by (subst s1; now destruct s);
    rewrite Hs1 in Hs2;
    (destruct (makedirs_error h) as [x|] eqn:Hmk;
     [ destruct (stop_raises h notes s2 x Hmk) as (s3 & Hstop & Htr3 & _ & Hdp3 & Hrm3 & _);
       erewrite bind_raise by exact Hstop; cbn [snd];
       rewrite Htr3, Htr2, Htr1, <- !app_assoc, since_app, !List.filter_app, Hio,
         (filter_is_io_idle _ (idle_stop_prelude h s2));
       split; [reflexivity | split; congruence]
     | destruct (stop_returns h notes s2 Hmk)
         as (base & s3 & Hstop & Htr3 & _ & _ & _ & _ & _ & _ & Hdp3 & Hrm3);
       erewrite bind_eq by exact Hstop; unfold ret; cbn [snd];
       rewrite Hs2 in Htr3, Hdp3, Hrm3;
       rewrite Htr3, Htr2, Htr1, <- !app_assoc, since_app, !List.filter_app, Hio,
         (filter_is_io_idle _ (idle_stop_prelude h s2));
       match goal with |- context [DataExporter.export_data ?a ?b ?c ?d ?e] =>
         rewrite (filter_is_io_no_io _ (idle_export_data a b c d e)) end;
       split; [reflexivity | split; congruence] ]).
  (* a worker is alive: [start] refuses *)
  destruct s; cbn in Hsim, Hth; subst. cbn. rewrite drop_app_length. auto.
Qed.

Lemma simulated_run_witness :
  List.filter is_io
    (since (DataLogger.trace (DataLogger.set_dp (Some Sample.instrument)
                                (DataLogger.init
                                   (mkConfig "" 4.0 0.5 0.1 "below" 200 1000 "/data"
                                      "all" true MODE_CONSTANT_VOLTAGE)
                                   (DataManager.init 1000))))
       (DataLogger.trace
          (snd (DataLogger.run Sample.host 100 100 Sample.ticks3 "notes"
                  (DataLogger.set_dp (Some Sample.instrument)
                     (DataLogger.init
                        (mkConfig "" 4.0 0.5 0.1 "below" 200 1000 "/data"
                           "all" true MODE_CONSTANT_VOLTAGE)
                        (DataManager.init 1000)))))))
  = [].
Proof.
  exact (proj1 (simulated_run_never_touches_the_instrument Sample.host 100 100
                  Sample.ticks3 "notes"
                  (DataLogger.set_dp (Some Sample.instrument)
                     (DataLogger.init
                        (mkConfig "" 4.0 0.5 0.1 "below" 200 1000 "/data"
                           "all" true MODE_CONSTANT_VOLTAGE)
                        (DataManager.init 1000)))
                  eq_refl)).
Defined.

(** ** Starting a run from the application *)

Lemma connect_result (visa : Visa) (s : DataLogger.t) :
  DataLogger.dp s = None ->
  DataLogger.rm s = false ->
  exists (b : bool) (es : list event) (s' : DataLogger.t),
    connect visa s = (Ok b, s')
    /\ DataLogger.trace s' = DataLogger.trace s ++ es
    /\ forallb unsaved es = true
    /\ DataLogger.config s' = DataLogger.config s
    /\ DataLogger.is_simulating s' = DataLogger.is_simulating s
    /\ DataLogger._logged_data s' = DataLogger._logged_data s
    /\ DataLogger.logging_thread s' = DataLogger.logging_thread s
    /\ (b = false -> DataLogger.dp s' = None /\ DataLogger.rm s' = false)
    /\ (b = true -> ready s').
Proof.
  destruct s as [cfg dm dp0 rm0 ev th sim data st t0 n d tr].
  destruct visa as [present rme open_ answer_].
  cbn [DataLogger.dp DataLogger.rm DataLogger.is_simulating DataLogger.config
       DataLogger._logged_data DataLogger.logging_thread DataLogger.trace].
  intros -> ->.
  unfold connect. rewrite bind_get.
  cbn [DataLogger.is_simulating DataLogger.config pyvisa_present
       resource_manager_error open_resource idn].
  assert (Hdone : forall (b : bool) (es : list event) (dp1 : option Instrument) (rm1 : bool),
             forallb unsaved es = true ->
             (b = false -> dp1 = None /\ rm1 = false) ->
             (b = true -> sim = false -> is_Some dp1) ->
             exists (b' : bool) (es' : list event) (s' : DataLogger.t),
               (Ok b, DataLogger.mk cfg dm dp1 rm1 ev th sim data st t0 n d (tr ++ es))
               = (Ok b', s')
               /\ DataLogger.trace s' = tr ++ es'
               /\ forallb unsaved es' = true
               /\ DataLogger.config s' = cfg
               /\ DataLogger.is_simulating s' = sim
               /\ DataLogger._logged_data s' = data
               /\ DataLogger.logging_thread s' = th
               /\ (b' = false -> DataLogger.dp s' = None /\ DataLogger.rm s' = false)
               /\ (b' = true -> ready s')).
  { intros b es dp1 rm1 Hes Hf Ht. exists b, es, (DataLogger.mk cfg dm dp1 rm1 ev th sim
                                                     data st t0 n d (tr ++ es)).
    split; [reflexivity|]. split; [reflexivity|]. split; [exact Hes|].
    split; [reflexivity|]. split; [reflexivity|]. split; [reflexivity|].
    split; [reflexivity|]. split; [exact Hf|].
    intros Hb Hs. exact (Ht Hb Hs). }
  destruct sim.
  { cbn. apply Hdone; [reflexivity | discriminate | discriminate]. }
  destruct present; cbn [negb].
  2:{ cbn. apply Hdone; [reflexivity | auto | discriminate]. }
  destruct (String.eqb (resource_name cfg) "").
  { cbn. apply Hdone; [reflexivity | auto | discriminate]. }
  unfold DataLogger.dp_query, DataLogger._send_status, DataLogger.emit,
    bind, try_, ret, raise, get, modify.
  destruct rme as [x|].
  { destruct x; cbn -[DataLogger._close_connection]; rewrite close_connection_eq;
      unfold closing_events, logged; cbn; rewrite <- ?app_assoc;
      (apply Hdone; [reflexivity | auto | discriminate]). }
  destruct open_ as [ins|x].
  2:{ destruct x; cbn -[DataLogger._close_connection]; rewrite close_connection_eq;
      unfold closing_events, logged; cbn; rewrite <- ?app_assoc;
      (apply Hdone; [reflexivity | auto | discriminate]). }
  destruct answer_ as [text value|e|e];
    cbn -[DataLogger._close_connection]; rewrite ?close_connection_eq;
    unfold closing_events, logged; cbn;
    try destruct (close_error ins); rewrite <- ?app_assoc;
    (apply Hdone; [reflexivity | auto; discriminate | intros; eauto; discriminate]).
Qed.

Lemma setup_unsaved : respects (only_logs unsaved) DataLogger._setup_instrument.
Proof.
  unfold DataLogger._setup_instrument, DataLogger.dp_write, DataLogger._send_status,
    DataLogger.emit.
  repeat (respects_step (only_logs_refl unsaved) (only_logs_trans unsaved);
          try (eexists [_]; split; reflexivity)).
Qed.

Lemma attempted_unsaved (es : list event) :
  forallb unsaved es = true -> DataExporter.attempted es = [] /\ exported es = [].
Proof.
  induction es as [|e es IH]; [split; reflexivity|]. cbn [forallb].
  intros H. apply andb_true_iff in H as [He Hes]. destruct (IH Hes) as [IH1 IH2].
  unfold DataExporter.attempted, exported in *.
  destruct e; try discriminate He; cbn [omap]; split; assumption.
Qed.

(** [stop] on a logger without samples. *)
Lemma stop_of_nothing (h : Host) (notes : string) (s : DataLogger.t) :
  makedirs_error h = None ->
  DataLogger._logged_data s = [] ->
  exists es s',
    DataLogger.stop h notes s = (Ok tt, s')
    /\ DataLogger.trace s' = DataLogger.trace s ++ es
    /\ DataExporter.attempted es = [] /\ exported es = [[]]
    /\ DataLogger._logged_data s' = []
    /\ DataLogger.logging_thread s' = NoThread
    /\ DataLogger.is_simulating s' = DataLogger.is_simulating s
    /\ DataLogger.dp s' = (if DataLogger.is_simulating s then DataLogger.dp s else None)
    /\ DataLogger.rm s' = (if DataLogger.is_simulating s then DataLogger.rm s else false).
Proof.
  intros Hmk Hdata.
  destruct (stop_returns h notes s Hmk)
    as (base & s' & Hstop & Htr & Hl & _ & _ & Hsim & Hth & _ & Hdp & Hrm).
  rewrite Hdata in Htr, Hl. eexists _, s'. split; [exact Hstop|].
  split; [exact Htr|].
  assert (Hcl : DataExporter.attempted
                  (if DataLogger.is_simulating s
                   then [EvStatus STATUS_INFO [S_ "Simulation stopped."]]
                   else closing_events s) = []
                /\ exported (if DataLogger.is_simulating s
                             then [EvStatus STATUS_INFO [S_ "Simulation stopped."]]
                             else closing_events s) = []).
  { destruct (DataLogger.is_simulating s); [split; reflexivity|].
    split; [apply attempted_closing | apply exported_closing]. }
  destruct Hcl as [Hc1 Hc2].
  split; [|split; [|repeat split; assumption]].
  - rewrite !attempted_app, attempted_idle_prelude, Hc1. reflexivity.
  - rewrite !exported_app, (exported_idle _ (idle_stop_prelude h s)), Hc2. reflexivity.
Qed.

Lemma start_result (h : Host) (clock : float) (s : DataLogger.t) :
  makedirs_error h = None ->
  DataLogger.logging_thread s <> Alive ->
  ready s ->
  DataLogger._logged_data s = [] ->
  exists (b : bool) (es : list event) (s1 : DataLogger.t),
    DataLogger.start h clock s = (Ok b, s1)
    /\ DataLogger.trace s1 = DataLogger.trace s ++ es
    /\ DataExporter.attempted es = []
    /\ DataLogger._logged_data s1 = []
    /\ DataLogger.is_simulating s1 = DataLogger.is_simulating s
    /\ (b = true ->
        DataLogger.logging_thread s1 = Alive /\ DataLogger.stop_event s1 = false
        /\ ready s1 /\ exported es = [])
    /\ (b = false ->
        DataLogger.dp s1 = None /\ DataLogger.rm s1 = false
        /\ DataLogger.logging_thread s1 = NoThread /\ exported es = [[]]).
Proof.
  intros Hmk Hth Hr Hdata.
  destruct (DataLogger.is_simulating s) eqn:Hsim.
  - exists true, [EvStatus STATUS_INFO [S_ "Simulation started."]].
    eexists. split.
    + destruct s. cbn in Hsim, Hth. subst. destruct logging_thread; try congruence;
        reflexivity.
    + destruct s. cbn in *. subst.
      repeat split; try reflexivity; try discriminate.
      all: destruct logging_thread; try congruence; try reflexivity; discriminate.
  - destruct (Hr Hsim) as [ins Hdp].
    set (s0 := DataLogger.set_stop_event false s).
    assert (Hdp0 : DataLogger.dp s0 = Some ins) by (subst s0; destruct s; exact Hdp).
    destruct (setup_instrument_result s0 ins Hdp0) as (ok & es & Hsetup & _).
    pose proof (setup_unsaved s0) as (es' & Hes' & Hun). rewrite Hsetup in Hes'.
    cbn [snd] in Hes'.
    assert (es' = es) as ->.
    { apply (f_equal DataLogger.trace) in Hes'. unfold logged in Hes'.
      destruct s0. cbn in Hes'. now apply app_inv_head in Hes'. }
    destruct (attempted_unsaved es Hun) as [Hat Hex].
    assert (Hstart : DataLogger.start h clock s
                     = (ok <- DataLogger._setup_instrument ;;
                        if ok then DataLogger.launch
                        else (DataLogger.stop h "" ;; ret false))%py s0).
    { unfold DataLogger.start. rewrite bind_modify, bind_get. fold s0.
      replace (DataLogger.logging_thread s0) with (DataLogger.logging_thread s)
        by (subst s0; now destruct s).
      replace (DataLogger.is_simulating s0) with false
        by (subst s0; destruct s; now symmetry).
      rewrite Hdp0. cbn [negb].
      destruct (DataLogger.logging_thread s); try congruence; reflexivity. }
    rewrite Hstart. erewrite bind_eq by exact Hsetup.
    assert (Ht0 : DataLogger.trace (logged es s0) = DataLogger.trace s ++ es)
      by (subst s0; now destruct s).
    destruct ok.
    + exists true, es. eexists. split; [reflexivity|].
      split; [subst s0; now destruct s|]. split; [exact Hat|].
      split; [subst s0; now destruct s|]. split; [subst s0; destruct s; exact Hsim|].
      split; [|discriminate]. intros _.
      split; [subst s0; now destruct s|]. split; [subst s0; now destruct s|].
      split; [|exact Hex]. intros _. subst s0. destruct s. cbn in *. eauto.
    + destruct (stop_of_nothing h "" (logged es s0) Hmk)
        as (es2 & s1 & Hstop & Htr & Hat2 & Hex2 & Hl & Hth1 & Hs1 & Hdp1 & Hrm1).
      { subst s0. destruct s. exact Hdata. }
      assert (Hs0 : DataLogger.is_simulating (logged es s0) = false)
        by (subst s0; destruct s; exact Hsim).
      rewrite Hs0 in Hdp1, Hrm1, Hs1.
      exists false, (es ++ es2), s1. split.
      { erewrite bind_eq by exact Hstop. reflexivity. }
      split; [rewrite Htr, Ht0, app_assoc; reflexivity|].
      split; [rewrite attempted_app, Hat, Hat2; reflexivity|].
      split; [exact Hl|]. split; [exact Hs1|]. split; [discriminate|].
      intros _. repeat split; try assumption.
      rewrite exported_app, Hex, Hex2. reflexivity.
Qed.

(** X24. Starting a run from the application either succeeds or is cleaned
    up.  [_connect_and_start_logging_task] on the fresh logger of
    [start_logging] never raises when the directory of the files can be
    made.  When [connect] and [start] succeed the worker is alive on a ready
    logger and nothing has been exported.  Otherwise, after the [stop] of
    [_handle_start_failure], the logger holds neither instrument nor
    session, has no worker and no samples, and no file was written: the
    empty sample list went to the export once, or twice when [start] had
    already stopped on a rejected set-up. *)
Theorem failed_start_is_cleaned_up (visa : Visa) (h : Host) (clock : float)
    (cfg : Config) (dm : DataManager.t) :
  makedirs_error h = None ->
  let r := start_or_clean_up visa h clock (DataLogger.init cfg dm) in
  let did := DataLogger.trace (snd r) in
  DataExporter.attempted did = []
  /\ ((fst r = Ok true
       /\ DataLogger.logging_thread (snd r) = Alive
       /\ DataLogger.stop_event (snd r) = false
       /\ ready (snd r)
       /\ exported did = [])
      \/ (fst r = Ok false
          /\ DataLogger.dp (snd r) = None /\ DataLogger.rm (snd r) = false
          /\ DataLogger.logging_thread (snd r) = NoThread
          /\ DataLogger._logged_data (snd r) = []
          /\ (exported did = [[]] \/ exported did = [[]; []]))).
Proof.
  intros Hmk r did. subst did r. unfold start_or_clean_up, connect_and_start.
  set (s := DataLogger.init cfg dm).
  destruct (connect_result visa s eq_refl eq_refl)
    as (b & es & s1 & Hconn & Htr1 & Hun & _ & Hsim1 & Hl1 & Hth1 & Hf1 & Ht1).
  destruct (attempted_unsaved es Hun) as [Hat1 Hex1].
  change (DataLogger.trace s) with (@nil event) in Htr1. rewrite app_nil_l in Htr1.
  change (DataLogger._logged_data s) with (@nil Row) in Hl1.
  change (DataLogger.logging_thread s) with NoThread in Hth1.
  destruct b.
  - destruct (start_result h clock s1 Hmk) as (b2 & es2 & s2 & Hstart & Htr2 & Hat2
                                               & Hl2 & Hsim2 & Ht2 & Hf2);
      [rewrite Hth1; discriminate | now apply Ht1 | exact Hl1 |].
    assert (Hcs : bind (connect visa)
                    (fun connected => if connected then DataLogger.start h clock
                                      else ret false) s = (Ok b2, s2)).
    { erewrite bind_eq by exact Hconn. exact Hstart. }
    erewrite bind_eq by exact Hcs.
    destruct b2.
    + destruct (Ht2 eq_refl) as (Ha & Hb & Hc & Hd). unfold ret. cbn [fst snd].
      rewrite Htr2, Htr1, attempted_app, exported_app, Hat1, Hat2, Hex1, Hd.
      split; [reflexivity|]. left. repeat split; assumption.
    + destruct (Hf2 eq_refl) as (Ha & Hb & Hc & Hd).
      destruct (stop_of_nothing h "" s2 Hmk Hl2)
        as (es3 & s3 & Hstop & Htr3 & Hat3 & Hex3 & Hl3 & Hth3 & _ & Hdp3 & Hrm3).
      erewrite bind_eq by exact Hstop. unfold ret. cbn [fst snd].
      rewrite Htr3, Htr2, Htr1, !attempted_app, !exported_app, Hat1, Hat2, Hat3,
        Hex1, Hd, Hex3.
      split; [reflexivity|]. right.
      rewrite Ha, Hb in *. split; [reflexivity|].
      split; [now destruct (DataLogger.is_simulating s2)|].
      split; [now destruct (DataLogger.is_simulating s2)|].
      split; [exact Hth3|]. split; [exact Hl3|]. right. reflexivity.
  - destruct (Hf1 eq_refl) as [Ha Hb].
    assert (Hcs : bind (connect visa)
                    (fun connected => if connected then DataLogger.start h clock
                                      else ret false) s = (Ok false, s1)).
    { erewrite bind_eq by exact Hconn. reflexivity. }
    erewrite bind_eq by exact Hcs.
    destruct (stop_of_nothing h "" s1 Hmk Hl1)
      as (es3 & s3 & Hstop & Htr3 & Hat3 & Hex3 & Hl3 & Hth3 & _ & Hdp3 & Hrm3).
    erewrite bind_eq by exact Hstop. unfold ret. cbn [fst snd].
    rewrite Htr3, Htr1, !attempted_app, !exported_app, Hat1, Hat3, Hex1, Hex3.
    split; [reflexivity|]. right.
    rewrite Ha, Hb in *. split; [reflexivity|].
    split; [now destruct (DataLogger.is_simulating s1)|].
    split; [now destruct (DataLogger.is_simulating s1)|].
    split; [exact Hth3|]. split; [exact Hl3|]. left. reflexivity.
Qed.

Lemma failed_start_witness :
  exported
    (DataLogger.trace
       (snd (start_or_clean_up
               (mkVisa true None
                  (Ok (mkInstrument
                         (fun cmd => if is_off_command cmd then None
                                     else Some (VisaIOError "VI_ERROR_TMO"))
                         None))
                  (Reply "RIGOL TECHNOLOGIES,DP832" None))
               Sample.host 100
               (DataLogger.init Sample.cfg (DataManager.init 1000)))))
  = [[]; []].
Proof.
  destruct (proj2 (failed_start_is_cleaned_up
                     (mkVisa true None
                        (Ok (mkInstrument
                               (fun cmd => if is_off_command cmd then None
                                           else Some (VisaIOError "VI_ERROR_TMO"))
                               None))
                        (Reply "RIGOL TECHNOLOGIES,DP832" None))
                     Sample.host 100 Sample.cfg (DataManager.init 1000) eq_refl))
    as [(H & _) | (_ & _ & _ & _ & _ & [H | H])].
  - discriminate H.
  - discriminate H.
  - exact H.
Defined.
